(** * Curation pipeline of loopfactory-agi-os: feature extraction, heuristic
    scoring and filtering, embedded from
    [components/curation/feature_extractor.py],
    [components/curation/quality_scorer.py] and [main.py].

    Modelling conventions.
    - A Python [float] is a rational ([Q]); equality of floats is [Qeq].
      Every constant of the source is a short decimal and every bound proved
      below keeps a margin far above one unit in the last place.
    - A Python [str] is a [string] whose characters are the code points
      U+0000 to U+00FF (the one-byte representation CPython uses for such
      strings); the character classes below are those of that range.
    - A JSON object with a fixed set of keys is a record whose fields are
      options: [None] is an absent key, and subscripting it raises
      [KeyError].  A mapping with free keys (the metadata, the identifier
      index of the filtering stage) is a [gmap].
    - Exceptions are values of [exn]; a function that may raise returns
      [exn + A].  The scorer carries its three counters in a state. *)

From Stdlib Require Import ZArith QArith Qminmax Lqa Lia List Ascii String Bool.
From Stdlib Require Import Sorted Permutation.
From stdpp Require Import base option list gmap strings.

Local Open Scope string_scope.
Local Open Scope list_scope.
Local Open Scope Z_scope.

(** ** Exceptions and the error monad *)

Inductive exn : Type :=
| SyntaxError
| KeyError (key : string)
| IndexError
| ValueError (arg : string)
| UnicodeEncodeError
| MemoryError
| RecursionError.

Definition result (A : Type) : Type := (exn + A)%type.

Definition ok {A} (a : A) : result A := inr a.
Definition raise {A} (e : exn) : result A := inl e.

Definition rbind {A B} (m : result A) (k : A → result B) : result B :=
  match m with
  | inl e => inl e
  | inr a => k a
  end.

Declare Scope py_scope.
Delimit Scope py_scope with py.
Notation "'let!' x ':=' m 'in' k" := (rbind m (fun x => k))
  (at level 10, x pattern, m at level 100, k at level 200) : py_scope.

(** [d[key]] on a record field that mirrors a dictionary key. *)
Definition subscript {A} (field : option A) (key : string) : result A :=
  match field with
  | Some v => ok v
  | None => raise (KeyError key)
  end.

(** ** Strings *)

Module PyStr.

Definition code (c : ascii) : N := N_of_ascii c.

Definition in_range (lo hi : N) (c : ascii) : bool :=
  (N.leb lo (code c) && N.leb (code c) hi)%bool.

(** [str.isspace] on one character. *)
Definition is_space (c : ascii) : bool :=
  (in_range 9 13 c || in_range 28 32 c
   || N.eqb (code c) 133 || N.eqb (code c) 160)%bool.

(** The class [\d] of [re]: decimal digits. *)
Definition is_decimal (c : ascii) : bool := in_range 48 57 c.

(** [str.isdigit] on one character: the decimal digits and the superscript
    digits U+00B2, U+00B3, U+00B9. *)
Definition is_digit_char (c : ascii) : bool :=
  (is_decimal c || N.eqb (code c) 178 || N.eqb (code c) 179
   || N.eqb (code c) 185)%bool.

(** The class [\w] of [re] for [str] patterns. *)
Definition is_word_char (c : ascii) : bool :=
  (is_decimal c || in_range 65 90 c || N.eqb (code c) 95 || in_range 97 122 c
   || N.eqb (code c) 170 || N.eqb (code c) 178 || N.eqb (code c) 179
   || N.eqb (code c) 181 || N.eqb (code c) 185 || N.eqb (code c) 186
   || in_range 188 190 c || in_range 192 214 c || in_range 216 246 c
   || in_range 248 255 c)%bool.

Definition is_lower_az (c : ascii) : bool := in_range 97 122 c.

Definition lower_char (c : ascii) : ascii :=
  if (in_range 65 90 c
      || (in_range 192 222 c && negb (N.eqb (code c) 215)))%bool
  then ascii_of_N (code c + 32) else c.

Fixpoint chars (s : string) : list ascii :=
  match s with
  | EmptyString => []
  | String c r => c :: chars r
  end.

Fixpoint of_chars (l : list ascii) : string :=
  match l with
  | [] => EmptyString
  | c :: r => String c (of_chars r)
  end.

(** [s.lower()] *)
Fixpoint lower (s : string) : string :=
  match s with
  | EmptyString => EmptyString
  | String c r => String (lower_char c) (lower r)
  end.

(** [len(s)] *)
Definition len (s : string) : nat := String.length s.

(** [sub in s] *)
Fixpoint contains (sub s : string) : bool :=
  if String.prefix sub s then true
  else match s with
       | EmptyString => false
       | String _ r => contains sub r
       end.

(** [s.split(sep)] for a one-character separator: the pieces between the
    separators, empty pieces kept. *)
Fixpoint split_aux (sep : ascii) (cur : list ascii) (s : string)
  : list string :=
  match s with
  | EmptyString => [of_chars (rev cur)]
  | String c r =>
      if Ascii.eqb c sep then of_chars (rev cur) :: split_aux sep [] r
      else split_aux sep (c :: cur) r
  end.

Definition split (sep : ascii) (s : string) : list string :=
  split_aux sep [] s.

(** [s.split()]: the maximal runs of non-space characters. *)
Fixpoint split_ws_aux (cur : list ascii) (s : string) : list string :=
  match s with
  | EmptyString =>
      match cur with [] => [] | _ => [of_chars (rev cur)] end
  | String c r =>
      if is_space c then
        match cur with
        | [] => split_ws_aux [] r
        | _ => of_chars (rev cur) :: split_ws_aux [] r
        end
      else split_ws_aux (c :: cur) r
  end.

Definition split_ws (s : string) : list string := split_ws_aux [] s.

Fixpoint lstrip (s : string) : string :=
  match s with
  | EmptyString => EmptyString
  | String c r => if is_space c then lstrip r else s
  end.

Definition rstrip (s : string) : string :=
  of_chars (rev (chars (lstrip (of_chars (rev (chars s)))))).

(** [s.strip()] *)
Definition strip (s : string) : string := rstrip (lstrip s).

(** Truth value of a string: non-empty. *)
Definition truthy (s : string) : bool :=
  match s with EmptyString => false | _ => true end.

(** [s.isdigit()]: non-empty and every character a digit character. *)
Definition isdigit (s : string) : bool :=
  (truthy s && forallb is_digit_char (chars s))%bool.

(** [re.sub(r'[^\d]', '', s)] *)
Definition keep_decimals (s : string) : string :=
  of_chars (List.filter is_decimal (chars s)).

Definition digit_value (c : ascii) : Z := Z.of_N (code c) - 48.

Definition decimal_value (l : list ascii) : Z :=
  fold_left (fun acc c => 10 * acc + digit_value c) l 0.

(** Digits of an [int] literal in base 10: single underscores may separate
    digits. *)
Fixpoint int_digits (prev_digit : bool) (l : list ascii)
  : option (list ascii) :=
  match l with
  | [] => if prev_digit then Some [] else None
  | c :: r =>
      if is_decimal c then option_map (cons c) (int_digits true r)
      else if (Ascii.eqb c "_" && prev_digit)%bool then int_digits false r
      else None
  end.

(** [int(s)] for a [str] argument, base 10: surrounding white space, an
    optional sign, then digits.  Any other text raises [ValueError].  (The
    interpreter's bound on the number of digits, 4300 unless configured, is
    not modelled.) *)
Definition int (s : string) : result Z :=
  let body := chars (strip s) in
  let '(sign, ds) :=
    match body with
    | c :: r =>
        if Ascii.eqb c "-" then (-1, r)
        else if Ascii.eqb c "+" then (1, r)
        else (1, body)
    | [] => (1, body)
    end in
  match ds with
  | [] => raise (ValueError s)
  | _ =>
      match int_digits false ds with
      | Some digits => ok (sign * decimal_value digits)
      | None => raise (ValueError s)
      end
  end.

Definition digit_char (d : Z) : ascii := ascii_of_N (Z.to_N (48 + d)).

Fixpoint digits_fuel (fuel : nat) (n : Z) (acc : list ascii) : list ascii :=
  match fuel with
  | O => acc
  | S f =>
      let acc' := digit_char (n mod 10) :: acc in
      if n / 10 =? 0 then acc' else digits_fuel f (n / 10) acc'
  end.

(** [str(n)] for an [int]. *)
Definition of_int (n : Z) : string :=
  let body := of_chars (digits_fuel (S (Z.to_nat (Z.log2 (Z.abs n)))) (Z.abs n) []) in
  if n <? 0 then String "-" body else body.

End PyStr.

(** ** Floats *)

Local Open Scope Q_scope.

(** [min(a, b)] on two floats: [b] when [b < a], else [a]. *)
Definition fmin (a b : Q) : Q := if Qle_bool a b then a else b.

(** An [int] used in float arithmetic. *)
Definition float_of_nat (n : nat) : Q := inject_Z (Z.of_nat n).

Local Close Scope Q_scope.

(** ** The interpreter's [hash] on [str]

    CPython (3.11 and later) hashes the one-byte representation of a string
    with SipHash-1-3 under a 128-bit key fixed when the process starts: drawn
    from the system's random source by default, derived from [PYTHONHASHSEED]
    when that variable holds an integer. *)

Module CPython.

Definition wrap64 (x : Z) : Z := Z.land x (Z.ones 64).

Definition rotl (x b : Z) : Z :=
  wrap64 (Z.lor (Z.shiftl x b) (Z.shiftr x (64 - b))).

Definition sip_state : Type := (Z * Z * Z * Z)%type.

Definition half_round (a b c d s t : Z) : Z * Z * Z * Z :=
  let a := wrap64 (a + b) in
  let c := wrap64 (c + d) in
  let b := Z.lxor (rotl b s) a in
  let d := Z.lxor (rotl d t) c in
  let a := rotl a 32 in
  (a, b, c, d).

Definition single_round (v : sip_state) : sip_state :=
  let '(v0, v1, v2, v3) := v in
  let '(v0, v1, v2, v3) := half_round v0 v1 v2 v3 13 16 in
  let '(v2, v1, v0, v3) := half_round v2 v1 v0 v3 17 21 in
  (v0, v1, v2, v3).

(** Little-endian value of a run of bytes. *)
Fixpoint le_bytes (l : list Z) : Z :=
  match l with
  | [] => 0
  | b :: r => b + 256 * le_bytes r
  end.

Definition absorb (m : Z) (v : sip_state) : sip_state :=
  let '(v0, v1, v2, v3) := v in
  let '(v0, v1, v2, v3) := single_round (v0, v1, v2, Z.lxor v3 m) in
  (Z.lxor v0 m, v1, v2, v3).

Fixpoint sip_blocks (total : Z) (l : list Z) (v : sip_state) : sip_state :=
  match l with
  | b0 :: b1 :: b2 :: b3 :: b4 :: b5 :: b6 :: b7 :: r =>
      sip_blocks total r (absorb (le_bytes [b0; b1; b2; b3; b4; b5; b6; b7]) v)
  | tail =>
      absorb (Z.lor (wrap64 (Z.shiftl total 56)) (le_bytes tail)) v
  end.

Definition siphash13 (k0 k1 : Z) (src : list Z) : Z :=
  let v0 := Z.lxor k0 0x736f6d6570736575 in
  let v1 := Z.lxor k1 0x646f72616e646f6d in
  let v2 := Z.lxor k0 0x6c7967656e657261 in
  let v3 := Z.lxor k1 0x7465646279746573 in
  let '(v0, v1, v2, v3) :=
    sip_blocks (Z.of_nat (length src)) src (v0, v1, v2, v3) in
  let '(v0, v1, v2, v3) :=
    single_round (single_round (single_round (v0, v1, Z.lxor v2 0xff, v3))) in
  Z.lxor (Z.lxor v0 v1) (Z.lxor v2 v3).

(** The key of a process. *)
Record hash_secret : Type := { k0 : Z; k1 : Z }.

Fixpoint lcg_urandom (x : Z) (size : nat) : list Z :=
  match size with
  | O => []
  | S n =>
      let x' := (x * 214013 + 2531011) mod 2 ^ 32 in
      Z.land (Z.shiftr x' 16) 255 :: lcg_urandom x' n
  end.

(** The key under [PYTHONHASHSEED=seed]; seed [0] is the all-zero key. *)
Definition secret_of_seed (seed : Z) : hash_secret :=
  if seed =? 0 then {| k0 := 0; k1 := 0 |}
  else
    let buf := lcg_urandom seed 16 in
    {| k0 := le_bytes (firstn 8 buf); k1 := le_bytes (skipn 8 buf) |}.

(** [hash(s)]: a signed 64-bit value; the empty string hashes to [0] and the
    value [-1] is replaced by [-2]. *)
Definition hash (secret : hash_secret) (s : string) : Z :=
  match s with
  | EmptyString => 0
  | _ =>
      let t := siphash13 (k0 secret) (k1 secret)
                 (map (fun c => Z.of_N (PyStr.code c)) (PyStr.chars s)) in
      let x := if 2 ^ 63 <=? t then t - 2 ^ 64 else t in
      if x =? -1 then -2 else x
  end.

End CPython.

(** ** Logging

    A log line keeps its level, its fixed text and the values interpolated
    into it; file names are left out. *)

Inductive log_entry : Type :=
| Info (text : string) (values : list nat)
| Error (text : string) (index : nat) (e : exn).

(** ** Stable sorting

    [sorted(l, key=key, reverse=True)]: descending keys, and elements with
    equal keys keep their order of [l]. *)

Section Sorted.
Context {A : Type} (key : A → nat).

Fixpoint insert_desc (x : A) (l : list A) : list A :=
  match l with
  | [] => [x]
  | y :: r =>
      if (key x <? key y)%nat then y :: insert_desc x r else x :: y :: r
  end.

Definition sorted_desc (l : list A) : list A :=
  fold_right insert_desc [] l.
End Sorted.

(** ** JSON records *)

(** A discovery record as read from [discoveries.json]. *)
Module Discovery.
Record t : Type := Build {
  source_url : option string;
  discovery_timestamp : option string;
  source_type : option string;
  content_type : option string;
  raw_content : option string;
  metadata : option (gmap string string)
}.
End Discovery.

(** A feature record as written to and read from
    [extracted_features.json]. *)
Module FeatureDict.
Record t : Type := Build {
  loop_id : option string;
  source_url : option string;
  source_type : option string;
  has_code : option bool;
  code_language : option (option string);
  code_complexity : option Q;
  code_lines : option nat;
  title_length : option nat;
  description_length : option nat;
  has_tutorial : option bool;
  has_documentation : option bool;
  popularity_score : option Q;
  author_reputation : option Q;
  recency_score : option Q;
  primary_category : option string;
  secondary_categories : option (list string);
  keywords : option (list string);
  automation_type : option string;
  complexity_level : option string;
  estimated_value : option Q
}.
End FeatureDict.

(** ** [components/curation/feature_extractor.py] *)

Module feature_extractor.

(** *** Syntax trees of the [ast] module, by node class *)

Inductive node_class : Type :=
| FunctionDef | AsyncFunctionDef | ClassDef | For | AsyncFor | While
| If | IfExp | Try | TryStar | OtherNode.

Unset Elimination Schemes.
Inductive ast : Type := Node (cls : node_class) (children : list ast).
Set Elimination Schemes.

(** [ast.walk(tree)]: the tree's nodes (each once; the counts below do not
    depend on the order). *)
Fixpoint ast_walk (tree : ast) : list node_class :=
  match tree with
  | Node c children => c :: flat_map ast_walk children
  end.

Definition count_nodes (p : node_class → bool) (tree : ast) : nat :=
  length (List.filter p (ast_walk tree)).

Record ExtractedFeatures : Type := {
  loop_id : string;
  source_url : string;
  source_type : string;
  has_code : bool;
  code_language : option string;
  code_complexity : Q;
  code_lines : nat;
  title_length : nat;
  description_length : nat;
  has_tutorial : bool;
  has_documentation : bool;
  popularity_score : Q;
  author_reputation : Q;
  recency_score : Q;
  primary_category : string;
  secondary_categories : list string;
  keywords : list string;
  automation_type : string;
  complexity_level : string;
  estimated_value : Q
}.

Definition to_dict (self : ExtractedFeatures) : FeatureDict.t :=
  {| FeatureDict.loop_id := Some (loop_id self);
     FeatureDict.source_url := Some (source_url self);
     FeatureDict.source_type := Some (source_type self);
     FeatureDict.has_code := Some (has_code self);
     FeatureDict.code_language := Some (code_language self);
     FeatureDict.code_complexity := Some (code_complexity self);
     FeatureDict.code_lines := Some (code_lines self);
     FeatureDict.title_length := Some (title_length self);
     FeatureDict.description_length := Some (description_length self);
     FeatureDict.has_tutorial := Some (has_tutorial self);
     FeatureDict.has_documentation := Some (has_documentation self);
     FeatureDict.popularity_score := Some (popularity_score self);
     FeatureDict.author_reputation := Some (author_reputation self);
     FeatureDict.recency_score := Some (recency_score self);
     FeatureDict.primary_category := Some (primary_category self);
     FeatureDict.secondary_categories := Some (secondary_categories self);
     FeatureDict.keywords := Some (keywords self);
     FeatureDict.automation_type := Some (automation_type self);
     FeatureDict.complexity_level := Some (complexity_level self);
     FeatureDict.estimated_value := Some (estimated_value self) |}.

(** *** class CodeAnalyzer *)

Definition detect_language (code : string) : string :=
  if (PyStr.contains "import " code || PyStr.contains "def " code
      || PyStr.contains "class " code)%bool then "python"
  else if (PyStr.contains "function" code
           && (PyStr.contains "{" code || PyStr.contains "=>" code))%bool
  then "javascript"
  else if (PyStr.contains "public class" code
           || PyStr.contains "private " code)%bool then "java"
  else if (PyStr.contains "#include" code
           || PyStr.contains "int main" code)%bool then "c++"
  else "unknown".

Definition newline : ascii := "010"%char.

(** [[l for l in code.split('\n') if l.strip()]] *)
Definition non_empty_lines (code : string) : list string :=
  List.filter (fun l => PyStr.truthy (PyStr.strip l)) (PyStr.split newline code).

Definition count_lines (code : string) : nat := length (non_empty_lines code).

Local Open Scope Q_scope.

Definition line_complexity (code : string) : Q :=
  fmin (float_of_nat (length (non_empty_lines code)) / 100) 1.

Definition is_class (c : node_class) (n : node_class) : bool :=
  match c, n with
  | FunctionDef, FunctionDef | ClassDef, ClassDef | For, For
  | While, While | If, If | Try, Try => true
  | _, _ => false
  end.

Section Parser.
(** [ast.parse] of the running interpreter: a tree, or an exception. *)
Variable ast_parse : string → result ast.

Definition calculate_complexity (code language : string) : result Q :=
  if negb (String.eqb language "python") then ok (line_complexity code)
  else
    match ast_parse code with
    | inr tree =>
        let num_functions := count_nodes (is_class FunctionDef) tree in
        let num_classes := count_nodes (is_class ClassDef) tree in
        let num_loops :=
          count_nodes (fun n => is_class For n || is_class While n)%bool tree in
        let num_conditionals := count_nodes (is_class If) tree in
        let num_try_except := count_nodes (is_class Try) tree in
        let complexity :=
          float_of_nat (num_functions * 2 + num_classes * 3)
          + float_of_nat num_loops * 1.5
          + float_of_nat (num_conditionals * 1)
          + float_of_nat (num_try_except * 2) in
        ok (fmin (complexity / 50) 1)
    | inl SyntaxError => ok (line_complexity code)
    | inl e => raise e
    end.
End Parser.

Local Close Scope Q_scope.

(** *** class TextAnalyzer *)

Definition CATEGORIES : list (string * list string) :=
  [ ("web_scraping",
      ["scrape"; "scraping"; "crawler"; "spider"; "beautifulsoup"; "selenium"]);
    ("data_processing",
      ["pandas"; "numpy"; "data"; "csv"; "excel"; "dataframe"]);
    ("api_wrapper", ["api"; "rest"; "endpoint"; "wrapper"; "client"; "sdk"]);
    ("automation", ["automate"; "automation"; "workflow"; "task"; "schedule"]);
    ("bot", ["bot"; "chatbot"; "telegram"; "discord"; "slack"]);
    ("ml_ai",
      ["machine learning"; "ai"; "neural"; "model"; "training"; "tensorflow";
       "pytorch"]);
    ("web_dev", ["flask"; "django"; "fastapi"; "web"; "server"; "frontend"]);
    ("devops",
      ["docker"; "kubernetes"; "ci/cd"; "deployment"; "infrastructure"]);
    ("security",
      ["security"; "encryption"; "authentication"; "oauth"; "jwt"]);
    ("testing", ["test"; "testing"; "pytest"; "unittest"; "qa"]) ].

Definition COMPLEXITY_KEYWORDS : list (string * list string) :=
  [ ("beginner", ["simple"; "basic"; "beginner"; "tutorial"; "learn"; "intro"]);
    ("intermediate", ["intermediate"; "moderate"; "practical"; "real-world"]);
    ("advanced",
      ["advanced"; "complex"; "production"; "scalable"; "enterprise"]) ].

(** [any(keyword in text for keyword in keywords)] *)
Definition any_in (keywords : list string) (text : string) : bool :=
  existsb (fun keyword => PyStr.contains keyword text) keywords.

(** [re.findall(r'\b[a-z]{3,}\b', text)]: the maximal runs of word characters
    that have at least three characters, all of them in a-z. *)
Definition keep_word (run : list ascii) : list string :=
  if ((3 <=? length run)%nat && forallb PyStr.is_lower_az run)%bool
  then [PyStr.of_chars (rev run)] else [].

Fixpoint findall_words (cur : list ascii) (s : string) : list string :=
  match s with
  | EmptyString => keep_word cur
  | String c r =>
      if PyStr.is_word_char c then findall_words (c :: cur) r
      else keep_word cur ++ findall_words [] r
  end.

Definition stop_words : list string :=
  ["the"; "and"; "for"; "with"; "this"; "that"; "from"; "have"; "are"; "was"].

Definition str_in (s : string) (l : list string) : bool :=
  existsb (String.eqb s) l.

(** [Counter]: the counts, in the order in which the words first occur. *)
Fixpoint counter_add (w : string) (counts : list (string * nat))
  : list (string * nat) :=
  match counts with
  | [] => [(w, 1%nat)]
  | (w', n) :: r =>
      if String.eqb w w' then (w', S n) :: r else (w', n) :: counter_add w r
  end.

Definition Counter (words : list string) : list (string * nat) :=
  fold_left (fun counts w => counter_add w counts) words [].

(** [word_counts.most_common(n)] *)
Definition most_common (n : nat) (counts : list (string * nat))
  : list (string * nat) :=
  firstn n (sorted_desc snd counts).

Definition extract_keywords_upto (text : string) (max_keywords : nat)
  : list string :=
  let words := findall_words [] (PyStr.lower text) in
  let words := List.filter (fun w => negb (str_in w stop_words)) words in
  let word_counts := Counter words in
  map fst (most_common max_keywords word_counts).

Definition extract_keywords (text : string) : list string :=
  extract_keywords_upto text 10.

(** The entries of [category_scores], in taxonomy order. *)
Definition category_scores (text_lower : string) : list (string * nat) :=
  List.filter (fun cs => (0 <? snd cs)%nat)
    (map (fun ck : string * list string =>
            (fst ck,
             length (List.filter (fun keyword => PyStr.contains keyword text_lower)
                       (snd ck))))
       CATEGORIES).

Definition categorize (text : string) : string * list string :=
  let text_lower := PyStr.lower text in
  let category_scores := category_scores text_lower in
  match category_scores with
  | [] => ("general", [])
  | _ =>
      let sorted_categories := sorted_desc snd category_scores in
      match sorted_categories with
      | [] => ("general", [])  (* unreachable: sorting keeps the length *)
      | top :: others => (fst top, map fst (firstn 3 others))
      end
  end.

Definition detect_complexity_level (text : string) : string :=
  let text_lower := PyStr.lower text in
  match List.find (fun lk : string * list string => any_in (snd lk) text_lower)
          COMPLEXITY_KEYWORDS with
  | Some (level, _) => level
  | None => "intermediate"
  end.

Definition has_tutorial_indicators (text : string) : bool :=
  any_in ["tutorial"; "how to"; "guide"; "step by step"; "learn"; "walkthrough"]
    (PyStr.lower text).

Definition has_documentation_indicators (text : string) : bool :=
  any_in ["documentation"; "docs"; "readme"; "api reference"; "manual"]
    (PyStr.lower text).

(** *** class QualityScorer *)

Local Open Scope Q_scope.

Definition calculate_popularity_score
    (metadata : gmap string string) (source_type : string) : result Q :=
  (if String.eqb source_type "github" then
     let stars_text := default "0" (metadata !! "stars") in
     let! token :=
       match PyStr.split_ws stars_text with
       | [] => raise IndexError
       | token :: _ => ok token
       end in
     let digits := PyStr.keep_decimals token in
     let! stars := PyStr.int (if PyStr.truthy digits then digits else "0") in
     ok (fmin (inject_Z stars / 1000) 1)
   else if String.eqb source_type "reddit" then
     let upvotes_text := default "0" (metadata !! "upvotes") in
     let! upvotes :=
       if PyStr.isdigit upvotes_text then PyStr.int upvotes_text
       else ok 0%Z in
     ok (fmin (inject_Z upvotes / 100) 1)
   else ok 0.5)%py.

Definition calculate_author_reputation
    (metadata : gmap string string) (source_type : string) : Q :=
  let author := default "" (metadata !! "author") in
  if str_in author ["AutoModerator"; "unknown"; ""] then 0.3 else 0.6.

Definition calculate_recency_score (timestamp : string) : Q := 1.

(** The dictionary [estimate_value] receives. *)
Record value_features : Type := {
  vf_popularity_score : option Q;
  vf_code_complexity : option Q;
  vf_author_reputation : option Q;
  vf_has_code : option bool
}.

Definition estimate_value (features : value_features) : Q :=
  let value :=
    default 0.5 (vf_popularity_score features) * 0.3
    + default 0.5 (vf_code_complexity features) * 0.2
    + default 0.5 (vf_author_reputation features) * 0.2
    + (if default false (vf_has_code features) then 1 else 0.3) * 0.3 in
  fmin value 1.

(** *** class FeatureExtractor *)

Section Interpreter.
Variable ast_parse : string → result ast.
(** [hash] on strings, fixed for the life of the process. *)
Variable hash : string → Z.

Definition extract_features (discovery : Discovery.t)
  : result ExtractedFeatures :=
  (let! id_type := subscript (Discovery.source_type discovery) "source_type" in
   let! id_url := subscript (Discovery.source_url discovery) "source_url" in
   let loop_id :=
     id_type +:+ "_" +:+ PyStr.of_int (hash id_url mod 1000000) in
   let! source_url := subscript (Discovery.source_url discovery) "source_url" in
   let! source_type :=
     subscript (Discovery.source_type discovery) "source_type" in
   let! metadata := subscript (Discovery.metadata discovery) "metadata" in
   let title := default "" (metadata !! "title") in
   let description := default "" (Discovery.raw_content discovery) in
   let full_text := title +:+ " " +:+ description in
   let has_code :=
     ((100 <? PyStr.len description)%nat
      && any_in ["def "; "import "; "class "; "function"] description)%bool in
   let code_language :=
     if has_code then Some (detect_language description) else None in
   let! code_complexity :=
     if has_code then
       calculate_complexity ast_parse description
         (match code_language with
          | Some l => if PyStr.truthy l then l else "unknown"
          | None => "unknown"
          end)
     else ok 0 in
   let code_lines := if has_code then count_lines description else 0%nat in
   let title_length := PyStr.len title in
   let description_length := PyStr.len description in
   let has_tutorial := has_tutorial_indicators full_text in
   let has_documentation := has_documentation_indicators full_text in
   let keywords := extract_keywords full_text in
   let '(primary_category, secondary_categories) := categorize full_text in
   let complexity_level := detect_complexity_level full_text in
   let! popularity_score := calculate_popularity_score metadata source_type in
   let author_reputation := calculate_author_reputation metadata source_type in
   let! timestamp :=
     subscript (Discovery.discovery_timestamp discovery)
       "discovery_timestamp" in
   let recency_score := calculate_recency_score timestamp in
   let automation_type :=
     if str_in primary_category (map fst CATEGORIES) then primary_category
     else "general" in
   let feature_dict :=
     {| vf_popularity_score := Some popularity_score;
        vf_code_complexity := Some code_complexity;
        vf_author_reputation := Some author_reputation;
        vf_has_code := Some has_code |} in
   let estimated_value := estimate_value feature_dict in
   ok {| loop_id := loop_id;
         source_url := source_url;
         source_type := source_type;
         has_code := has_code;
         code_language := code_language;
         code_complexity := code_complexity;
         code_lines := code_lines;
         title_length := title_length;
         description_length := description_length;
         has_tutorial := has_tutorial;
         has_documentation := has_documentation;
         popularity_score := popularity_score;
         author_reputation := author_reputation;
         recency_score := recency_score;
         primary_category := primary_category;
         secondary_categories := secondary_categories;
         keywords := keywords;
         automation_type := automation_type;
         complexity_level := complexity_level;
         estimated_value := estimated_value |})%py.

(** The loop of [process_discoveries] from index [i] on: the feature
    dictionaries appended and the lines logged. *)
Fixpoint process_loop (total i : nat) (discoveries : list Discovery.t)
  : list FeatureDict.t * list log_entry :=
  match discoveries with
  | [] => ([], [])
  | discovery :: rest =>
      let '(extracted, logged) := process_loop total (S i) rest in
      match extract_features discovery with
      | inr features =>
          (to_dict features :: extracted,
           (if (S i mod 10 =? 0)%nat then [Info "Processed" [S i; total]]
            else []) ++ logged)
      | inl e =>
          (extracted, Error "Error processing discovery" i e :: logged)
      end
  end.

(** [process_discoveries]: from the list read from [discoveries_file] to
    the list returned (the same list is written to [output_file]) and the
    log. *)
Definition process_discoveries (discoveries : list Discovery.t)
  : list FeatureDict.t * list log_entry :=
  let '(extracted_features, logged) :=
    process_loop (length discoveries) 0 discoveries in
  (extracted_features,
   [Info "Loading discoveries" []; Info "Processing" [length discoveries]]
   ++ logged
   ++ [Info "Saving extracted features" [];
       Info "Feature extraction complete"
         [length extracted_features; length discoveries]]).
End Interpreter.

Local Close Scope Q_scope.

End feature_extractor.

(** A quality-score record as written to and read from
    [quality_scores.json]. *)
Module ScoreDict.
Record t (reason : Type) : Type := Build {
  loop_id : option string;
  overall_score : option Q;
  approval_decision : option string;
  confidence : option Q;
  reasoning : option (list reason)
}.
Arguments Build {reason}.
Arguments loop_id {reason}.
Arguments overall_score {reason}.
Arguments approval_decision {reason}.
Arguments confidence {reason}.
Arguments reasoning {reason}.
End ScoreDict.

(** ** [components/curation/quality_scorer.py] *)

Module quality_scorer.

Local Open Scope Q_scope.

(** A line of the reasoning list: the fixed text of the source's f-string
    and the values interpolated into it. *)
Inductive reason : Type :=
| High_popularity (score : Q)
| Low_popularity (score : Q)
| Contains_code (complexity : Q)
| No_code_detected
| Detailed_description
| Very_short_description
| Has_tutorial_content
| Has_documentation
| High_value_category (category : string)
| General_category
| Overall_score (score : Q) (decision : string).

Record QualityScore : Type := {
  loop_id : string;
  overall_score : Q;
  approval_decision : string;
  confidence : Q;
  reasoning : list reason
}.

Definition to_dict (self : QualityScore) : ScoreDict.t reason :=
  {| ScoreDict.loop_id := Some (loop_id self);
     ScoreDict.overall_score := Some (overall_score self);
     ScoreDict.approval_decision := Some (approval_decision self);
     ScoreDict.confidence := Some (confidence self);
     ScoreDict.reasoning := Some (reasoning self) |}.

(** *** class HeuristicQualityScorer *)

Record weights : Type := {
  popularity : Q;
  code_quality : Q;
  content_quality : Q;
  categorization : Q;
  recency : Q;
  author : Q
}.

(** The class attributes, read through [self] by [score_loop].  (A
    threshold that makes a divisor of the confidence zero raises
    [ZeroDivisionError] in the source; no class considered here has one.) *)
Record scorer_class : Type := {
  WEIGHTS : weights;
  APPROVAL_THRESHOLD : Q;
  REJECTION_THRESHOLD : Q
}.

Definition HeuristicQualityScorer : scorer_class :=
  {| WEIGHTS :=
       {| popularity := 0.25;
          code_quality := 0.20;
          content_quality := 0.20;
          categorization := 0.15;
          recency := 0.10;
          author := 0.10 |};
     APPROVAL_THRESHOLD := 0.60;
     REJECTION_THRESHOLD := 0.35 |}.

(** The instance attributes. *)
Record scorer : Type := {
  approved_count : nat;
  rejected_count : nat;
  review_count : nat
}.

(** [__init__] *)
Definition init (cls : scorer_class) : result scorer :=
  ok {| approved_count := 0; rejected_count := 0; review_count := 0 |}.

(** Methods: a result or an exception, and the instance afterwards. *)
Definition method (A : Type) : Type := scorer → result A * scorer.

Definition mret {A} (a : A) : method A := fun self => (ok a, self).

Definition mbind {A B} (m : method A) (k : A → method B) : method B :=
  fun self =>
    match m self with
    | (inl e, self') => (inl e, self')
    | (inr a, self') => k a self'
    end.

Definition lift {A} (r : result A) : method A := fun self => (r, self).

Definition update (f : scorer → scorer) : method unit :=
  fun self => (ok tt, f self).

Notation "'do!' x ':=' m 'in' k" := (mbind m (fun x => k))
  (at level 10, x pattern, m at level 100, k at level 200) : py_scope.

Definition ge (a b : Q) : bool := Qle_bool b a.
Definition lt (a b : Q) : bool := negb (Qle_bool b a).

Definition high_value_categories : list string :=
  ["automation"; "web_scraping"; "api_wrapper"; "bot"; "data_processing"].

Section Scorer.
Variable cls : scorer_class.

Definition score_loop (features : FeatureDict.t) : method QualityScore :=
  (do! loop_id := lift (subscript (FeatureDict.loop_id features) "loop_id") in
   let reasoning := [] in
   (* 1. Popularity *)
   do! popularity_score :=
     lift (subscript (FeatureDict.popularity_score features)
             "popularity_score") in
   let popularity_weight := popularity (WEIGHTS cls) * popularity_score in
   let reasoning :=
     if ge popularity_score 0.7
     then reasoning ++ [High_popularity popularity_score]
     else if Qle_bool popularity_score 0.2
     then reasoning ++ [Low_popularity popularity_score]
     else reasoning in
   (* 2. Code quality *)
   do! has_code := lift (subscript (FeatureDict.has_code features) "has_code") in
   do! (code_quality_score, reasoning) :=
     (if has_code : bool then
        do! code_complexity :=
          lift (subscript (FeatureDict.code_complexity features)
                  "code_complexity") in
        do! code_lines :=
          lift (subscript (FeatureDict.code_lines features) "code_lines") in
        mret (fmin (code_complexity * 0.6
                    + fmin (float_of_nat code_lines / 100) 1 * 0.4) 1,
              reasoning ++ [Contains_code code_complexity])
      else mret (0.3, reasoning ++ [No_code_detected])) in
   let code_weight := code_quality (WEIGHTS cls) * code_quality_score in
   (* 3. Content quality *)
   let content_quality_score := 0 in
   do! description_length :=
     lift (subscript (FeatureDict.description_length features)
             "description_length") in
   let '(content_quality_score, reasoning) :=
     if (200 <=? description_length)%nat
     then (content_quality_score + 0.4, reasoning ++ [Detailed_description])
     else if (description_length <? 50)%nat
     then (content_quality_score + 0.1,
           reasoning ++ [Very_short_description])
     else (content_quality_score + 0.25, reasoning) in
   do! has_tutorial :=
     lift (subscript (FeatureDict.has_tutorial features) "has_tutorial") in
   let '(content_quality_score, reasoning) :=
     if has_tutorial : bool
     then (content_quality_score + 0.3, reasoning ++ [Has_tutorial_content])
     else (content_quality_score, reasoning) in
   do! has_documentation :=
     lift (subscript (FeatureDict.has_documentation features)
             "has_documentation") in
   let '(content_quality_score, reasoning) :=
     if has_documentation : bool
     then (content_quality_score + 0.3, reasoning ++ [Has_documentation])
     else (content_quality_score, reasoning) in
   let content_quality_score := fmin content_quality_score 1 in
   let content_weight := content_quality (WEIGHTS cls) * content_quality_score in
   (* 4. Categorization *)
   do! primary_category :=
     lift (subscript (FeatureDict.primary_category features)
             "primary_category") in
   let '(categorization_score, reasoning) :=
     if feature_extractor.str_in primary_category high_value_categories
     then (0.8, reasoning ++ [High_value_category primary_category])
     else if String.eqb primary_category "general"
     then (0.3, reasoning ++ [General_category])
     else (0.5, reasoning) in
   let categorization_weight :=
     categorization (WEIGHTS cls) * categorization_score in
   (* 5. Recency *)
   do! recency_score :=
     lift (subscript (FeatureDict.recency_score features) "recency_score") in
   let recency_weight := recency (WEIGHTS cls) * recency_score in
   (* 6. Author reputation *)
   do! author_score :=
     lift (subscript (FeatureDict.author_reputation features)
             "author_reputation") in
   let author_weight := author (WEIGHTS cls) * author_score in
   let overall_score :=
     popularity_weight + code_weight + content_weight
     + categorization_weight + recency_weight + author_weight in
   (* decision *)
   do! (decision, confidence) :=
     (if ge overall_score (APPROVAL_THRESHOLD cls) then
        do! _ := update (fun self =>
                   {| approved_count := approved_count self + 1;
                      rejected_count := rejected_count self;
                      review_count := review_count self |}) in
        mret ("approved",
              fmin ((overall_score - APPROVAL_THRESHOLD cls)
                    / (1 - APPROVAL_THRESHOLD cls)) 1)
      else if lt overall_score (REJECTION_THRESHOLD cls) then
        do! _ := update (fun self =>
                   {| approved_count := approved_count self;
                      rejected_count := rejected_count self + 1;
                      review_count := review_count self |}) in
        mret ("rejected",
              fmin ((REJECTION_THRESHOLD cls - overall_score)
                    / REJECTION_THRESHOLD cls) 1)
      else
        do! _ := update (fun self =>
                   {| approved_count := approved_count self;
                      rejected_count := rejected_count self;
                      review_count := review_count self + 1 |}) in
        mret ("needs_review", 0.5)) in
   let reasoning := reasoning ++ [Overall_score overall_score decision] in
   mret {| loop_id := loop_id;
           overall_score := overall_score;
           approval_decision := decision;
           confidence := confidence;
           reasoning := reasoning |})%py.

(** The loop of [score_all_loops] from index [i] on. *)
Fixpoint score_loop_all (total i : nat) (all_features : list FeatureDict.t)
    (self : scorer) : list QualityScore * list log_entry * scorer :=
  match all_features with
  | [] => ([], [], self)
  | features :: rest =>
      match score_loop features self with
      | (inr score, self') =>
          let '(scores, logged, self'') :=
            score_loop_all total (S i) rest self' in
          (score :: scores,
           (if (S i mod 10 =? 0)%nat then [Info "Scored" [S i; total]]
            else []) ++ logged,
           self'')
      | (inl e, self') =>
          let '(scores, logged, self'') :=
            score_loop_all total (S i) rest self' in
          (scores, Error "Error scoring loop" i e :: logged, self'')
      end
  end.

(** [score_all_loops]: from the list read from [features_file] to the
    scores returned, the list written to [output_file], the log and the
    instance afterwards. *)
Definition score_all_loops (all_features : list FeatureDict.t)
    (self : scorer)
  : list QualityScore * list (ScoreDict.t reason) * list log_entry * scorer :=
  let '(scores, logged, self') :=
    score_loop_all (length all_features) 0 all_features self in
  (scores, map to_dict scores,
   [Info "Loading features" []; Info "Scoring" [length all_features]]
   ++ logged
   ++ [Info "Saving scores" []; Info "Quality scoring complete" []],
   self').
End Scorer.

Record summary : Type := {
  total : nat;
  approved : nat;
  rejected : nat;
  needs_review : nat;
  approval_rate : Q;
  rejection_rate : Q
}.

Definition get_summary (self : scorer) : summary :=
  let total := (approved_count self + rejected_count self + review_count self)%nat in
  {| total := total;
     approved := approved_count self;
     rejected := rejected_count self;
     needs_review := review_count self;
     approval_rate :=
       if (0 <? total)%nat
       then float_of_nat (approved_count self) / float_of_nat total else 0;
     rejection_rate :=
       if (0 <? total)%nat
       then float_of_nat (rejected_count self) / float_of_nat total else 0 |}.

Local Close Scope Q_scope.

End quality_scorer.

(** ** [components/discovery/web_scraper.py]: the discovery record *)

Module web_scraper.

(** [LoopDiscovery]; the time stamp [__init__] takes from the clock is an
    argument of the constructor here. *)
Record LoopDiscovery : Type := {
  source_url : string;
  discovery_timestamp : string;
  source_type : string;
  content_type : string;
  raw_content : string;
  metadata : gmap string string
}.

Definition to_dict (self : LoopDiscovery) : Discovery.t :=
  {| Discovery.source_url := Some (source_url self);
     Discovery.discovery_timestamp := Some (discovery_timestamp self);
     Discovery.source_type := Some (source_type self);
     Discovery.content_type := Some (content_type self);
     Discovery.raw_content := Some (raw_content self);
     Discovery.metadata := Some (metadata self) |}.


(** [ScraperOrchestrator.save_discoveries]: the list written to the
    discoveries file. *)
Definition save_discoveries (all_discoveries : list LoopDiscovery)
  : list Discovery.t :=
  map to_dict all_discoveries.

End web_scraper.

(** The statistics record of a pipeline run, without its time stamp and
    duration. *)
Module PipelineStats.
Record t : Type := Build {
  discoveries : nat;
  features_extracted : nat;
  scoring_summary : quality_scorer.summary;
  approved_loops : nat;
  approval_rate : Q;
  pipeline_status : string
}.
End PipelineStats.

(** ** [main.py]: the filtering stage of [AGIOSPipeline] *)

Module main.

(** An entry of [approved_loops.json]; a [discovery] of [None] is written as
    [null]. *)
Record approved_loop : Type := {
  loop_id : string;
  score : ScoreDict.t quality_scorer.reason;
  features : FeatureDict.t;
  discovery : option Discovery.t
}.

Section Pipeline.
Variable hash : string → Z.

(** [{f['loop_id']: f for f in features}]: a later record replaces an
    earlier one with the same identifier. *)
Fixpoint index_features (features : list FeatureDict.t)
    (features_by_id : gmap string FeatureDict.t)
  : result (gmap string FeatureDict.t) :=
  match features with
  | [] => ok features_by_id
  | f :: rest =>
      (let! id := subscript (FeatureDict.loop_id f) "loop_id" in
       index_features rest (<[id := f]> features_by_id))%py
  end.

(** [next((d for d in discoveries
           if hash(d['source_url']) % 1000000 == int(loop_id.split('_')[1])),
          None)] *)
Fixpoint find_discovery (loop_id : string) (discoveries : list Discovery.t)
  : result (option Discovery.t) :=
  match discoveries with
  | [] => ok None
  | d :: rest =>
      (let! url := subscript (Discovery.source_url d) "source_url" in
       let! part :=
         match PyStr.split "_" loop_id with
         | _ :: part :: _ => ok part
         | _ => raise IndexError
         end in
       let! number := PyStr.int part in
       if hash url mod 1000000 =? number then ok (Some d)
       else find_discovery loop_id rest)%py
  end.

Fixpoint filter_loop (features_by_id : gmap string FeatureDict.t)
    (discoveries : list Discovery.t)
    (scores : list (ScoreDict.t quality_scorer.reason))
  : result (list approved_loop) :=
  match scores with
  | [] => ok []
  | score :: rest =>
      (let! decision :=
         subscript (ScoreDict.approval_decision score) "approval_decision" in
       let! appended :=
         if String.eqb decision "approved" then
           let! loop_id := subscript (ScoreDict.loop_id score) "loop_id" in
           match features_by_id !! loop_id with
           | Some feature =>
               let! discovery := find_discovery loop_id discoveries in
               ok [ {| loop_id := loop_id;
                       score := score;
                       features := feature;
                       discovery := discovery |} ]
           | None => ok []
           end
         else ok [] in
       let! others := filter_loop features_by_id discoveries rest in
       ok (appended ++ others))%py
  end.

(** [filter_approved_loops]: from the three lists read from the score,
    feature and discovery files to the lines logged and, unless an
    exception escapes, the list written to [approved_loops.json] and the
    count returned. *)
Definition filter_approved_loops
    (scores : list (ScoreDict.t quality_scorer.reason))
    (features : list FeatureDict.t) (discoveries : list Discovery.t)
  : list log_entry * result (list approved_loop * nat) :=
  let header := [Info "STEP 4: FILTERING - Extracting approved loops" []] in
  match
    (let! features_by_id := index_features features ∅ in
     filter_loop features_by_id discoveries scores)%py
  with
  | inr approved_loops =>
      (header ++ [Info "Filtering complete" [length approved_loops]],
       ok (approved_loops, length approved_loops))
  | inl e => (header, raise e)
  end.
End Pipeline.

(** *** The stages of a run *)

Section Run.
Variable ast_parse : string → result feature_extractor.ast.
Variable hash : string → Z.
Variable cls : quality_scorer.scorer_class.

(** [run_feature_extraction]: the feature file written, the count returned
    and the lines logged by the extractor. *)
Definition run_feature_extraction (discoveries_file : list Discovery.t)
  : list FeatureDict.t * nat * list log_entry :=
  let '(features, logged) :=
    feature_extractor.process_discoveries ast_parse hash discoveries_file in
  (features, length features, logged).

(** [run_quality_scoring]: the score file written, the summary returned, the
    lines logged by the scorer and the scorer afterwards. *)
Definition run_quality_scoring (features_file : list FeatureDict.t)
    (scorer : quality_scorer.scorer)
  : list (ScoreDict.t quality_scorer.reason) * quality_scorer.summary
    * list log_entry * quality_scorer.scorer :=
  let '(_, scores_file, logged, scorer') :=
    quality_scorer.score_all_loops cls features_file scorer in
  (scores_file, quality_scorer.get_summary scorer', logged, scorer').

(** [run_full_pipeline] after the discovery step, on the discoveries the
    scrapers found: the statistics and the approved bundles, or the
    exception that escapes the filtering stage. *)
Definition run_full_pipeline (found : list web_scraper.LoopDiscovery)
    (scorer : quality_scorer.scorer)
  : result (PipelineStats.t * list approved_loop) :=
  let discoveries_file := web_scraper.save_discoveries found in
  let num_discoveries := length found in
  let '(features_file, num_features, _) :=
    run_feature_extraction discoveries_file in
  let '(scores_file, scoring_summary, _, _) :=
    run_quality_scoring features_file scorer in
  match snd (filter_approved_loops hash scores_file features_file
               discoveries_file) with
  | inr (approved, num_approved) =>
      ok ({| PipelineStats.discoveries := num_discoveries;
             PipelineStats.features_extracted := num_features;
             PipelineStats.scoring_summary := scoring_summary;
             PipelineStats.approved_loops := num_approved;
             PipelineStats.approval_rate :=
               quality_scorer.approval_rate scoring_summary;
             PipelineStats.pipeline_status := "success" |}, approved)
  | inl e => raise e
  end.
End Run.

End main.
(** * Vocabulary of the properties *)

Local Open Scope Q_scope.

Definition in_unit (q : Q) : Prop := 0 <= q ∧ q <= 1.

Local Close Scope Q_scope.

(** ** Rankings *)

Section Ranking.
Context {A : Type} (key : A → nat).

Definition descending (ranked : list A) : Prop :=
  StronglySorted (fun a b => key b <= key a)%nat ranked.

(** Elements with the same key stand in [ranked] in their order of
    [original]. *)
Definition keeps_ties (ranked original : list A) : Prop :=
  ∀ k : nat,
    List.filter (fun x => key x =? k)%nat ranked
    = List.filter (fun x => key x =? k)%nat original.
End Ranking.

(** The number of keywords of a category found in the lower-cased text. *)
Definition keyword_hits (text : string) (keywords : list string) : nat :=
  length (List.filter (fun keyword => PyStr.contains keyword (PyStr.lower text))
            keywords).

(** ** Batches *)

Definition is_error (line : log_entry) : bool :=
  match line with
  | Error _ _ _ => true
  | Info _ _ => false
  end.

(** The lines a batch logged at level ERROR. *)
Definition errors (logged : list log_entry) : list log_entry :=
  List.filter is_error logged.

(** [fd] is the dictionary of the feature record extracted from [d]. *)
Definition extracted_from (ast_parse : string → result feature_extractor.ast)
    (hash : string → Z) (d : Discovery.t) (fd : FeatureDict.t) : Prop :=
  ∃ f, feature_extractor.extract_features ast_parse hash d = ok f
       ∧ fd = feature_extractor.to_dict f.

(** [qs] is the score of [features], from whatever counters. *)
Definition scored_from (cls : quality_scorer.scorer_class)
    (features : FeatureDict.t) (qs : quality_scorer.QualityScore) : Prop :=
  ∀ self, fst (quality_scorer.score_loop cls features self) = ok qs.

Module ScorerSpec.
Import quality_scorer.

(** A method is blind to the instance when its result does not depend on the
    counters it starts from. *)
Definition blind {A} (m : method A) : Prop :=
  ∃ r, ∀ self, fst (m self) = r.

(** The three outcomes of the decision step. *)
Definition decided (cls : scorer_class) (qs : QualityScore) : Prop :=
  let o := overall_score qs in
  (ge o (APPROVAL_THRESHOLD cls) = true
   ∧ approval_decision qs = "approved"
   ∧ confidence qs
     = fmin ((o - APPROVAL_THRESHOLD cls) / (1 - APPROVAL_THRESHOLD cls)) 1)%Q
  ∨ (ge o (APPROVAL_THRESHOLD cls) = false
     ∧ lt o (REJECTION_THRESHOLD cls) = true
     ∧ approval_decision qs = "rejected"
     ∧ confidence qs
       = fmin ((REJECTION_THRESHOLD cls - o) / REJECTION_THRESHOLD cls) 1)%Q
  ∨ (ge o (APPROVAL_THRESHOLD cls) = false
     ∧ lt o (REJECTION_THRESHOLD cls) = false
     ∧ approval_decision qs = "needs_review"
     ∧ confidence qs = 0.5%Q).

(** The code-quality sub-score read off the record. *)
Definition code_quality_of (features : FeatureDict.t) (cq : Q) : Prop :=
  (FeatureDict.has_code features = Some true
   ∧ ∃ cc cl,
       FeatureDict.code_complexity features = Some cc
       ∧ FeatureDict.code_lines features = Some cl
       ∧ cq = fmin (cc * 0.6 + fmin (float_of_nat cl / 100) 1 * 0.4) 1)%Q
  ∨ (FeatureDict.has_code features = Some false ∧ cq = 0.3%Q).

(** A method returns when it ends without an exception from every state. *)
Definition returns {A} (m : method A) : Prop :=
  ∀ self, ∃ a self', m self = (ok a, self').

(** The decision as a function of the overall score and the thresholds. *)
Definition decision_of (cls : scorer_class) (o : Q) : string :=
  if ge o (APPROVAL_THRESHOLD cls) then "approved"
  else if lt o (REJECTION_THRESHOLD cls) then "rejected"
  else "needs_review".

(** The instance after scoring the records of [history] in turn. *)
Definition scorer_after (cls : scorer_class) (history : list FeatureDict.t)
    (self : scorer) : scorer :=
  fold_left (fun s features => snd (score_loop cls features s)) history self.

(** The normalized signals a feature record carries are in [0,1]. *)
Definition signals_normalized (features : FeatureDict.t) : Prop :=
  ∀ q : Q,
    FeatureDict.popularity_score features = Some q
    ∨ FeatureDict.author_reputation features = Some q
    ∨ FeatureDict.recency_score features = Some q
    ∨ FeatureDict.code_complexity features = Some q
    ∨ FeatureDict.estimated_value features = Some q →
    in_unit q.

(** The two invariants of the configuration: the six weights sum to 1.0 and
    the rejection threshold is below the approval threshold. *)
Definition config_valid (cls : scorer_class) : Prop :=
  (popularity (WEIGHTS cls) + code_quality (WEIGHTS cls)
   + content_quality (WEIGHTS cls) + categorization (WEIGHTS cls)
   + recency (WEIGHTS cls) + author (WEIGHTS cls) == 1
   ∧ REJECTION_THRESHOLD cls < APPROVAL_THRESHOLD cls)%Q.

End ScorerSpec.

(** ** Sample inputs *)

Module Samples.

(** A parser that rejects every source text. *)
Definition reject_all : string → result feature_extractor.ast :=
  fun _ => raise SyntaxError.

(** [hash] of a process started with [PYTHONHASHSEED=1], and with
    [PYTHONHASHSEED=2]. *)
Definition hash_seed1 : string → Z := CPython.hash (CPython.secret_of_seed 1).
Definition hash_seed2 : string → Z := CPython.hash (CPython.secret_of_seed 2).

Definition github_repo : Discovery.t :=
  {| Discovery.source_url := Some "https://github.com/a/b";
     Discovery.discovery_timestamp := Some "2025-10-17T09:30:00.000000";
     Discovery.source_type := Some "github";
     Discovery.content_type := Some "text_description";
     Discovery.raw_content := Some "Automate your workflow with this script";
     Discovery.metadata :=
       Some {[ "title" := "a / b"; "author" := "a";
               "stars" := "1,150 stars this week"; "language" := "python" ]} |}.

Definition reddit_post : Discovery.t :=
  {| Discovery.source_url := Some "https://old.reddit.com/r/Python/comments/1";
     Discovery.discovery_timestamp := Some "2025-10-17T09:31:00.000000";
     Discovery.source_type := Some "reddit";
     Discovery.content_type := Some "text_description";
     Discovery.raw_content := Some "How to build a bot";
     Discovery.metadata :=
       Some {[ "title" := "How to build a bot"; "author" := "unknown";
               "upvotes" := "50"; "subreddit" := "r/Python" ]} |}.

(** A GitHub record whose star element was empty. *)
Definition empty_stars : Discovery.t :=
  {| Discovery.source_url := Some "https://github.com/c/d";
     Discovery.discovery_timestamp := Some "2025-10-17T09:32:00.000000";
     Discovery.source_type := Some "github";
     Discovery.content_type := Some "text_description";
     Discovery.raw_content := Some "A scheduler for every task";
     Discovery.metadata :=
       Some {[ "title" := "c / d"; "author" := "c"; "stars" := "";
               "language" := "python" ]} |}.

(** [ast.parse] as CPython 3.11 and earlier start it: a source text with a
    null character raises [ValueError]; any other text is left to [parse]. *)
Definition null_char : ascii := "000"%char.

Definition parse_checking_null (parse : string → result feature_extractor.ast)
  : string → result feature_extractor.ast :=
  fun code =>
    if PyStr.contains (String null_char "") code then raise (ValueError code)
    else parse code.

(** A module with three functions, one class and two loops, and a parser
    that returns it for every text. *)
Definition small_module : feature_extractor.ast :=
  feature_extractor.Node feature_extractor.OtherNode
    [ feature_extractor.Node feature_extractor.ClassDef
        [ feature_extractor.Node feature_extractor.FunctionDef
            [ feature_extractor.Node feature_extractor.For [] ];
          feature_extractor.Node feature_extractor.FunctionDef [] ];
      feature_extractor.Node feature_extractor.FunctionDef
        [ feature_extractor.Node feature_extractor.While
            [ feature_extractor.Node feature_extractor.IfExp [] ] ] ].

Definition parse_small_module : string → result feature_extractor.ast :=
  fun _ => ok small_module.

(** U+00B2, superscript two. *)
Definition superscript_two : string := String (ascii_of_N 178) "".

End Samples.

Module ScoredSamples.
Import quality_scorer.

Definition fresh_scorer : scorer :=
  {| approved_count := 0; rejected_count := 0; review_count := 0 |}.

(** The feature record of [Samples.github_repo] under [PYTHONHASHSEED=1]. *)
Definition github_features : FeatureDict.t :=
  {| FeatureDict.loop_id := Some "github_502531";
     FeatureDict.source_url := Some "https://github.com/a/b";
     FeatureDict.source_type := Some "github";
     FeatureDict.has_code := Some false;
     FeatureDict.code_language := Some None;
     FeatureDict.code_complexity := Some 0%Q;
     FeatureDict.code_lines := Some 0%nat;
     FeatureDict.title_length := Some 5%nat;
     FeatureDict.description_length := Some 39%nat;
     FeatureDict.has_tutorial := Some false;
     FeatureDict.has_documentation := Some false;
     FeatureDict.popularity_score := Some 1%Q;
     FeatureDict.author_reputation := Some 0.6%Q;
     FeatureDict.recency_score := Some 1%Q;
     FeatureDict.primary_category := Some "automation";
     FeatureDict.secondary_categories := Some [];
     FeatureDict.keywords := Some ["automate"; "your"; "workflow"; "script"];
     FeatureDict.automation_type := Some "automation";
     FeatureDict.complexity_level := Some "intermediate";
     FeatureDict.estimated_value := Some 0.51%Q |}.

(** A feature record without the key [popularity_score]. *)
Definition truncated_features : FeatureDict.t :=
  {| FeatureDict.loop_id := Some "github_17";
     FeatureDict.source_url := Some "https://github.com/e/f";
     FeatureDict.source_type := Some "github";
     FeatureDict.has_code := Some false;
     FeatureDict.code_language := Some None;
     FeatureDict.code_complexity := Some 0%Q;
     FeatureDict.code_lines := Some 0%nat;
     FeatureDict.title_length := Some 5%nat;
     FeatureDict.description_length := Some 12%nat;
     FeatureDict.has_tutorial := Some false;
     FeatureDict.has_documentation := Some false;
     FeatureDict.popularity_score := None;
     FeatureDict.author_reputation := Some 0.6%Q;
     FeatureDict.recency_score := Some 1%Q;
     FeatureDict.primary_category := Some "general";
     FeatureDict.secondary_categories := Some [];
     FeatureDict.keywords := Some [];
     FeatureDict.automation_type := Some "general";
     FeatureDict.complexity_level := Some "intermediate";
     FeatureDict.estimated_value := Some 0.3%Q |}.

(** A subclass whose weights sum to 1.5 and whose thresholds are swapped. *)
Definition skewed_class : scorer_class :=
  {| WEIGHTS :=
       {| popularity := 0.75;
          code_quality := 0.20;
          content_quality := 0.20;
          categorization := 0.15;
          recency := 0.10;
          author := 0.10 |};
     APPROVAL_THRESHOLD := 0.35;
     REJECTION_THRESHOLD := 0.60 |}.

(** Two approved scores: one for [github_features], one whose identifier no
    feature record carries. *)
Definition github_score : QualityScore :=
  {| loop_id := "github_502531";
     overall_score := 0.61%Q;
     approval_decision := "approved";
     confidence := 0.025%Q;
     reasoning := [High_popularity 1%Q; No_code_detected;
                   Very_short_description; High_value_category "automation";
                   Overall_score 0.61%Q "approved"] |}.

Definition orphan_score : QualityScore :=
  {| loop_id := "github_999";
     overall_score := 0.7%Q;
     approval_decision := "approved";
     confidence := 0.25%Q;
     reasoning := [Overall_score 0.7%Q "approved"] |}.

End ScoredSamples.

(** ** Filtering *)

(** The number of score records whose decision is approved. *)
Definition approved_decisions
    (scores : list (ScoreDict.t quality_scorer.reason)) : nat :=
  length
    (List.filter
       (fun s => match ScoreDict.approval_decision s with
                 | Some decision => String.eqb decision "approved"
                 | None => false
                 end) scores).

(** ** Keywords *)

(** At least three characters, all of them in a-z. *)
Definition keyword_shaped (w : string) : Prop :=
  (3 <= length (PyStr.chars w))%nat
  ∧ ∀ c, In c (PyStr.chars w) → PyStr.is_lower_az c = true.

(** The number of times [k] stands in [words]. *)
Definition occurrences (words : list string) (k : string) : nat :=
  count_occ string_dec words k.

(** The count a counter holds for [k]; zero when it has no entry. *)
Definition count_in (counts : list (string * nat)) (k : string) : nat :=
  match List.find (fun e => String.eqb k (fst e)) counts with
  | Some (_, n) => n
  | None => 0
  end.

(** ** The score as a formula *)

Module ScoreFormula.
Import quality_scorer ScorerSpec.
Local Open Scope Q_scope.

Definition code_quality_score (has_code : bool) (complexity : Q) (lines : nat)
  : Q :=
  if has_code
  then fmin (complexity * 0.6 + fmin (float_of_nat lines / 100) 1 * 0.4) 1
  else 0.3.

Definition length_tier (description_length : nat) : Q :=
  if (200 <=? description_length)%nat then 0.4
  else if (description_length <? 50)%nat then 0.1 else 0.25.

Definition content_quality_score (description_length : nat)
    (has_tutorial has_documentation : bool) : Q :=
  let base := 0 + length_tier description_length in
  let with_tutorial := if has_tutorial then base + 0.3 else base in
  fmin (if has_documentation then with_tutorial + 0.3 else with_tutorial) 1.

Definition categorization_score (primary_category : string) : Q :=
  if feature_extractor.str_in primary_category high_value_categories then 0.8
  else if String.eqb primary_category "general" then 0.3 else 0.5.

Definition weighted_sum (w : weights) (p cq content cat rec auth : Q) : Q :=
  popularity w * p + code_quality w * cq + content_quality w * content
  + categorization w * cat + recency w * rec + author w * auth.

Definition confidence_of (cls : scorer_class) (o : Q) : Q :=
  if ge o (APPROVAL_THRESHOLD cls)
  then fmin ((o - APPROVAL_THRESHOLD cls) / (1 - APPROVAL_THRESHOLD cls)) 1
  else if lt o (REJECTION_THRESHOLD cls)
  then fmin ((REJECTION_THRESHOLD cls - o) / REJECTION_THRESHOLD cls) 1
  else 0.5.

Definition popularity_notes (p : Q) : list reason :=
  if ge p 0.7 then [High_popularity p]
  else if Qle_bool p 0.2 then [Low_popularity p] else [].

Definition length_notes (description_length : nat) : list reason :=
  if (200 <=? description_length)%nat then [Detailed_description]
  else if (description_length <? 50)%nat then [Very_short_description]
  else [].

Definition category_notes (primary_category : string) : list reason :=
  if feature_extractor.str_in primary_category high_value_categories
  then [High_value_category primary_category]
  else if String.eqb primary_category "general" then [General_category]
  else [].

(** The quality score of a feature record as a function of the record
    alone: the sub-scores, their weighted sum, the decision and the
    reasoning trail. *)
Definition pure_score (cls : scorer_class) (features : FeatureDict.t)
  : result QualityScore :=
  (let! loop_id := subscript (FeatureDict.loop_id features) "loop_id" in
   let! p :=
     subscript (FeatureDict.popularity_score features) "popularity_score" in
   let! has_code := subscript (FeatureDict.has_code features) "has_code" in
   let! code :=
     if has_code : bool then
       let! complexity :=
         subscript (FeatureDict.code_complexity features) "code_complexity" in
       let! lines := subscript (FeatureDict.code_lines features) "code_lines" in
       ok (code_quality_score true complexity lines, Contains_code complexity)
     else ok (code_quality_score false 0 0, No_code_detected) in
   let! description_length :=
     subscript (FeatureDict.description_length features)
       "description_length" in
   let! has_tutorial :=
     subscript (FeatureDict.has_tutorial features) "has_tutorial" in
   let! has_documentation :=
     subscript (FeatureDict.has_documentation features) "has_documentation" in
   let! primary_category :=
     subscript (FeatureDict.primary_category features) "primary_category" in
   let! rec := subscript (FeatureDict.recency_score features) "recency_score" in
   let! auth :=
     subscript (FeatureDict.author_reputation features) "author_reputation" in
   let overall :=
     weighted_sum (WEIGHTS cls) p (fst code)
       (content_quality_score description_length has_tutorial
          has_documentation)
       (categorization_score primary_category) rec auth in
   ok {| loop_id := loop_id;
         overall_score := overall;
         approval_decision := decision_of cls overall;
         confidence := confidence_of cls overall;
         reasoning :=
           popularity_notes p ++ [snd code]
           ++ length_notes description_length
           ++ (if has_tutorial : bool then [Has_tutorial_content] else [])
           ++ (if has_documentation : bool then [Has_documentation] else [])
           ++ category_notes primary_category
           ++ [Overall_score overall (decision_of cls overall)] |})%py.

(** The counter a decision adds to. *)
Definition count_decision (decision : string) (self : scorer) : scorer :=
  if String.eqb decision "approved" then
    {| approved_count := approved_count self + 1;
       rejected_count := rejected_count self;
       review_count := review_count self |}
  else if String.eqb decision "rejected" then
    {| approved_count := approved_count self;
       rejected_count := rejected_count self + 1;
       review_count := review_count self |}
  else
    {| approved_count := approved_count self;
       rejected_count := rejected_count self;
       review_count := review_count self + 1 |}.

Definition count_result (r : result QualityScore) (self : scorer) : scorer :=
  match r with
  | inr qs => count_decision (approval_decision qs) self
  | inl _ => self
  end.

(** The scores of a list with a given decision. *)
Definition decided_as (decision : string) (scores : list QualityScore) : nat :=
  length (List.filter (fun qs => String.eqb (approval_decision qs) decision)
            scores).

(** The keys [score_loop] reads: nine always, two more when the record has
    code. *)
Definition has_scoring_keys (features : FeatureDict.t) : Prop :=
  is_Some (FeatureDict.loop_id features)
  ∧ is_Some (FeatureDict.popularity_score features)
  ∧ is_Some (FeatureDict.has_code features)
  ∧ (FeatureDict.has_code features = Some true →
     is_Some (FeatureDict.code_complexity features)
     ∧ is_Some (FeatureDict.code_lines features))
  ∧ is_Some (FeatureDict.description_length features)
  ∧ is_Some (FeatureDict.has_tutorial features)
  ∧ is_Some (FeatureDict.has_documentation features)
  ∧ is_Some (FeatureDict.primary_category features)
  ∧ is_Some (FeatureDict.recency_score features)
  ∧ is_Some (FeatureDict.author_reputation features).

Definition scoring_keys : list string :=
  ["loop_id"; "popularity_score"; "has_code"; "code_complexity"; "code_lines";
   "description_length"; "has_tutorial"; "has_documentation";
   "primary_category"; "recency_score"; "author_reputation"].

(** A feature record with another popularity score, tutorial flag and
    documentation flag. *)
Definition with_signals (features : FeatureDict.t) (p : Q)
    (has_tutorial has_documentation : bool) : FeatureDict.t :=
  {| FeatureDict.loop_id := FeatureDict.loop_id features;
     FeatureDict.source_url := FeatureDict.source_url features;
     FeatureDict.source_type := FeatureDict.source_type features;
     FeatureDict.has_code := FeatureDict.has_code features;
     FeatureDict.code_language := FeatureDict.code_language features;
     FeatureDict.code_complexity := FeatureDict.code_complexity features;
     FeatureDict.code_lines := FeatureDict.code_lines features;
     FeatureDict.title_length := FeatureDict.title_length features;
     FeatureDict.description_length := FeatureDict.description_length features;
     FeatureDict.has_tutorial := Some has_tutorial;
     FeatureDict.has_documentation := Some has_documentation;
     FeatureDict.popularity_score := Some p;
     FeatureDict.author_reputation := FeatureDict.author_reputation features;
     FeatureDict.recency_score := FeatureDict.recency_score features;
     FeatureDict.primary_category := FeatureDict.primary_category features;
     FeatureDict.secondary_categories :=
       FeatureDict.secondary_categories features;
     FeatureDict.keywords := FeatureDict.keywords features;
     FeatureDict.automation_type := FeatureDict.automation_type features;
     FeatureDict.complexity_level := FeatureDict.complexity_level features;
     FeatureDict.estimated_value := FeatureDict.estimated_value features |}.

End ScoreFormula.

(** ** Feature records *)

Module ExtractorSpec.
Import feature_extractor.

(** The names of the taxonomy, in its order. *)
Definition taxonomy : list string := map fst CATEGORIES.

(** The has-code test of [extract_features] on the raw content. *)
Definition looks_like_code (description : string) : bool :=
  ((100 <? PyStr.len description)%nat
   && any_in ["def "; "import "; "class "; "function"] description)%bool.

(** The text the analyzers read: title, a space, raw content. *)
Definition full_text_of (metadata : gmap string string)
    (discovery : Discovery.t) : string :=
  default "" (metadata !! "title") +:+ " "
  +:+ default "" (Discovery.raw_content discovery).

End ExtractorSpec.

(** ** The filtering stage *)

Module FilterSpec.

(** A feature record that carries the identifier [id]. *)
Definition carries (id : string) (f : FeatureDict.t) : bool :=
  match FeatureDict.loop_id f with
  | Some i => String.eqb i id
  | None => false
  end.

(** A score record the filtering stage bundles: approved, with the
    identifier of some feature record. *)
Definition joined (features : list FeatureDict.t)
    (s : ScoreDict.t quality_scorer.reason) : bool :=
  match ScoreDict.approval_decision s, ScoreDict.loop_id s with
  | Some decision, Some id =>
      String.eqb decision "approved" && existsb (carries id) features
  | _, _ => false
  end.

(** The token of an identifier the join reads as a number. *)
Definition join_token (loop_id : string) : option string :=
  match PyStr.split "_" loop_id with
  | _ :: part :: _ => Some part
  | _ => None
  end.

End FilterSpec.

(** ** Further sample inputs *)

Module MoreSamples.

Definition repo (url title : string) : Discovery.t :=
  {| Discovery.source_url := Some url;
     Discovery.discovery_timestamp := Some "2025-10-17T09:40:00.000000";
     Discovery.source_type := Some "github";
     Discovery.content_type := Some "text_description";
     Discovery.raw_content := Some "Workflow automation bot";
     Discovery.metadata :=
       Some {[ "title" := title; "author" := "u"; "stars" := "320";
               "language" := "python" ]} |}.

(** Two repositories whose URLs have the same hash modulo 1000000 under
    [PYTHONHASHSEED=1]. *)
Definition repo_r16 : Discovery.t := repo "https://github.com/u/r16" "u / r16".
Definition repo_r1250 : Discovery.t :=
  repo "https://github.com/u/r1250" "u / r1250".

(** A record of a source type with an underscore in its name. *)
Definition stack_overflow_answer : Discovery.t :=
  {| Discovery.source_url := Some "https://stackoverflow.com/a/11";
     Discovery.discovery_timestamp := Some "2025-10-17T09:45:00.000000";
     Discovery.source_type := Some "stack_overflow";
     Discovery.content_type := Some "text_description";
     Discovery.raw_content := Some "How to schedule a task";
     Discovery.metadata :=
       Some {[ "title" := "How to schedule a task"; "author" := "w" ]} |}.


(** What the two scrapers found in one cycle. *)
Definition found_two : list web_scraper.LoopDiscovery :=
  [ {| web_scraper.source_url := "https://github.com/a/b";
       web_scraper.discovery_timestamp := "2025-10-17T09:30:00.000000";
       web_scraper.source_type := "github";
       web_scraper.content_type := "text_description";
       web_scraper.raw_content := "Automate your workflow with this script";
       web_scraper.metadata :=
         {[ "title" := "a / b"; "author" := "a";
            "stars" := "1,150 stars this week"; "language" := "python" ]} |};
    {| web_scraper.source_url := "https://old.reddit.com/r/Python/comments/1";
       web_scraper.discovery_timestamp := "2025-10-17T09:31:00.000000";
       web_scraper.source_type := "reddit";
       web_scraper.content_type := "text_description";
       web_scraper.raw_content := "How to build a bot";
       web_scraper.metadata :=
         {[ "title" := "How to build a bot"; "author" := "unknown";
            "upvotes" := "50"; "subreddit" := "r/Python" ]} |} ].

End MoreSamples.
(** * Properties *)

(** ** Checks against the interpreter and the unit tests *)

Example split_ws_noisy :
  PyStr.split_ws "1,150 stars this week" = ["1,150"; "stars"; "this"; "week"].
Proof. reflexivity. Qed.

Example int_examples :
  PyStr.int " 42 " = ok 42 ∧ PyStr.int "-1_000" = ok (-1000)
  ∧ PyStr.int "" = raise (ValueError "") ∧ PyStr.of_int 607821 = "607821"
  ∧ PyStr.of_int 0 = "0" ∧ PyStr.of_int (-35) = "-35"
  ∧ PyStr.split "_" "github_607821" = ["github"; "607821"].
Proof. repeat split; reflexivity. Qed.

Example cpython_hash_seed0 :
  CPython.hash (CPython.secret_of_seed 0) "https://github.com/a/b"
  = 4376349564481607821
  ∧ CPython.hash (CPython.secret_of_seed 0) "a" = 4644417185603328019.
Proof. split; vm_compute; reflexivity. Qed.

Example cpython_hash_seed1 :
  CPython.hash (CPython.secret_of_seed 1) "https://github.com/a/b"
  = 8833465078954502531
  ∧ CPython.hash (CPython.secret_of_seed 1) "a" = -3012895188637184397.
Proof. split; vm_compute; reflexivity. Qed.

Example cpython_hash_seed2 :
  CPython.hash (CPython.secret_of_seed 2) "https://github.com/a/b"
  = -3146068610099521598
  ∧ CPython.hash (CPython.secret_of_seed 2) "a" = 6352457989142756797.
Proof. split; vm_compute; reflexivity. Qed.

Example count_lines_test :
  feature_extractor.count_lines
    ("line1" +:+ String feature_extractor.newline
       ("line2" +:+ String feature_extractor.newline
          (String feature_extractor.newline
             ("line3" +:+ String feature_extractor.newline
                ("  " +:+ String feature_extractor.newline "line4")))))
  = 4%nat.
Proof. reflexivity. Qed.

Example extract_keywords_test :
  feature_extractor.extract_keywords
    "This is a test automation script for web scraping, a test"
  = ["test"; "automation"; "script"; "web"; "scraping"].
Proof. vm_compute. reflexivity. Qed.

Example categorize_web_scraping_test :
  feature_extractor.categorize "BeautifulSoup scraper for extracting data"
  = ("web_scraping", ["data_processing"]).
Proof. vm_compute. reflexivity. Qed.

Example detect_complexity_level_test :
  feature_extractor.detect_complexity_level
    "Advanced production-ready scalable system" = "advanced"
  ∧ feature_extractor.detect_complexity_level
      "Simple tutorial for beginners to learn Python" = "beginner".
Proof. split; vm_compute; reflexivity. Qed.

Example calculate_complexity_parsed :
  feature_extractor.calculate_complexity Samples.parse_small_module
    "class A: ..." "python" = ok (fmin ((9 + 2 * 1.5 + 0 + 0) / 50) 1)
  ∧ feature_extractor.calculate_complexity Samples.parse_small_module
      "function f() { return 1; }" "javascript" = ok (fmin (1 / 100) 1)
  ∧ feature_extractor.calculate_complexity Samples.reject_all
      "def broken(:" "python" = ok (fmin (1 / 100) 1).
Proof. repeat split; vm_compute; reflexivity. Qed.

Example popularity_tests :
  feature_extractor.calculate_popularity_score
    {[ "stars" := "1,500 stars this week" ]} "github" = ok (fmin (1500 / 1000) 1)
  ∧ feature_extractor.calculate_popularity_score
      {[ "upvotes" := "50" ]} "reddit" = ok (fmin (50 / 100) 1)
  ∧ feature_extractor.calculate_popularity_score {[ "stars" := "" ]} "github"
    = raise IndexError.
Proof. repeat split; vm_compute; reflexivity. Qed.

(** ** Floats: [fmin] *)

Local Open Scope Q_scope.

Lemma fmin_Qmin (a b : Q) : fmin a b == Qmin a b.
Proof.
  unfold fmin. destruct (Qle_bool a b) eqn:E.
  - apply Qle_bool_iff in E. symmetry. now apply Q.min_l.
  - assert (b <= a).
    { destruct (Qlt_le_dec a b) as [H|H]; [|exact H].
      apply Qlt_le_weak, Qle_bool_iff in H. congruence. }
    symmetry. now apply Q.min_r.
Qed.

Lemma fmin_cases (a b : Q) :
  (a <= b ∧ fmin a b = a) ∨ (b < a ∧ fmin a b = b).
Proof.
  unfold fmin. destruct (Qle_bool a b) eqn:E.
  - left. split; [now apply Qle_bool_iff | reflexivity].
  - right. split; [|reflexivity].
    apply Qnot_le_lt. intros H. apply Qle_bool_iff in H. congruence.
Qed.

Lemma fmin_unit (a : Q) : 0 <= a → in_unit (fmin a 1).
Proof.
  intros Ha. unfold in_unit.
  destruct (fmin_cases a 1) as [[H ->]|[H ->]]; lra.
Qed.

Lemma ge_true (a b : Q) : quality_scorer.ge a b = true ↔ b <= a.
Proof. unfold quality_scorer.ge. apply Qle_bool_iff. Qed.

Lemma ge_false (a b : Q) : quality_scorer.ge a b = false ↔ a < b.
Proof.
  unfold quality_scorer.ge. split; intros H.
  - apply Qnot_le_lt. intros H'. apply Qle_bool_iff in H'. congruence.
  - destruct (Qle_bool b a) eqn:E; [|reflexivity].
    apply Qle_bool_iff in E. lra.
Qed.

Lemma lt_true (a b : Q) : quality_scorer.lt a b = true ↔ a < b.
Proof.
  unfold quality_scorer.lt. rewrite negb_true_iff. apply (ge_false a b).
Qed.

Lemma lt_false (a b : Q) : quality_scorer.lt a b = false ↔ b <= a.
Proof.
  unfold quality_scorer.lt. rewrite negb_false_iff. apply (ge_true a b).
Qed.

Lemma float_of_nat_nonneg (n : nat) : 0 <= float_of_nat n.
Proof.
  unfold float_of_nat. change 0 with (inject_Z 0).
  rewrite <- Zle_Qle. lia.
Qed.

Local Close Scope Q_scope.

(** ** The scorer's methods and the counters *)

Module ScorerFacts.
Import quality_scorer ScorerSpec.

Lemma blind_mret {A} (a : A) : blind (mret a).
Proof. now exists (ok a). Qed.

Lemma blind_lift {A} (r : result A) : blind (lift r).
Proof. now exists r. Qed.

Lemma blind_update (f : scorer → scorer) : blind (update f).
Proof. now exists (ok tt). Qed.

Lemma blind_mbind {A B} (m : method A) (k : A → method B) :
  blind m → (∀ a, blind (k a)) → blind (mbind m k).
Proof.
  intros [r Hr] Hk. destruct r as [e|a].
  - exists (inl e). intros self. unfold mbind.
    specialize (Hr self). destruct (m self) as [[e'|a'] s']; simpl in *;
      congruence.
  - destruct (Hk a) as [rb Hrb]. exists rb. intros self. unfold mbind.
    specialize (Hr self). destruct (m self) as [[e'|a'] s']; simpl in *;
      [congruence|].
    inversion Hr; subst. apply Hrb.
Qed.

Ltac blind_step :=
  first
    [ apply blind_mret
    | apply blind_lift
    | apply blind_update
    | apply blind_mbind; [|intros ?]
    | match goal with
      | |- blind (let '(_, _) := ?p in _) => destruct p
      | |- blind (if ?c then _ else _) => destruct c
      end ].

Lemma score_loop_blind (cls : scorer_class) (features : FeatureDict.t) :
  blind (score_loop cls features).
Proof. unfold score_loop. repeat blind_step. Qed.

Lemma mbind_ok {A B} (m : method A) (k : A → method B) self b self' :
  mbind m k self = (ok b, self') →
  ∃ a s, m self = (ok a, s) ∧ k a s = (ok b, self').
Proof.
  unfold mbind. destruct (m self) as [[e|a] s]; [discriminate|]. eauto.
Qed.

Lemma lift_subscript_ok {A} (field : option A) key self (a : A) self' :
  lift (subscript field key) self = (ok a, self') →
  field = Some a ∧ self' = self.
Proof.
  unfold lift, subscript. destruct field; intros H; inversion H; auto.
Qed.

Lemma mret_ok {A} (a b : A) self self' :
  mret a self = (ok b, self') → b = a ∧ self' = self.
Proof. unfold mret. intros H; inversion H; auto. Qed.

(** Reading a successful run of a method backwards: one [do!] whose
    right-hand side is a subscript, or any [do!]. *)
Tactic Notation "read" hyp(H) "as" ident(x) ident(Hx) :=
  let s := fresh "s" in
  apply mbind_ok in H as (x & s & Hx & H);
  apply lift_subscript_ok in Hx as [Hx ->].

Tactic Notation "unbind" hyp(H) "as" simple_intropattern(x) ident(s) ident(Hx) :=
  apply mbind_ok in H as (x & s & Hx & H).

Ltac split_ifs :=
  repeat match goal with |- context [if ?c then _ else _] => destruct c end.

(** What a successful call returns. *)
Lemma score_loop_inv (cls : scorer_class) (features : FeatureDict.t)
    (self self' : scorer) (qs : QualityScore) :
  score_loop cls features self = (ok qs, self') →
  ∃ p cq content cat rec auth : Q,
    FeatureDict.loop_id features = Some (loop_id qs)
    ∧ FeatureDict.popularity_score features = Some p
    ∧ FeatureDict.recency_score features = Some rec
    ∧ FeatureDict.author_reputation features = Some auth
    ∧ code_quality_of features cq
    ∧ (0 <= content)%Q
    ∧ (cat = 0.8 ∨ cat = 0.3 ∨ cat = 0.5)%Q
    ∧ overall_score qs
      = (popularity (WEIGHTS cls) * p + code_quality (WEIGHTS cls) * cq
         + content_quality (WEIGHTS cls) * fmin content 1
         + categorization (WEIGHTS cls) * cat
         + recency (WEIGHTS cls) * rec + author (WEIGHTS cls) * auth)%Q
    ∧ decided cls qs.
Proof.
  unfold score_loop. intros H.
  read H as id Hid. read H as p Hp. read H as hc Hhc.
  unbind H as [cq r0] s0 Hcode.
  assert (code_quality_of features cq ∧ s0 = self) as [Hcq ->].
  { unfold code_quality_of. destruct hc.
    - read Hcode as cc Hcc. read Hcode as cl Hcl.
      apply mret_ok in Hcode as [Hcode ->]. inversion Hcode; subst.
      split; [left; eauto 8 | reflexivity].
    - apply mret_ok in Hcode as [Hcode ->]. inversion Hcode; subst.
      split; [right; auto | reflexivity]. }
  clear Hcode.
  read H as dl Hdl.
  match type of H with context [let '(_, _) := ?pr in _] =>
    assert (0 <= fst pr)%Q as Hc1 by (split_ifs; simpl; lra);
    destruct pr as [c1 r1]
  end.
  read H as ht Hht.
  match type of H with context [let '(_, _) := ?pr in _] =>
    assert (0 <= fst pr)%Q as Hc2 by (simpl in Hc1; split_ifs; simpl; lra);
    destruct pr as [c2 r2]
  end.
  read H as hd Hhd.
  match type of H with context [let '(_, _) := ?pr in _] =>
    assert (0 <= fst pr)%Q as Hc3 by (simpl in Hc2; split_ifs; simpl; lra);
    destruct pr as [c3 r3]
  end.
  read H as pc Hpc.
  match type of H with context [let '(_, _) := ?pr in _] =>
    assert (fst pr = 0.8 ∨ fst pr = 0.3 ∨ fst pr = 0.5)%Q as Hcat
      by (split_ifs; simpl; auto);
    destruct pr as [cat r4]
  end.
  read H as rec Hrec. read H as auth Hauth.
  unbind H as [decision conf] s1 Hdec.
  apply mret_ok in H as [-> _].
  exists p, cq, c3, cat, rec, auth. simpl in Hc3, Hcat.
  repeat (split; [first [assumption | reflexivity]|]).
  unfold decided; simpl.
  match type of Hdec with context [ge ?o ?a] =>
    destruct (ge o a) eqn:Ea;
    [|match type of Hdec with context [lt ?o ?r] =>
        destruct (lt o r) eqn:Er end]
  end;
    unbind Hdec as u s2 Hupd;
    apply mret_ok in Hdec as [Hdec _]; inversion Hdec; subst; auto 10.
Qed.

(** A method returns when it ends without an exception from every state. *)
Lemma returns_mret {A} (a : A) : returns (mret a).
Proof. intros self. now exists a, self. Qed.

Lemma returns_present {A} (v : A) (key : string) :
  returns (lift (subscript (Some v) key)).
Proof. intros self. now exists v, self. Qed.

Lemma returns_update (f : scorer → scorer) : returns (update f).
Proof. intros self. now exists tt, (f self). Qed.

Lemma returns_mbind {A B} (m : method A) (k : A → method B) :
  returns m → (∀ a, returns (k a)) → returns (mbind m k).
Proof.
  intros Hm Hk self. unfold mbind.
  destruct (Hm self) as (a & s & ->). apply Hk.
Qed.

Ltac returns_step :=
  first
    [ apply returns_mret
    | apply returns_present
    | apply returns_update
    | apply returns_mbind; [|intros ?]
    | match goal with
      | |- returns (let '(_, _) := ?p in _) => destruct p
      | |- returns (if ?c then _ else _) => destruct c
      end ].

(** A record with every key present is scored. *)
Lemma score_loop_total (cls : scorer_class)
    (f : feature_extractor.ExtractedFeatures) :
  returns (score_loop cls (feature_extractor.to_dict f)).
Proof. unfold score_loop. repeat returns_step. Qed.

End ScorerFacts.

(** ** The decision of [score_loop] *)

Section Decision.
Import quality_scorer ScorerSpec ScorerFacts.
Local Open Scope Q_scope.

Local Ltac settle :=
  intros;
  repeat match goal with H : _ ∧ _ |- _ => destruct H end;
  first [discriminate | reflexivity | lra | contradiction
        | exfalso; lra
        | match goal with H : ¬ _ |- _ => exfalso; apply H; lra end ].

Lemma score_loop_decision_cases
    (features : FeatureDict.t) (self self' : scorer) (qs : QualityScore) :
  score_loop HeuristicQualityScorer features self = (ok qs, self') →
  let o := overall_score qs in
  (approval_decision qs = "approved" ↔ 0.60 <= o)
  ∧ (approval_decision qs = "rejected" ↔ o < 0.35)
  ∧ (approval_decision qs = "needs_review" ↔ ¬ 0.60 <= o ∧ ¬ o < 0.35)
  ∧ (0.60 <= o → confidence qs == Qmin ((o - 0.60) / 0.40) 1)
  ∧ (o < 0.35 → confidence qs == Qmin ((0.35 - o) / 0.35) 1)
  ∧ (¬ 0.60 <= o → ¬ o < 0.35 → confidence qs = 0.5)
  ∧ In (approval_decision qs) ["approved"; "rejected"; "needs_review"].
Proof.
  intros H. apply score_loop_inv in H as (p & cq & c & cat & rec & auth & H).
  destruct H as (_ & _ & _ & _ & _ & _ & _ & _ & Hd).
  unfold decided in Hd. cbn [APPROVAL_THRESHOLD REJECTION_THRESHOLD
    HeuristicQualityScorer] in Hd. intros o. fold o in Hd.
  destruct Hd as [(Ha & Hdec & Hconf)
                 |[(Ha & Hr & Hdec & Hconf)|(Ha & Hr & Hdec & Hconf)]];
    rewrite Hdec, Hconf; clear Hdec Hconf.
  - apply ge_true in Ha.
    repeat split; try solve [settle]; try solve [simpl; auto].
    intros _. rewrite fmin_Qmin. apply Q.min_compat; [|reflexivity].
    unfold Qdiv. apply Qmult_comp; reflexivity.
  - apply ge_false in Ha. apply lt_true in Hr.
    repeat split; try solve [settle]; try solve [simpl; auto].
    intros _. apply fmin_Qmin.
  - apply ge_false in Ha. apply lt_false in Hr.
    repeat split; try solve [settle]; try solve [simpl; auto].
Qed.

(** C1. [score_loop] scores every feature record that has all its keys, and
    whenever it returns a quality-score record the decision is fixed by the
    overall score and the two thresholds: approved exactly when the overall
    score is at least 0.60, rejected exactly when it is below 0.35,
    needs_review exactly in between; the confidence is
    min((overall-0.60)/0.40, 1), min((0.35-overall)/0.35, 1) and 0.5 in the
    three cases, and the decision is always one of the three. *)
Theorem score_loop_decision_partition :
  (∀ (f : feature_extractor.ExtractedFeatures) (self : scorer),
     ∃ qs self',
       score_loop HeuristicQualityScorer (feature_extractor.to_dict f) self
       = (ok qs, self'))
  ∧ (∀ (features : FeatureDict.t) (self self' : scorer) (qs : QualityScore),
       score_loop HeuristicQualityScorer features self = (ok qs, self') →
       let o := overall_score qs in
       (approval_decision qs = "approved" ↔ 0.60 <= o)
       ∧ (approval_decision qs = "rejected" ↔ o < 0.35)
       ∧ (approval_decision qs = "needs_review" ↔ ¬ 0.60 <= o ∧ ¬ o < 0.35)
       ∧ (0.60 <= o → confidence qs == Qmin ((o - 0.60) / 0.40) 1)
       ∧ (o < 0.35 → confidence qs == Qmin ((0.35 - o) / 0.35) 1)
       ∧ (¬ 0.60 <= o → ¬ o < 0.35 → confidence qs = 0.5)
       ∧ In (approval_decision qs) ["approved"; "rejected"; "needs_review"]).
Proof.
  split.
  - intros f. apply score_loop_total.
  - apply score_loop_decision_cases.
Qed.

Lemma score_loop_decision_partition_witness :
  ∃ qs self',
    score_loop HeuristicQualityScorer ScoredSamples.github_features
      ScoredSamples.fresh_scorer = (ok qs, self')
    ∧ (approval_decision qs = "approved" ↔ 0.60 <= overall_score qs).
Proof.
  eexists; eexists; split; [vm_compute; reflexivity|].
  refine (proj1 (proj2 score_loop_decision_partition
                   ScoredSamples.github_features
                   ScoredSamples.fresh_scorer _ _ _)).
  vm_compute; reflexivity.
Defined.

End Decision.

(** ** The counters do not reach the result *)

Section Counters.
Import quality_scorer ScorerSpec ScorerFacts.

(** C7. The result of [score_loop] on a feature record (a quality-score
    record or an exception) is the same from any two states of the
    approved/rejected/review counters, whatever records were scored before;
    and the decision returned is a fixed function of the overall score and
    the two thresholds. *)
Theorem score_loop_ignores_counters
    (cls : scorer_class) (features : FeatureDict.t) :
  (∀ self1 self2 : scorer,
     fst (score_loop cls features self1) = fst (score_loop cls features self2))
  ∧ (∀ (history1 history2 : list FeatureDict.t) (self1 self2 : scorer),
       fst (score_loop cls features (scorer_after cls history1 self1))
       = fst (score_loop cls features (scorer_after cls history2 self2)))
  ∧ (∀ (self self' : scorer) (qs : QualityScore),
       score_loop cls features self = (ok qs, self') →
       approval_decision qs = decision_of cls (overall_score qs)).
Proof.
  destruct (score_loop_blind cls features) as [r Hr].
  split; [|split].
  - intros self1 self2. now rewrite !Hr.
  - intros history1 history2 self1 self2. now rewrite !Hr.
  - intros self self' qs H.
    apply score_loop_inv in H as (p & cq & c & cat & rec & auth & H).
    destruct H as (_ & _ & _ & _ & _ & _ & _ & _ & Hd).
    unfold decision_of.
    destruct Hd as [(Ha & Hdec & _)|[(Ha & Hl & Hdec & _)|(Ha & Hl & Hdec & _)]];
      rewrite Hdec; rewrite Ha; try rewrite Hl; reflexivity.
Qed.

Lemma score_loop_ignores_counters_witness :
  ∃ qs self',
    score_loop HeuristicQualityScorer ScoredSamples.github_features
      (scorer_after HeuristicQualityScorer
         [ScoredSamples.github_features; ScoredSamples.truncated_features]
         ScoredSamples.fresh_scorer) = (ok qs, self')
    ∧ approval_decision qs
      = decision_of HeuristicQualityScorer (overall_score qs).
Proof.
  eexists; eexists; split; [vm_compute; reflexivity|].
  refine (proj2 (proj2 (score_loop_ignores_counters HeuristicQualityScorer
                          ScoredSamples.github_features))
            (scorer_after HeuristicQualityScorer
               [ScoredSamples.github_features; ScoredSamples.truncated_features]
               ScoredSamples.fresh_scorer) _ _ _).
  vm_compute; reflexivity.
Defined.

End Counters.

(** ** Ranges of the scores *)

Section ScoreRange.
Import quality_scorer ScorerSpec ScorerFacts.
Local Open Scope Q_scope.

Lemma code_quality_unit (features : FeatureDict.t) (cq : Q) :
  signals_normalized features → code_quality_of features cq → in_unit cq.
Proof.
  intros Hn [(Hc & cc & cl & Hcc & Hcl & ->)|[_ ->]].
  - apply fmin_unit.
    assert (in_unit cc) as [? ?] by (apply Hn; auto).
    destruct (fmin_unit (float_of_nat cl / 100)) as [? ?].
    { apply Qle_shift_div_l; [reflexivity|].
      pose proof (float_of_nat_nonneg cl). lra. }
    lra.
  - unfold in_unit. lra.
Qed.

Lemma score_loop_range (features : FeatureDict.t) (self self' : scorer)
    (qs : QualityScore) :
  score_loop HeuristicQualityScorer features self = (ok qs, self') →
  signals_normalized features →
  in_unit (overall_score qs) ∧ in_unit (confidence qs).
Proof.
  intros H Hn.
  apply score_loop_inv in H as (p & cq & c & cat & rec & auth & H).
  destruct H as (_ & Hp & Hrec & Hauth & Hcq & Hc & Hcat & Ho & Hd).
  assert (in_unit p) as [? ?] by (apply Hn; auto).
  assert (in_unit rec) as [? ?] by (apply Hn; auto).
  assert (in_unit auth) as [? ?] by (apply Hn; auto).
  destruct (code_quality_unit features cq Hn Hcq).
  destruct (fmin_unit c Hc).
  assert (0.3 <= cat ∧ cat <= 0.8) as [? ?]
    by (destruct Hcat as [-> | [-> | ->]]; lra).
  cbn [WEIGHTS HeuristicQualityScorer popularity code_quality content_quality
         categorization recency author] in Ho.
  assert (in_unit (overall_score qs)) as Hov by (rewrite Ho; split; lra).
  split; [exact Hov|].
  unfold decided in Hd.
  cbn [APPROVAL_THRESHOLD REJECTION_THRESHOLD HeuristicQualityScorer] in Hd.
  destruct Hd as [(Ha & _ & ->)|[(_ & Hr & _ & ->)|(_ & _ & _ & ->)]].
  - apply ge_true in Ha. apply fmin_unit.
    apply Qle_shift_div_l; [reflexivity|]. lra.
  - apply lt_true in Hr. apply fmin_unit.
    apply Qle_shift_div_l; [reflexivity|]. lra.
  - unfold in_unit; lra.
Qed.

End ScoreRange.

(** ** Strings: [int] of digit strings *)

Module PyStrFacts.
Import PyStr.

Lemma rbind_ok {A B} (m : result A) (k : A → result B) (b : B) :
  rbind m k = ok b → ∃ a, m = ok a ∧ k a = ok b.
Proof. destruct m as [e|a]; [discriminate|]. simpl. eauto. Qed.

Lemma chars_of_chars (l : list ascii) : chars (of_chars l) = l.
Proof. induction l as [|c l IH]; simpl; congruence. Qed.

Lemma lstrip_keeps (s : string) (c : ascii) :
  In c (chars (lstrip s)) → In c (chars s).
Proof.
  induction s as [|a s IH]; simpl; [tauto|].
  destruct (is_space a); simpl; auto.
Qed.

Lemma strip_keeps (s : string) (c : ascii) :
  In c (chars (strip s)) → In c (chars s).
Proof.
  unfold strip, rstrip. rewrite chars_of_chars, <- in_rev. intros H.
  apply lstrip_keeps in H. rewrite chars_of_chars, <- in_rev in H.
  now apply lstrip_keeps.
Qed.

Lemma digit_value_nonneg (c : ascii) : is_decimal c = true → 0 <= digit_value c.
Proof.
  unfold is_decimal, in_range, digit_value. rewrite andb_true_iff.
  intros [H _]. apply N.leb_le in H. lia.
Qed.

Lemma decimal_value_nonneg (l : list ascii) :
  Forall (fun c => is_decimal c = true) l → 0 <= decimal_value l.
Proof.
  unfold decimal_value. intros H.
  assert (∀ acc, 0 <= acc →
          0 <= fold_left (fun acc c => 10 * acc + digit_value c) l acc) as Hgo.
  { induction H as [|c l Hc _ IH]; intros acc Hacc; simpl.
    - exact Hacc.
    - apply IH. pose proof (digit_value_nonneg c Hc). lia. }
  apply Hgo. lia.
Qed.

Lemma int_digits_decimal (l digits : list ascii) (prev : bool) :
  int_digits prev l = Some digits →
  Forall (fun c => is_decimal c = true) digits.
Proof.
  revert prev digits. induction l as [|c l IH]; intros prev digits; simpl.
  - destruct prev; [|discriminate]. intros H; inversion H. constructor.
  - destruct (is_decimal c) eqn:Hc.
    + destruct (int_digits true l) as [d|] eqn:E; [|discriminate].
      intros H; inversion H; subst. constructor; eauto.
    + destruct (Ascii.eqb c "_" && prev)%bool; [|discriminate]. eauto.
Qed.

(** Without a minus sign, [int] returns no negative number. *)
Lemma int_nonneg (s : string) (z : Z) :
  int s = ok z → (∀ c, In c (chars s) → c ≠ "-"%char) → 0 <= z.
Proof.
  unfold int. intros H Hs.
  assert (∀ c, In c (chars (strip s)) → c ≠ "-"%char) as Hb
    by (intros c Hc; apply Hs, strip_keeps, Hc).
  assert (∀ sign ds,
            (sign = 1 →
             match ds with
             | [] => raise (ValueError s)
             | _ :: _ =>
                 match int_digits false ds with
                 | Some digits => ok (sign * decimal_value digits)
                 | None => raise (ValueError s)
                 end
             end = ok z → 0 <= z)) as Hgo.
  { intros sign ds -> Hz. destruct ds as [|d ds]; [discriminate|].
    destruct (int_digits false (d :: ds)) as [digits|] eqn:E; [|discriminate].
    inversion Hz; subst.
    pose proof (decimal_value_nonneg _ (int_digits_decimal _ _ _ E)). lia. }
  destruct (chars (strip s)) as [|c r] eqn:Eb.
  - discriminate.
  - destruct (Ascii.eqb c "-") eqn:Em.
    + apply Ascii.eqb_eq in Em. exfalso. apply (Hb c); [now left|exact Em].
    + destruct (Ascii.eqb c "+").
      * exact (Hgo 1 r eq_refl H).
      * exact (Hgo 1 (c :: r) eq_refl H).
Qed.

Lemma keep_decimals_chars (s : string) (c : ascii) :
  In c (chars (keep_decimals s)) → is_decimal c = true.
Proof.
  unfold keep_decimals. rewrite chars_of_chars, filter_In. tauto.
Qed.

Lemma isdigit_chars (s : string) (c : ascii) :
  isdigit s = true → In c (chars s) → is_digit_char c = true.
Proof.
  unfold isdigit. rewrite andb_true_iff, forallb_forall. intros [_ H]. apply H.
Qed.

End PyStrFacts.

(** ** The feature extractor's signals *)

Module ExtractorFacts.
Import feature_extractor PyStrFacts.
Local Open Scope Q_scope.

Lemma ratio_unit (z : Z) (d : Q) :
  (0 <= z)%Z → 0 < d → in_unit (fmin (inject_Z z / d) 1).
Proof.
  intros Hz Hd. apply fmin_unit. apply Qle_shift_div_l; [exact Hd|].
  assert (0 <= inject_Z z) by (change 0 with (inject_Z 0); now rewrite <- Zle_Qle).
  lra.
Qed.

Lemma line_complexity_unit (code : string) : in_unit (line_complexity code).
Proof.
  unfold line_complexity, float_of_nat. apply ratio_unit; [lia|reflexivity].
Qed.

(** The weighted count of [calculate_complexity] on a parsed tree. *)
Lemma calculate_complexity_cases (ast_parse : string → result ast)
    (code language : string) :
  (language ≠ "python" →
   calculate_complexity ast_parse code language = ok (line_complexity code))
  ∧ (language = "python" → ast_parse code = raise SyntaxError →
     calculate_complexity ast_parse code language = ok (line_complexity code))
  ∧ (language = "python" → ∀ tree, ast_parse code = ok tree →
     calculate_complexity ast_parse code language
     = ok (fmin
             ((float_of_nat
                 (count_nodes (is_class FunctionDef) tree * 2
                  + count_nodes (is_class ClassDef) tree * 3)
               + float_of_nat
                   (count_nodes
                      (fun n => (is_class For n || is_class While n)%bool) tree)
                 * 1.5
               + float_of_nat (count_nodes (is_class If) tree * 1)
               + float_of_nat (count_nodes (is_class Try) tree * 2)) / 50) 1))
  ∧ (language = "python" → ∀ e, ast_parse code = raise e → e ≠ SyntaxError →
     calculate_complexity ast_parse code language = raise e).
Proof.
  unfold calculate_complexity. repeat split.
  - intros Hl. apply String.eqb_neq in Hl. now rewrite Hl.
  - intros -> Hp. now rewrite Hp.
  - intros -> tree Hp. now rewrite Hp.
  - intros -> e Hp He. rewrite Hp. simpl. destruct e; congruence.
Qed.

Lemma calculate_complexity_unit (ast_parse : string → result ast)
    (code language : string) (q : Q) :
  calculate_complexity ast_parse code language = ok q → in_unit q.
Proof.
  unfold calculate_complexity.
  destruct (negb (language =? "python")%string).
  - intros H; inversion H. apply line_complexity_unit.
  - destruct (ast_parse code) as [e|tree].
    + destruct e; intros H; inversion H. apply line_complexity_unit.
    + intros H; inversion H. apply fmin_unit.
      apply Qle_shift_div_l; [reflexivity|].
      repeat match goal with
             | |- context [float_of_nat ?n] =>
                 pose proof (float_of_nat_nonneg n);
                 generalize dependent (float_of_nat n); intros
             end.
      lra.
Qed.

Lemma calculate_popularity_score_unit (metadata : gmap string string)
    (source_type : string) (q : Q) :
  calculate_popularity_score metadata source_type = ok q → in_unit q.
Proof.
  unfold calculate_popularity_score.
  destruct (source_type =? "github")%string.
  - intros H. apply rbind_ok in H as (token & _ & H).
    apply rbind_ok in H as (stars & Hs & H). inversion H.
    apply ratio_unit; [|reflexivity].
    apply (int_nonneg _ _ Hs). intros c Hc ->.
    destruct (PyStr.truthy (PyStr.keep_decimals token)).
    + apply keep_decimals_chars in Hc. discriminate.
    + simpl in Hc. destruct Hc as [Hc|[]]. discriminate.
  - destruct (source_type =? "reddit")%string.
    + intros H. apply rbind_ok in H as (upvotes & Hu & H). inversion H.
      apply ratio_unit; [|reflexivity].
      destruct (PyStr.isdigit (default "0"%string (metadata !! "upvotes"%string)))
        eqn:Ed.
      * apply (int_nonneg _ _ Hu). intros c Hc ->.
        apply (isdigit_chars _ _ Ed) in Hc. discriminate.
      * inversion Hu. lia.
    + intros H; inversion H. unfold in_unit; lra.
Qed.

Lemma calculate_author_reputation_unit (metadata : gmap string string)
    (source_type : string) :
  in_unit (calculate_author_reputation metadata source_type).
Proof.
  unfold calculate_author_reputation, in_unit.
  destruct (str_in _ _); lra.
Qed.

Lemma estimate_value_unit (p c a : Q) (has_code : bool) :
  in_unit p → in_unit c → in_unit a →
  in_unit (estimate_value
             {| vf_popularity_score := Some p;
                vf_code_complexity := Some c;
                vf_author_reputation := Some a;
                vf_has_code := Some has_code |}).
Proof.
  intros [? ?] [? ?] [? ?]. unfold estimate_value. apply fmin_unit. simpl.
  destruct has_code; lra.
Qed.

Lemma extract_features_range (ast_parse : string → result ast)
    (hash : string → Z) (discovery : Discovery.t) (f : ExtractedFeatures) :
  extract_features ast_parse hash discovery = ok f →
  in_unit (popularity_score f) ∧ in_unit (author_reputation f)
  ∧ in_unit (recency_score f) ∧ in_unit (code_complexity f)
  ∧ in_unit (estimated_value f).
Proof.
  unfold extract_features. intros H.
  apply rbind_ok in H as (id_type & _ & H).
  apply rbind_ok in H as (id_url & _ & H).
  apply rbind_ok in H as (url & _ & H).
  apply rbind_ok in H as (type & _ & H).
  apply rbind_ok in H as (metadata & _ & H).
  apply rbind_ok in H as (complexity & Hc & H).
  destruct (categorize _) as [primary secondary].
  apply rbind_ok in H as (pop & Hp & H).
  apply rbind_ok in H as (timestamp & _ & H).
  inversion H; subst; clear H. simpl.
  assert (in_unit complexity) as Hcu.
  { match type of Hc with
    | (if ?b then _ else _) = _ => destruct b
    end.
    - eapply calculate_complexity_unit; eauto.
    - inversion Hc. unfold in_unit; lra. }
  pose proof (calculate_popularity_score_unit _ _ _ Hp) as Hpu.
  pose proof (calculate_author_reputation_unit metadata type) as Hau.
  repeat split; try (apply Hpu || apply Hau || apply Hcu).
  - unfold calculate_recency_score. lra.
  - unfold calculate_recency_score. lra.
  - now apply estimate_value_unit.
  - now apply estimate_value_unit.
Qed.

End ExtractorFacts.

Section SignalRanges.
Import feature_extractor quality_scorer ScorerSpec.

(** C3. Every feature record that [extract_features] produces has its
    popularity score, author reputation, recency score, code complexity and
    estimated value in [0,1]; and every quality-score record that
    [score_loop] produces from a feature record whose normalized signals are
    in [0,1] has its overall score and its confidence in [0,1]. *)
Theorem signals_and_scores_in_unit_interval :
  (∀ (ast_parse : string → result ast) (hash : string → Z)
     (discovery : Discovery.t) (f : ExtractedFeatures),
     extract_features ast_parse hash discovery = ok f →
     in_unit (popularity_score f) ∧ in_unit (author_reputation f)
     ∧ in_unit (recency_score f) ∧ in_unit (code_complexity f)
     ∧ in_unit (estimated_value f))
  ∧ (∀ (features : FeatureDict.t) (self self' : scorer) (qs : QualityScore),
       score_loop HeuristicQualityScorer features self = (ok qs, self') →
       signals_normalized features →
       in_unit (overall_score qs) ∧ in_unit (confidence qs)).
Proof.
  split.
  - apply ExtractorFacts.extract_features_range.
  - apply score_loop_range.
Qed.

Lemma signals_and_scores_in_unit_interval_witness :
  (∃ f, extract_features Samples.reject_all Samples.hash_seed1
          Samples.reddit_post = ok f
        ∧ in_unit (popularity_score f))
  ∧ (∃ qs self',
       score_loop HeuristicQualityScorer ScoredSamples.github_features
         ScoredSamples.fresh_scorer = (ok qs, self')
       ∧ in_unit (overall_score qs) ∧ in_unit (confidence qs)).
Proof.
  split.
  - eexists; split; [vm_compute; reflexivity|].
    refine (proj1 (proj1 signals_and_scores_in_unit_interval
                     Samples.reject_all Samples.hash_seed1
                     Samples.reddit_post _ _)).
    vm_compute; reflexivity.
  - eexists; eexists; split; [vm_compute; reflexivity|].
    refine (proj2 signals_and_scores_in_unit_interval
              ScoredSamples.github_features ScoredSamples.fresh_scorer _ _ _ _).
    + vm_compute; reflexivity.
    + intros q [H|[H|[H|[H|H]]]]; inversion H; subst; split; discriminate.
Defined.

End SignalRanges.

(** ** Exceptions that escape the two estimators *)

Section Escapes.
Import feature_extractor.
Local Open Scope Q_scope.

(** C4. [calculate_complexity] lets every exception of the parser other than
    [SyntaxError] escape: for the language python, a source text on which
    [ast.parse] raises such an exception makes [calculate_complexity] raise
    it instead of returning the line-count value. *)
Theorem calculate_complexity_lets_parser_errors_escape
    (ast_parse : string → result ast) (code : string) (e : exn) :
  ast_parse code = raise e → e ≠ SyntaxError →
  calculate_complexity ast_parse code "python" = raise e.
Proof.
  intros Hp He.
  destruct (ExtractorFacts.calculate_complexity_cases ast_parse code "python")
    as (_ & _ & _ & Hescape).
  now apply Hescape.
Qed.

Lemma calculate_complexity_lets_parser_errors_escape_witness :
  let code := "x = 1" +:+ String Samples.null_char "" in
  calculate_complexity (Samples.parse_checking_null Samples.reject_all) code
    "python" = raise (ValueError code).
Proof.
  intros code.
  apply (calculate_complexity_lets_parser_errors_escape
           (Samples.parse_checking_null Samples.reject_all) code
           (ValueError code)).
  - reflexivity.
  - discriminate.
Defined.

(** Where [calculate_complexity] returns, it returns what the specification
    says, within [0,1]. *)
Lemma calculate_complexity_returns (ast_parse : string → result ast)
    (code language : string) :
  (language ≠ "python" ∨ ast_parse code = raise SyntaxError →
   calculate_complexity ast_parse code language
   = ok (fmin (float_of_nat (count_lines code) / 100) 1))
  ∧ (∀ q, calculate_complexity ast_parse code language = ok q → in_unit q).
Proof.
  destruct (ExtractorFacts.calculate_complexity_cases ast_parse code language)
    as (Hother & Hsyntax & _ & _).
  split.
  - destruct (string_dec language "python") as [Hl|Hl].
    + intros [H|H]; [congruence|]. now apply Hsyntax.
    + intros _. now apply Hother.
  - apply ExtractorFacts.calculate_complexity_unit.
Qed.

(** C5. [calculate_popularity_score] raises on some metadata: [IndexError]
    for the github source type when the stars text is empty or blank, and
    [ValueError] for the reddit source type when the upvotes text is a digit
    character that is not a decimal digit. *)
Theorem calculate_popularity_score_raises :
  calculate_popularity_score {[ "stars" := "" ]} "github" = raise IndexError
  ∧ calculate_popularity_score {[ "stars" := "   " ]} "github"
    = raise IndexError
  ∧ calculate_popularity_score {[ "upvotes" := Samples.superscript_two ]}
      "reddit" = raise (ValueError Samples.superscript_two).
Proof. repeat split; vm_compute; reflexivity. Qed.

(** Where [calculate_popularity_score] returns, it returns what the
    specification says. *)
Lemma calculate_popularity_score_returns :
  (∀ metadata source_type q,
     calculate_popularity_score metadata source_type = ok q → in_unit q)
  ∧ (∀ metadata source_type,
       source_type ≠ "github" → source_type ≠ "reddit" →
       calculate_popularity_score metadata source_type = ok 0.5)
  ∧ (∀ metadata upvotes,
       metadata !! "upvotes" = Some upvotes → PyStr.isdigit upvotes = false →
       calculate_popularity_score metadata "reddit" = ok (fmin (0 / 100) 1))
  ∧ (∃ q, calculate_popularity_score {[ "upvotes" := "50" ]} "reddit" = ok q
          ∧ q == 0.5)
  ∧ (∃ q, calculate_popularity_score {[ "stars" := "1,500 stars this week" ]}
            "github" = ok q ∧ q == 1)
  ∧ (∃ q, calculate_popularity_score {[ "stars" := "no stars yet" ]}
            "github" = ok q ∧ q == 0).
Proof.
  split; [apply ExtractorFacts.calculate_popularity_score_unit|].
  split.
  { intros metadata source_type Hg Hr. unfold calculate_popularity_score.
    apply String.eqb_neq in Hg, Hr. now rewrite Hg, Hr. }
  split.
  { intros metadata upvotes Hm Hd. unfold calculate_popularity_score.
    simpl. rewrite Hm. simpl. now rewrite Hd. }
  repeat split; eexists; (split; [vm_compute; reflexivity|reflexivity]).
Qed.

End Escapes.

(** ** Batches: one failing item *)

Module BatchFacts.
Import feature_extractor quality_scorer ScorerSpec ScorerFacts.

Lemma errors_app (l1 l2 : list log_entry) :
  errors (l1 ++ l2) = errors l1 ++ errors l2.
Proof. unfold errors. apply List.filter_app. Qed.

Lemma errors_progress (b : bool) (line : log_entry) :
  is_error line = false → errors (if b then [line] else []) = [].
Proof. intros H. destruct b; simpl; [now rewrite H|reflexivity]. Qed.

Section Extraction.
Variable ast_parse : string → result ast.
Variable hash : string → Z.

Let succeeds (d : Discovery.t) : Prop :=
  ∃ f, extract_features ast_parse hash d = ok f.

Lemma process_loop_app (total i : nat) (l1 l2 : list Discovery.t) :
  process_loop ast_parse hash total i (l1 ++ l2)
  = (fst (process_loop ast_parse hash total i l1)
     ++ fst (process_loop ast_parse hash total (i + length l1) l2),
     snd (process_loop ast_parse hash total i l1)
     ++ snd (process_loop ast_parse hash total (i + length l1) l2)).
Proof.
  revert i. induction l1 as [|d l1 IH]; intros i; simpl.
  - rewrite Nat.add_0_r. now destruct (process_loop _ _ _ _ l2).
  - rewrite IH. replace (S i + length l1)%nat with (i + S (length l1))%nat by lia.
    destruct (process_loop ast_parse hash total (S i) l1) as [o1 g1].
    destruct (process_loop ast_parse hash total (i + S (length l1)) l2)
      as [o2 g2].
    destruct (extract_features ast_parse hash d); simpl;
      [reflexivity | now rewrite <- app_assoc].
Qed.

Lemma process_loop_ok (total i : nat) (l : list Discovery.t) :
  Forall succeeds l →
  Forall2 (extracted_from ast_parse hash) l
    (fst (process_loop ast_parse hash total i l))
  ∧ errors (snd (process_loop ast_parse hash total i l)) = [].
Proof.
  intros H. revert i. induction H as [|d l [f Hf] _ IH]; intros i; simpl.
  - split; [constructor|reflexivity].
  - destruct (IH (S i)) as [IH1 IH2].
    destruct (process_loop ast_parse hash total (S i) l) as [o g].
    rewrite Hf. simpl in *. split.
    + constructor; [|exact IH1]. now exists f.
    + rewrite errors_app, IH2, errors_progress; reflexivity.
Qed.

Lemma process_discoveries_one_failure
    (before after : list Discovery.t) (bad : Discovery.t) (e : exn) :
  extract_features ast_parse hash bad = raise e →
  Forall succeeds (before ++ after) →
  let batch := before ++ bad :: after in
  let returned := fst (process_discoveries ast_parse hash batch) in
  let logged := snd (process_discoveries ast_parse hash batch) in
  Forall2 (extracted_from ast_parse hash) (before ++ after) returned
  ∧ length returned = (length batch - 1)%nat
  ∧ errors logged = [Error "Error processing discovery" (length before) e]
  ∧ In (Info "Feature extraction complete" [length returned; length batch])
      logged.
Proof.
  intros Hbad Hok batch returned logged.
  apply Forall_app in Hok as [Hb Ha].
  unfold process_discoveries in returned, logged.
  set (total := length batch) in *.
  assert (process_loop ast_parse hash total 0 batch
          = (fst (process_loop ast_parse hash total 0 before)
             ++ fst (process_loop ast_parse hash total (S (length before)) after),
             snd (process_loop ast_parse hash total 0 before)
             ++ Error "Error processing discovery" (length before) e
                :: snd (process_loop ast_parse hash total (S (length before))
                          after))) as Hloop.
  { unfold batch. rewrite process_loop_app. simpl. rewrite Hbad.
    now destruct (process_loop ast_parse hash total (S (length before)) after). }
  destruct (process_loop_ok total 0 before Hb) as [Fb Eb].
  destruct (process_loop_ok total (S (length before)) after Ha) as [Fa Ea].
  subst returned logged. rewrite Hloop. cbn [fst snd].
  assert (Forall2 (extracted_from ast_parse hash) (before ++ after)
            (fst (process_loop ast_parse hash total 0 before)
             ++ fst (process_loop ast_parse hash total (S (length before)) after)))
    as Hall by (now apply Forall2_app).
  split; [exact Hall|]. split; [|split].
  - rewrite <- (Forall2_length _ _ _ Hall). unfold total, batch.
    rewrite !length_app. simpl. lia.
  - rewrite !errors_app. simpl. now rewrite Eb, Ea.
  - apply in_or_app. right. apply in_or_app. right. right. now left.
Qed.
End Extraction.

Section Scoring.
Variable cls : scorer_class.

Lemma score_loop_all_app (total i : nat) (l1 l2 : list FeatureDict.t)
    (self : scorer) :
  score_loop_all cls total i (l1 ++ l2) self
  = let '(o1, g1, s1) := score_loop_all cls total i l1 self in
    let '(o2, g2, s2) := score_loop_all cls total (i + length l1) l2 s1 in
    (o1 ++ o2, g1 ++ g2, s2).
Proof.
  revert i self. induction l1 as [|d l1 IH]; intros i self; simpl.
  - rewrite Nat.add_0_r. now destruct (score_loop_all _ _ _ l2 _) as [[? ?] ?].
  - destruct (score_loop cls d self) as [[e|qs] s]; rewrite IH;
      replace (S i + length l1)%nat with (i + S (length l1))%nat by lia;
      destruct (score_loop_all cls total (S i) l1 s) as [[o1 g1] s1];
      destruct (score_loop_all cls total (i + S (length l1)) l2 s1)
        as [[o2 g2] s2]; simpl; [reflexivity | now rewrite <- app_assoc].
Qed.

Lemma score_loop_all_ok (total i : nat) (l : list FeatureDict.t)
    (self : scorer) :
  Forall (fun features => ∃ qs, scored_from cls features qs) l →
  Forall2 (scored_from cls) l (fst (fst (score_loop_all cls total i l self)))
  ∧ errors (snd (fst (score_loop_all cls total i l self))) = [].
Proof.
  intros H. revert i self.
  induction H as [|d l [qs Hqs] _ IH]; intros i self; simpl.
  - split; [constructor|reflexivity].
  - pose proof (Hqs self) as Hd.
    destruct (score_loop cls d self) as [r s]. simpl in Hd. subst r.
    destruct (IH (S i) s) as [IH1 IH2].
    destruct (score_loop_all cls total (S i) l s) as [[o g] s'].
    simpl in *. split.
    + constructor; assumption.
    + rewrite errors_app, IH2, errors_progress; reflexivity.
Qed.

Lemma score_all_loops_one_failure
    (before after : list FeatureDict.t) (bad : FeatureDict.t) (e : exn)
    (self : scorer) :
  (∀ self, fst (score_loop cls bad self) = raise e) →
  Forall (fun features => ∃ qs, scored_from cls features qs) (before ++ after) →
  let batch := before ++ bad :: after in
  let '(returned, written, logged, _) := score_all_loops cls batch self in
  Forall2 (scored_from cls) (before ++ after) returned
  ∧ written = map to_dict returned
  ∧ length returned = (length batch - 1)%nat
  ∧ errors logged = [Error "Error scoring loop" (length before) e].
Proof.
  intros Hbad Hok batch.
  apply Forall_app in Hok as [Hb Ha].
  unfold score_all_loops. set (total := length batch).
  unfold batch. rewrite score_loop_all_app.
  destruct (score_loop_all_ok total 0 before self Hb) as [Fb Eb].
  destruct (score_loop_all cls total 0 before self) as [[o1 g1] s1].
  simpl score_loop_all. specialize (Hbad s1).
  destruct (score_loop cls bad s1) as [r s2]. simpl in Hbad. subst r.
  destruct (score_loop_all_ok total (S (length before)) after s2 Ha)
    as [Fa Ea].
  destruct (score_loop_all cls total (S (length before)) after s2)
    as [[o2 g2] s3].
  simpl in *.
  assert (Forall2 (scored_from cls) (before ++ after) (o1 ++ o2)) as Hall
    by (now apply Forall2_app).
  split; [exact Hall|]. split; [reflexivity|]. split.
  - rewrite <- (Forall2_length _ _ _ Hall). unfold total, batch.
    rewrite !length_app. simpl. lia.
  - rewrite !errors_app. simpl. now rewrite Eb, Ea.
Qed.
End Scoring.

End BatchFacts.

Section Isolation.
Import feature_extractor quality_scorer.

(** C6. In a batch of N discovery records of which exactly one makes
    [extract_features] raise, [process_discoveries] returns the N-1 feature
    dictionaries of the other records in input order, logs exactly one
    error, for the index of the failing record, and reports N-1 of N;
    [score_all_loops] treats a batch of feature records the same way. *)
Theorem batches_isolate_one_failure :
  (∀ (ast_parse : string → result ast) (hash : string → Z)
     (before after : list Discovery.t) (bad : Discovery.t) (e : exn),
     extract_features ast_parse hash bad = raise e →
     Forall (fun d => ∃ f, extract_features ast_parse hash d = ok f)
       (before ++ after) →
     let batch := before ++ bad :: after in
     let returned := fst (process_discoveries ast_parse hash batch) in
     let logged := snd (process_discoveries ast_parse hash batch) in
     Forall2 (extracted_from ast_parse hash) (before ++ after) returned
     ∧ length returned = (length batch - 1)%nat
     ∧ errors logged = [Error "Error processing discovery" (length before) e]
     ∧ In (Info "Feature extraction complete"
             [length returned; length batch]) logged)
  ∧ (∀ (cls : scorer_class) (before after : list FeatureDict.t)
       (bad : FeatureDict.t) (e : exn) (self : scorer),
       (∀ self, fst (score_loop cls bad self) = raise e) →
       Forall (fun features => ∃ qs, scored_from cls features qs)
         (before ++ after) →
       let batch := before ++ bad :: after in
       let '(returned, written, logged, _) := score_all_loops cls batch self in
       Forall2 (scored_from cls) (before ++ after) returned
       ∧ written = map to_dict returned
       ∧ length returned = (length batch - 1)%nat
       ∧ errors logged = [Error "Error scoring loop" (length before) e]).
Proof.
  split.
  - apply BatchFacts.process_discoveries_one_failure.
  - apply BatchFacts.score_all_loops_one_failure.
Qed.

Lemma batches_isolate_one_failure_witness :
  (let batch := [Samples.github_repo; Samples.empty_stars; Samples.reddit_post] in
   let run :=
     process_discoveries Samples.reject_all Samples.hash_seed1 batch in
   length (fst run) = 2%nat
   ∧ errors (snd run) = [Error "Error processing discovery" 1 IndexError])
  ∧ (let batch :=
       [ScoredSamples.github_features] ++ ScoredSamples.truncated_features :: [] in
     let '(returned, written, logged, _) :=
       score_all_loops HeuristicQualityScorer batch ScoredSamples.fresh_scorer in
     Forall2 (scored_from HeuristicQualityScorer)
       ([ScoredSamples.github_features] ++ []) returned
     ∧ written = map to_dict returned
     ∧ length returned = (length batch - 1)%nat
     ∧ errors logged
       = [Error "Error scoring loop" (length [ScoredSamples.github_features])
            (KeyError "popularity_score")]).
Proof.
  split.
  - pose proof (proj1 batches_isolate_one_failure
                  Samples.reject_all Samples.hash_seed1
                  [Samples.github_repo] [Samples.reddit_post]
                  Samples.empty_stars IndexError) as H.
    cbv zeta in H.
    destruct H as (_ & Hlen & Herr & _).
    + vm_compute; reflexivity.
    + repeat constructor; eexists; vm_compute; reflexivity.
    + split; [exact Hlen|exact Herr].
  - refine (proj2 batches_isolate_one_failure HeuristicQualityScorer
              [ScoredSamples.github_features] []
              ScoredSamples.truncated_features
              (KeyError "popularity_score") ScoredSamples.fresh_scorer _ _).
    + intros self; reflexivity.
    + repeat constructor; eexists; intros self; vm_compute; reflexivity.
Defined.

End Isolation.

(** ** Stable descending sort *)

Section SortFacts.
Context {A : Type} (key : A → nat).

Lemma insert_desc_perm (x : A) (l : list A) :
  Permutation (insert_desc key x l) (x :: l).
Proof.
  induction l as [|y r IH]; simpl.
  - reflexivity.
  - destruct (key x <? key y)%nat.
    + rewrite IH. apply perm_swap.
    + reflexivity.
Qed.

Lemma sorted_desc_perm (l : list A) : Permutation (sorted_desc key l) l.
Proof.
  induction l as [|x l IH]; simpl.
  - reflexivity.
  - rewrite insert_desc_perm. now apply perm_skip.
Qed.

Lemma insert_desc_descending (x : A) (l : list A) :
  descending key l → descending key (insert_desc key x l).
Proof.
  unfold descending. induction 1 as [|y r Hr IH Hy]; simpl.
  - repeat constructor.
  - destruct (key x <? key y)%nat eqn:E.
    + apply Nat.ltb_lt in E. constructor; [exact IH|].
      apply (Permutation_Forall (Permutation_sym (insert_desc_perm x r))).
      constructor; [lia|exact Hy].
    + apply Nat.ltb_ge in E. constructor.
      * now constructor.
      * constructor; [exact E|].
        eapply List.Forall_impl; [|exact Hy]. simpl. intros z Hz. lia.
Qed.

Lemma sorted_desc_descending (l : list A) : descending key (sorted_desc key l).
Proof.
  induction l as [|x l IH]; simpl.
  - constructor.
  - now apply insert_desc_descending.
Qed.

Lemma insert_desc_keeps_ties (x : A) (l : list A) :
  keeps_ties key (insert_desc key x l) (x :: l).
Proof.
  intros k. induction l as [|y r IH]; simpl.
  - reflexivity.
  - destruct (key x <? key y)%nat eqn:E; [|reflexivity].
    apply Nat.ltb_lt in E. simpl. rewrite IH. simpl.
    destruct (key x =? k)%nat eqn:Ex, (key y =? k)%nat eqn:Ey;
      try reflexivity.
    apply Nat.eqb_eq in Ex, Ey. lia.
Qed.

Lemma sorted_desc_keeps_ties (l : list A) :
  keeps_ties key (sorted_desc key l) l.
Proof.
  intros k. induction l as [|x l IH]; simpl.
  - reflexivity.
  - rewrite insert_desc_keeps_ties. simpl. now rewrite IH.
Qed.

(** The head of the ranking is the first element of the list with the
    greatest key. *)
Lemma sorted_desc_head (l : list A) (top : A) (others : list A) :
  sorted_desc key l = top :: others →
  ∃ earlier later,
    l = earlier ++ top :: later
    ∧ Forall (fun x => key x < key top)%nat earlier
    ∧ Forall (fun x => key x <= key top)%nat later.
Proof.
  revert top others. induction l as [|x l IH]; intros top others; simpl.
  - discriminate.
  - destruct (sorted_desc key l) as [|t o] eqn:Es; simpl.
    + intros H; inversion H; subst.
      assert (l = []) as ->.
      { apply Permutation_nil. rewrite <- Es. exact (sorted_desc_perm l). }
      exists [], []. repeat split; constructor.
    + destruct (IH t o eq_refl) as (earlier & later & -> & He & Hl).
      destruct (key x <? key t)%nat eqn:E; intros H; inversion H; subst.
      * apply Nat.ltb_lt in E. exists (x :: earlier), later.
        repeat split; [constructor; assumption | assumption].
      * apply Nat.ltb_ge in E. exists [], (earlier ++ t :: later).
        repeat split; [constructor|].
        apply Forall_app. split.
        -- eapply List.Forall_impl; [|exact He]. simpl. intros z Hz. lia.
        -- constructor; [exact E|].
           eapply List.Forall_impl; [|exact Hl]. simpl. intros z Hz. lia.
Qed.

End SortFacts.

(** Splitting a filtered image back into the list it came from. *)
Lemma filter_map_split {A B} (f : A → B) (p : B → bool) (l : list A)
    (l1 l2 : list B) (t : B) :
  List.filter p (map f l) = l1 ++ t :: l2 →
  ∃ e x r,
    l = e ++ x :: r ∧ f x = t ∧ p t = true
    ∧ List.filter p (map f e) = l1 ∧ List.filter p (map f r) = l2.
Proof.
  revert l1. induction l as [|a l IH]; intros l1; simpl.
  - destruct l1; discriminate.
  - destruct (p (f a)) eqn:Ep.
    + destruct l1 as [|b l1]; simpl; intros H; inversion H; subst.
      * exists [], a, l. repeat split. exact Ep.
      * destruct (IH l1 H2) as (e & x & r & -> & Hx & Hp & He & Hr).
        exists (a :: e), x, r. simpl. rewrite Ep, He.
        repeat split; assumption.
    + intros H. destruct (IH l1 H) as (e & x & r & -> & Hx & Hp & He & Hr).
      exists (a :: e), x, r. simpl. rewrite Ep. repeat split; assumption.
Qed.

(** ** Categories *)

Section Categories.
Import feature_extractor.

Lemma filtered_image_forall {A B} (f : A → B) (p : B → bool) (P : B → Prop)
    (l : list A) :
  Forall P (List.filter p (map f l)) →
  (∀ a, p (f a) = false → P (f a)) →
  ∀ a, In a l → P (f a).
Proof.
  intros HF Hout a Ha. destruct (p (f a)) eqn:Ep; [|now apply Hout].
  rewrite List.Forall_forall in HF. apply HF.
  apply filter_In. split; [now apply in_map|exact Ep].
Qed.

(** C9. [categorize] returns ('general', []) when no keyword of any taxonomy
    category occurs in the lower-cased text.  Otherwise the primary category
    is the taxonomy entry with the greatest number of matching keywords, the
    earliest such entry in taxonomy order, and the secondary categories are
    the names of the next entries, at most three, of the ranking of the
    matching categories by descending count in which equal counts keep
    their taxonomy order.  On "Automate your workflow with this script" the
    primary category is 'automation'. *)
Theorem categorize_ranks_categories (text : string) :
  let scores := category_scores (PyStr.lower text) in
  scores
  = List.filter (fun cs => (0 <? snd cs)%nat)
      (map (fun ck : string * list string =>
              (fst ck, keyword_hits text (snd ck))) CATEGORIES)
  ∧ ((∀ category keywords,
        In (category, keywords) CATEGORIES →
        keyword_hits text keywords = 0%nat) →
     categorize text = ("general", []))
  ∧ ((∃ category keywords,
        In (category, keywords) CATEGORIES
        ∧ (0 < keyword_hits text keywords)%nat) →
     ∃ primary keywords earlier later others,
       categorize text = (primary, map fst (firstn 3 others))
       ∧ (length (snd (categorize text)) <= 3)%nat
       ∧ CATEGORIES = earlier ++ (primary, keywords) :: later
       ∧ (0 < keyword_hits text keywords)%nat
       ∧ (∀ c k, In (c, k) earlier →
                 (keyword_hits text k < keyword_hits text keywords)%nat)
       ∧ (∀ c k, In (c, k) later →
                 (keyword_hits text k <= keyword_hits text keywords)%nat)
       ∧ Permutation ((primary, keyword_hits text keywords) :: others) scores
       ∧ descending snd ((primary, keyword_hits text keywords) :: others)
       ∧ keeps_ties snd ((primary, keyword_hits text keywords) :: others)
           scores)
  ∧ fst (categorize "Automate your workflow with this script") = "automation".
Proof.
  intros scores.
  assert (scores
          = List.filter (fun cs => (0 <? snd cs)%nat)
              (map (fun ck : string * list string =>
                      (fst ck, keyword_hits text (snd ck))) CATEGORIES))
    as Hscores by reflexivity.
  split; [exact Hscores|]. split; [|split]; [| |vm_compute; reflexivity].
  - intros Hnone. unfold categorize. fold scores.
    assert (scores = []) as ->; [|reflexivity].
    rewrite Hscores. clear Hscores scores.
    induction CATEGORIES as [|[c k] l IH]; [reflexivity|]. simpl.
    rewrite (Hnone c k) by now left. simpl.
    apply IH. intros c' k' H. apply (Hnone c' k'). now right.
  - intros (c & k & Hin & Hpos). unfold categorize. fold scores.
    assert (In (c, keyword_hits text k) scores) as Hc.
    { rewrite Hscores. apply filter_In. split.
      - now apply (in_map (fun ck : string * list string =>
                             (fst ck, keyword_hits text (snd ck))) _ (c, k)).
      - simpl. now apply Nat.ltb_lt. }
    pose proof (sorted_desc_perm snd scores) as Hperm.
    pose proof (sorted_desc_descending snd scores) as Hdesc.
    pose proof (sorted_desc_keeps_ties snd scores) as Hties.
    destruct (sorted_desc snd scores) as [|top others] eqn:Es.
    { apply Permutation_nil in Hperm. rewrite Hperm in Hc. destruct Hc. }
    destruct (sorted_desc_head snd scores top others Es)
      as (e & l & Hsplit & He & Hl).
    rewrite Hscores in Hsplit.
    destruct (filter_map_split _ _ _ _ _ _ Hsplit)
      as (E & [primary keywords] & L & HE & Htop & Hp & HfE & HfL).
    simpl in Htop. subst top. simpl in Hp. apply Nat.ltb_lt in Hp.
    subst e l.
    assert (scores ≠ []) as Hne by (intros Hn; rewrite Hn in Hc; destruct Hc).
    destruct scores as [|s0 srest] eqn:Escores; [congruence|].
    rewrite <- Escores in *. clear Hne.
    exists primary, keywords, E, L, others. simpl fst.
    split; [reflexivity|]. split.
    { simpl. rewrite length_map, length_firstn. lia. }
    split; [exact HE|]. split; [exact Hp|]. split; [|split].
    + intros c' k' Hin'.
      apply (filtered_image_forall
               (fun ck : string * list string =>
                  (fst ck, keyword_hits text (snd ck)))
               (fun cs => (0 <? snd cs)%nat)
               (fun x => (snd x < keyword_hits text keywords)%nat)
               E He) with (a := (c', k')); [|exact Hin'].
      intros a Ha. simpl in *. apply Nat.ltb_ge in Ha. lia.
    + intros c' k' Hin'.
      apply (filtered_image_forall
               (fun ck : string * list string =>
                  (fst ck, keyword_hits text (snd ck)))
               (fun cs => (0 <? snd cs)%nat)
               (fun x => (snd x <= keyword_hits text keywords)%nat)
               L Hl) with (a := (c', k')); [|exact Hin'].
      intros a Ha. simpl in *. apply Nat.ltb_ge in Ha. lia.
    + repeat split; assumption.
Qed.

Lemma categorize_ranks_categories_witness :
  categorize "Hello world" = ("general", [])
  ∧ ∃ (primary : string) (others : list (string * nat)),
      categorize "BeautifulSoup scraper for extracting data"
      = (primary, map fst (firstn 3 others))
      ∧ primary = "web_scraping".
Proof.
  split.
  - apply (proj1 (proj2 (categorize_ranks_categories "Hello world"))).
    intros category keywords Hin. simpl in Hin.
    repeat (destruct Hin as [Hin|Hin];
            [inversion Hin; subst; vm_compute; reflexivity|]).
    destruct Hin.
  - destruct (proj1 (proj2 (proj2 (categorize_ranks_categories
                "BeautifulSoup scraper for extracting data"))))
      as (primary & keywords & earlier & later & others & Hcat & _).
    + exists "data_processing",
        ["pandas"; "numpy"; "data"; "csv"; "excel"; "dataframe"].
      split; [simpl; auto|vm_compute; lia].
    + exists primary, others. split; [exact Hcat|].
      vm_compute in Hcat. now inversion Hcat.
Defined.

End Categories.

(** ** Configuration *)

Section Configuration.
Import quality_scorer ScorerSpec.
Local Open Scope Q_scope.

(** C8, as stated, fails: [__init__] accepts a class whose weights sum to 1.5
    and whose rejection threshold is above its approval threshold, and
    [score_loop] then scores with it. *)
Lemma init_accepts_invalid_configuration :
  ¬ config_valid ScoredSamples.skewed_class
  ∧ init ScoredSamples.skewed_class = ok ScoredSamples.fresh_scorer
  ∧ ∃ qs self',
      score_loop ScoredSamples.skewed_class ScoredSamples.github_features
        ScoredSamples.fresh_scorer = (ok qs, self')
      ∧ overall_score qs == 1.11
      ∧ approval_decision qs = "approved".
Proof.
  split; [|split].
  - intros [Hsum _]. vm_compute in Hsum. discriminate.
  - reflexivity.
  - eexists; eexists; split; [vm_compute; reflexivity|].
    split; reflexivity.
Qed.

(** C8, amended. [__init__] checks nothing: for every class it only sets the
    three counters to zero.  The constants of [HeuristicQualityScorer]
    themselves satisfy both invariants: the six weights sum to 1.0 and the
    rejection threshold 0.35 is below the approval threshold 0.60. *)
Theorem init_checks_nothing_and_constants_are_valid :
  (∀ cls : scorer_class,
     init cls
     = ok {| approved_count := 0; rejected_count := 0; review_count := 0 |})
  ∧ config_valid HeuristicQualityScorer.
Proof.
  split.
  - reflexivity.
  - split; [reflexivity|]. simpl. lra.
Qed.

End Configuration.

(** ** Identifiers and the interpreter's hash *)

Section Identifiers.
Import feature_extractor PyStrFacts.

(** The hash function reaches a feature record through its identifier
    only. *)
Lemma extract_features_hash_only_in_loop_id
    (ast_parse : string → result ast) (hash1 hash2 : string → Z)
    (discovery : Discovery.t) (f1 : ExtractedFeatures) :
  extract_features ast_parse hash1 discovery = ok f1 →
  ∃ type url,
    Discovery.source_type discovery = Some type
    ∧ Discovery.source_url discovery = Some url
    ∧ loop_id f1 = type +:+ "_" +:+ PyStr.of_int (hash1 url mod 1000000)
    ∧ extract_features ast_parse hash2 discovery
      = ok {| loop_id := type +:+ "_" +:+ PyStr.of_int (hash2 url mod 1000000);
              source_url := source_url f1;
              source_type := source_type f1;
              has_code := has_code f1;
              code_language := code_language f1;
              code_complexity := code_complexity f1;
              code_lines := code_lines f1;
              title_length := title_length f1;
              description_length := description_length f1;
              has_tutorial := has_tutorial f1;
              has_documentation := has_documentation f1;
              popularity_score := popularity_score f1;
              author_reputation := author_reputation f1;
              recency_score := recency_score f1;
              primary_category := primary_category f1;
              secondary_categories := secondary_categories f1;
              keywords := keywords f1;
              automation_type := automation_type f1;
              complexity_level := complexity_level f1;
              estimated_value := estimated_value f1 |}.
Proof.
  unfold extract_features. intros H.
  destruct (Discovery.source_type discovery) as [type|]; [|discriminate].
  destruct (Discovery.source_url discovery) as [url|]; [|discriminate].
  simpl in H |- *.
  destruct (Discovery.metadata discovery) as [metadata|]; [|discriminate].
  simpl in H |- *.
  apply rbind_ok in H as (complexity & Hc & H). rewrite Hc. simpl.
  destruct (categorize _) as [primary secondary].
  apply rbind_ok in H as (pop & Hp & H). rewrite Hp. simpl.
  apply rbind_ok in H as (timestamp & Ht & H). rewrite Ht. simpl.
  inversion H; subst; clear H. simpl.
  exists type, url. repeat split.
Qed.

(** C2. The identifier of a feature record depends on the key of the
    interpreter's string hash, which changes from one process to the next:
    the same discovery record gets the identifier github_502531 in a process
    started with PYTHONHASHSEED=1 and github_478402 in one started with
    PYTHONHASHSEED=2, so the two feature collections differ. *)
Theorem loop_id_changes_with_hash_seed :
  ∃ f1 f2,
    extract_features Samples.reject_all Samples.hash_seed1 Samples.github_repo
    = ok f1
    ∧ extract_features Samples.reject_all Samples.hash_seed2
        Samples.github_repo = ok f2
    ∧ loop_id f1 = "github_502531"
    ∧ loop_id f2 = "github_478402"
    ∧ fst (process_discoveries Samples.reject_all Samples.hash_seed1
             [Samples.github_repo])
      ≠ fst (process_discoveries Samples.reject_all Samples.hash_seed2
               [Samples.github_repo]).
Proof.
  eexists; eexists.
  split; [vm_compute; reflexivity|].
  split; [vm_compute; reflexivity|].
  split; [reflexivity|]. split; [reflexivity|].
  vm_compute. intros H. discriminate H.
Qed.

End Identifiers.

(** ** The filtering stage *)

Module FilterFacts.
Import main PyStrFacts.

Section WithHash.
Variable hash : string → Z.

Lemma index_features_lookup (features : list FeatureDict.t)
    (acc m : gmap string FeatureDict.t) (id : string) :
  index_features features acc = ok m →
  (acc !! id = None →
   (∀ f, In f features → FeatureDict.loop_id f ≠ Some id) → m !! id = None)
  ∧ (∀ f, m !! id = Some f →
          acc !! id = Some f ∨ (In f features ∧ FeatureDict.loop_id f = Some id))
  ∧ (is_Some (acc !! id)
     ∨ (∃ f, In f features ∧ FeatureDict.loop_id f = Some id) →
     is_Some (m !! id)).
Proof.
  revert acc. induction features as [|f features IH]; intros acc; simpl.
  - intros H; inversion H; subst. repeat split.
    + auto.
    + auto.
    + intros [H'|(f & [] & _)]. exact H'.
  - destruct (FeatureDict.loop_id f) as [fid|] eqn:Ef; [|discriminate].
    simpl. intros H. destruct (IH _ H) as (IH1 & IH2 & IH3).
    repeat split.
    + intros Hacc Hno. apply IH1.
      * rewrite lookup_insert_ne; [exact Hacc|].
        intros ->. apply (Hno f); [now left|exact Ef].
      * intros f' Hf'. apply Hno. now right.
    + intros f' Hm. destruct (IH2 f' Hm) as [Hi|[Hin Hid]].
      * destruct (decide (fid = id)) as [->|Hne].
        -- rewrite lookup_insert_eq in Hi. inversion Hi; subst.
           right. split; [now left|exact Ef].
        -- rewrite lookup_insert_ne in Hi by exact Hne. now left.
      * right. split; [now right|exact Hid].
    + intros Hsome. apply IH3.
      destruct (decide (fid = id)) as [->|Hne].
      * left. rewrite lookup_insert_eq. eauto.
      * rewrite lookup_insert_ne by exact Hne.
        destruct Hsome as [Hs|(f' & [->|Hin] & Hid)].
        -- now left.
        -- congruence.
        -- right. eauto.
Qed.

Lemma find_discovery_none (loop_id type part : string) (more : list string)
    (number : Z) (discoveries : list Discovery.t) :
  PyStr.split "_" loop_id = type :: part :: more →
  PyStr.int part = ok number →
  Forall (fun d => ∃ url, Discovery.source_url d = Some url
                         ∧ hash url mod 1000000 ≠ number) discoveries →
  find_discovery hash loop_id discoveries = ok None.
Proof.
  intros Hsplit Hint H. induction H as [|d l (url & Hurl & Hne) _ IH]; simpl.
  - reflexivity.
  - rewrite Hurl, Hsplit. simpl. rewrite Hint. simpl.
    apply Z.eqb_neq in Hne. now rewrite Hne.
Qed.

Lemma filter_loop_app (features_by_id : gmap string FeatureDict.t)
    (discoveries : list Discovery.t)
    (l1 l2 : list (ScoreDict.t quality_scorer.reason)) :
  filter_loop hash features_by_id discoveries (l1 ++ l2)
  = rbind (filter_loop hash features_by_id discoveries l1)
      (fun a => rbind (filter_loop hash features_by_id discoveries l2)
                  (fun b => ok (a ++ b))).
Proof.
  induction l1 as [|s l1 IH]; simpl.
  - destruct (filter_loop hash features_by_id discoveries l2); reflexivity.
  - destruct (subscript (ScoreDict.approval_decision s) "approval_decision")
      as [e|decision]; [reflexivity|]. simpl.
    match goal with
    | |- rbind ?m _ = _ => destruct m as [e|appended]; [reflexivity|]
    end.
    simpl. rewrite IH.
    destruct (filter_loop hash features_by_id discoveries l1) as [e|a];
      [reflexivity|]. simpl.
    destruct (filter_loop hash features_by_id discoveries l2) as [e|b];
      [reflexivity|]. simpl. now rewrite app_assoc.
Qed.

Lemma filter_loop_skips (features_by_id : gmap string FeatureDict.t)
    (discoveries : list Discovery.t)
    (before after : list (ScoreDict.t quality_scorer.reason))
    (score : ScoreDict.t quality_scorer.reason) (id : string) :
  ScoreDict.approval_decision score = Some "approved" →
  ScoreDict.loop_id score = Some id →
  features_by_id !! id = None →
  filter_loop hash features_by_id discoveries (before ++ score :: after)
  = filter_loop hash features_by_id discoveries (before ++ after).
Proof.
  intros Hd Hid Hnone. rewrite !filter_loop_app.
  destruct (filter_loop hash features_by_id discoveries before) as [e|a];
    [reflexivity|]. simpl.
  rewrite Hd, Hid. simpl. rewrite Hnone. simpl.
  destruct (filter_loop hash features_by_id discoveries after); reflexivity.
Qed.

Lemma filter_loop_emits (features_by_id : gmap string FeatureDict.t)
    (discoveries : list Discovery.t)
    (before after : list (ScoreDict.t quality_scorer.reason))
    (score : ScoreDict.t quality_scorer.reason) (id : string)
    (feature : FeatureDict.t) (bundles : list approved_loop) :
  ScoreDict.approval_decision score = Some "approved" →
  ScoreDict.loop_id score = Some id →
  features_by_id !! id = Some feature →
  find_discovery hash id discoveries = ok None →
  filter_loop hash features_by_id discoveries (before ++ score :: after)
  = ok bundles →
  In {| loop_id := id; score := score; features := feature;
        discovery := None |} bundles.
Proof.
  intros Hd Hid Hf Hnone. rewrite filter_loop_app.
  destruct (filter_loop hash features_by_id discoveries before) as [e|a];
    [discriminate|]. simpl.
  rewrite Hd, Hid. simpl. rewrite Hf, Hnone. simpl.
  destruct (filter_loop hash features_by_id discoveries after) as [e|b];
    [discriminate|]. simpl.
  intros H; inversion H; subst.
  apply in_or_app. right. now left.
Qed.

End WithHash.

End FilterFacts.

Section Filtering.
Import main FilterFacts.

(** C10. In [filter_approved_loops], an approved score record whose
    identifier no feature record carries leaves no trace: the log and the
    result are those of the run without that record.  An approved score
    record whose identifier a feature record carries, but whose number no
    discovery record's URL hashes to, is emitted as a bundle whose
    discovery is null.  So there are inputs on which fewer bundles are
    emitted than decisions were approved, and on which an emitted bundle
    has no discovery record. *)
Theorem filter_approved_loops_joins :
  (∀ (hash : string → Z)
     (before after : list (ScoreDict.t quality_scorer.reason))
     (score : ScoreDict.t quality_scorer.reason) (id : string)
     (features : list FeatureDict.t) (discoveries : list Discovery.t),
     ScoreDict.approval_decision score = Some "approved" →
     ScoreDict.loop_id score = Some id →
     (∀ f, In f features → FeatureDict.loop_id f ≠ Some id) →
     filter_approved_loops hash (before ++ score :: after) features discoveries
     = filter_approved_loops hash (before ++ after) features discoveries)
  ∧ (∀ (hash : string → Z)
       (before after : list (ScoreDict.t quality_scorer.reason))
       (score : ScoreDict.t quality_scorer.reason) (id type part : string)
       (more : list string) (number : Z)
       (features : list FeatureDict.t) (discoveries : list Discovery.t)
       (logged : list log_entry) (bundles : list approved_loop) (count : nat),
       ScoreDict.approval_decision score = Some "approved" →
       ScoreDict.loop_id score = Some id →
       (∃ f, In f features ∧ FeatureDict.loop_id f = Some id) →
       PyStr.split "_" id = type :: part :: more →
       PyStr.int part = ok number →
       Forall (fun d => ∃ url, Discovery.source_url d = Some url
                              ∧ hash url mod 1000000 ≠ number) discoveries →
       filter_approved_loops hash (before ++ score :: after) features
         discoveries = (logged, ok (bundles, count)) →
       count = length bundles
       ∧ ∃ feature,
           In feature features
           ∧ In {| loop_id := id; score := score; features := feature;
                   discovery := None |} bundles)
  ∧ (∃ (scores : list (ScoreDict.t quality_scorer.reason))
       (features : list FeatureDict.t) (discoveries : list Discovery.t)
       (logged : list log_entry) (bundle : approved_loop),
       filter_approved_loops Samples.hash_seed1 scores features discoveries
       = (logged, ok ([bundle], 1%nat))
       ∧ approved_decisions scores = 2%nat
       ∧ discovery bundle = None
       ∧ discoveries ≠ []).
Proof.
  split; [|split].
  - intros hash before after score id features discoveries Hd Hid Hno.
    unfold filter_approved_loops.
    destruct (index_features features ∅) as [e|m] eqn:Ei; [reflexivity|].
    simpl.
    destruct (index_features_lookup features ∅ m id Ei) as (Hnone & _ & _).
    rewrite (filter_loop_skips hash m discoveries before after score id Hd Hid);
      [reflexivity|].
    apply Hnone; [apply lookup_empty|exact Hno].
  - intros hash before after score id type part more number features
      discoveries logged bundles count Hd Hid Hsome Hsplit Hint Hall.
    unfold filter_approved_loops.
    destruct (index_features features ∅) as [e|m] eqn:Ei; [discriminate|].
    simpl.
    destruct (index_features_lookup features ∅ m id Ei) as (_ & Hin & Hex).
    destruct Hex as [feature Hf]; [now right|].
    destruct (filter_loop hash m discoveries (before ++ score :: after))
      as [e|found] eqn:Ef; [discriminate|].
    intros H; inversion H; subst. split; [reflexivity|].
    exists feature. split.
    + destruct (Hin feature Hf) as [Hempty|[Hfin _]]; [|exact Hfin].
      rewrite lookup_empty in Hempty. discriminate.
    + apply (filter_loop_emits hash m discoveries before after score id
               feature bundles Hd Hid Hf); [|exact Ef].
      now apply (find_discovery_none hash id type part more number).
  - exists [quality_scorer.to_dict ScoredSamples.github_score;
            quality_scorer.to_dict ScoredSamples.orphan_score],
      [ScoredSamples.github_features], [Samples.reddit_post].
    eexists; eexists. split; [vm_compute; reflexivity|].
    repeat split. discriminate.
Qed.

Lemma filter_approved_loops_joins_witness :
  filter_approved_loops Samples.hash_seed1
    ([quality_scorer.to_dict ScoredSamples.github_score]
     ++ quality_scorer.to_dict ScoredSamples.orphan_score :: [])
    [ScoredSamples.github_features] [Samples.reddit_post]
  = filter_approved_loops Samples.hash_seed1
      ([quality_scorer.to_dict ScoredSamples.github_score] ++ [])
      [ScoredSamples.github_features] [Samples.reddit_post]
  ∧ ∃ feature,
      In feature [ScoredSamples.github_features]
      ∧ In {| loop_id := "github_502531";
              score := quality_scorer.to_dict ScoredSamples.github_score;
              features := feature;
              discovery := None |}
          (match filter_approved_loops Samples.hash_seed1
                   ([] ++ quality_scorer.to_dict ScoredSamples.github_score
                       :: [quality_scorer.to_dict ScoredSamples.orphan_score])
                   [ScoredSamples.github_features] [Samples.reddit_post]
           with
           | (_, inr (bundles, _)) => bundles
           | _ => []
           end).
Proof.
  split.
  - apply (proj1 filter_approved_loops_joins Samples.hash_seed1
             [quality_scorer.to_dict ScoredSamples.github_score] []
             (quality_scorer.to_dict ScoredSamples.orphan_score) "github_999").
    + reflexivity.
    + reflexivity.
    + intros f [<-|[]]. discriminate.
  - destruct (filter_approved_loops Samples.hash_seed1
                ([] ++ quality_scorer.to_dict ScoredSamples.github_score
                    :: [quality_scorer.to_dict ScoredSamples.orphan_score])
                [ScoredSamples.github_features] [Samples.reddit_post])
      as [logged [e|[bundles count]]] eqn:E.
    + vm_compute in E. discriminate E.
    + refine (proj2 (proj1 (proj2 filter_approved_loops_joins)
                Samples.hash_seed1 []
                [quality_scorer.to_dict ScoredSamples.orphan_score]
                (quality_scorer.to_dict ScoredSamples.github_score)
                "github_502531" "github" "502531" [] 502531
                [ScoredSamples.github_features] [Samples.reddit_post]
                logged bundles count _ _ _ _ _ _ E)).
      * reflexivity.
      * reflexivity.
      * exists ScoredSamples.github_features. split; [now left|reflexivity].
      * reflexivity.
      * reflexivity.
      * repeat constructor. eexists. split; [reflexivity|].
        vm_compute. discriminate.
Defined.

End Filtering.

(** * Further properties *)

(** ** Strings: decimal numerals *)

Module NumeralFacts.
Import PyStr PyStrFacts.

Lemma of_chars_chars (s : string) : of_chars (chars s) = s.
Proof. induction s as [|c s IH]; simpl; congruence. Qed.

Lemma chars_app (a b : string) : chars (a +:+ b) = chars a ++ chars b.
Proof.
  induction a as [|c a IH]; [reflexivity|].
  change (c :: chars (a +:+ b) = c :: (chars a ++ chars b)). now rewrite IH.
Qed.

Lemma decimal_not_space (c : ascii) : is_decimal c = true → is_space c = false.
Proof.
  unfold is_decimal, is_space, in_range. rewrite !andb_true_iff, !N.leb_le.
  intros [H1 H2].
  repeat (apply orb_false_intro);
    rewrite ?andb_false_iff, ?N.leb_gt, ?N.eqb_neq; lia.
Qed.

Lemma lstrip_id (c : ascii) (r : string) :
  is_space c = false → lstrip (String c r) = String c r.
Proof. intros H. simpl. now rewrite H. Qed.

(** [strip] leaves a text alone whose first and last characters are not
    white space. *)
Lemma strip_id (l : list ascii) :
  (∀ c r, l = c :: r → is_space c = false) →
  (∀ c r, rev l = c :: r → is_space c = false) →
  strip (of_chars l) = of_chars l.
Proof.
  intros Hfirst Hlast. unfold strip, rstrip.
  assert (lstrip (of_chars l) = of_chars l) as ->.
  { destruct l as [|c r]; [reflexivity|]. apply lstrip_id. eauto. }
  rewrite chars_of_chars.
  assert (lstrip (of_chars (rev l)) = of_chars (rev l)) as ->.
  { destruct (rev l) as [|c r] eqn:E; [reflexivity|]. apply lstrip_id. eauto. }
  now rewrite chars_of_chars, rev_involutive.
Qed.

Lemma int_digits_all (l : list ascii) :
  Forall (fun c => is_decimal c = true) l → int_digits true l = Some l.
Proof.
  induction 1 as [|c l Hc _ IH]; simpl; [reflexivity|].
  now rewrite Hc, IH.
Qed.

Lemma decimal_not_sign (c : ascii) :
  is_decimal c = true →
  Ascii.eqb c "-" = false ∧ Ascii.eqb c "+" = false ∧ Ascii.eqb c "_" = false.
Proof.
  intros H. repeat split; apply Ascii.eqb_neq; intros ->; discriminate.
Qed.

(** [int] of a non-empty run of decimal digits is its value. *)
Lemma int_of_decimals (l : list ascii) :
  l ≠ [] → Forall (fun c => is_decimal c = true) l →
  int (of_chars l) = ok (decimal_value l).
Proof.
  intros Hne Hall. unfold int. rewrite strip_id.
  - rewrite chars_of_chars. destruct l as [|c r]; [congruence|].
    inversion Hall as [|? ? Hc Hr]; subst.
    destruct (decimal_not_sign c Hc) as (-> & -> & _).
    simpl int_digits. rewrite Hc, (int_digits_all r Hr). simpl option_map.
    cbv iota. f_equal. apply Z.mul_1_l.
  - intros c r ->. inversion Hall; subst. now apply decimal_not_space.
  - intros c r E. apply decimal_not_space.
    rewrite List.Forall_forall in Hall. apply Hall.
    apply in_rev. rewrite E. now left.
Qed.

Lemma decimal_value_snoc (l : list ascii) (c : ascii) :
  decimal_value (l ++ [c]) = 10 * decimal_value l + digit_value c.
Proof. unfold decimal_value. now rewrite fold_left_app. Qed.

Lemma digit_char_decimal (d : Z) :
  0 <= d < 10 →
  is_decimal (digit_char d) = true ∧ digit_value (digit_char d) = d.
Proof.
  intros Hd. unfold is_decimal, in_range, digit_value, digit_char, code.
  rewrite N_ascii_embedding by lia.
  rewrite andb_true_iff, !N.leb_le. lia.
Qed.

(** The digits [str] writes: decimal, at least one, with the number as their
    value. *)
Lemma digits_fuel_spec (fuel : nat) (n : Z) (acc : list ascii) :
  (1 <= fuel)%nat → 0 <= n < 2 ^ Z.of_nat fuel →
  ∃ ds, digits_fuel fuel n acc = ds ++ acc
        ∧ ds ≠ []
        ∧ Forall (fun c => is_decimal c = true) ds
        ∧ decimal_value ds = n.
Proof.
  revert n acc. induction fuel as [|f IH]; intros n acc Hf Hn; [lia|].
  simpl digits_fuel.
  assert (0 <= n mod 10 < 10) as Hm by (apply Z.mod_pos_bound; lia).
  destruct (digit_char_decimal _ Hm) as [Hdec Hval].
  destruct (n / 10 =? 0) eqn:E.
  - apply Z.eqb_eq in E. exists [digit_char (n mod 10)].
    repeat split; [discriminate|now repeat constructor|].
    unfold decimal_value. simpl. rewrite Hval.
    pose proof (Z.div_mod n 10). lia.
  - apply Z.eqb_neq in E.
    assert (0 < n / 10) as Hpos.
    { pose proof (Z.div_pos n 10). lia. }
    assert (n / 10 < 2 ^ Z.of_nat f) as Hlt.
    { rewrite Nat2Z.inj_succ, Z.pow_succ_r in Hn by lia.
      apply Z.div_lt_upper_bound; lia. }
    assert (1 <= f)%nat as Hf'.
    { destruct f; [|lia]. simpl in Hlt. lia. }
    destruct (IH (n / 10) (digit_char (n mod 10) :: acc) Hf' ltac:(lia))
      as (ds & -> & Hne & Hall & Hv).
    exists (ds ++ [digit_char (n mod 10)]).
    rewrite <- app_assoc. repeat split.
    + destruct ds; discriminate.
    + apply Forall_app. split; [exact Hall|now repeat constructor].
    + rewrite decimal_value_snoc, Hv, Hval.
      pose proof (Z.div_mod n 10). lia.
Qed.

Lemma of_int_nonneg (n : Z) :
  0 <= n →
  ∃ ds, of_int n = of_chars ds ∧ ds ≠ []
        ∧ Forall (fun c => is_decimal c = true) ds ∧ decimal_value ds = n.
Proof.
  intros Hn. unfold of_int.
  assert ((n <? 0) = false) as -> by (apply Z.ltb_ge; lia).
  rewrite Z.abs_eq by lia.
  destruct (digits_fuel_spec (S (Z.to_nat (Z.log2 n))) n []) as (ds & E & H).
  - lia.
  - split; [lia|]. rewrite Nat2Z.inj_succ, Z2Nat.id by apply Z.log2_nonneg.
    destruct (Z.eq_dec n 0) as [->|Hz]; [reflexivity|].
    apply Z.log2_spec. lia.
  - exists ds. rewrite E, app_nil_r. auto.
Qed.

(** What [str] writes for a natural number, [int] reads back. *)
Lemma int_of_int (n : Z) : 0 <= n → int (of_int n) = ok n.
Proof.
  intros Hn. destruct (of_int_nonneg n Hn) as (ds & -> & Hne & Hall & <-).
  now apply int_of_decimals.
Qed.

(** Splitting at a separator that occurs in neither part. *)
Lemma split_aux_no_sep (sep : ascii) (cur : list ascii) (s : string) :
  ¬ In sep (chars s) → split_aux sep cur s = [of_chars (rev cur ++ chars s)].
Proof.
  revert cur. induction s as [|c s IH]; intros cur Hno; simpl.
  - now rewrite app_nil_r.
  - destruct (Ascii.eqb c sep) eqn:E.
    + apply Ascii.eqb_eq in E. exfalso. apply Hno. now left.
    + rewrite IH by (intros H; apply Hno; now right).
      simpl. now rewrite <- app_assoc.
Qed.

Lemma split_two (sep : ascii) (a b : string) :
  ¬ In sep (chars a) → ¬ In sep (chars b) →
  split sep (a +:+ String sep b) = [a; b].
Proof.
  intros Ha Hb. unfold split.
  assert (∀ cur, split_aux sep cur (a +:+ String sep b)
                 = of_chars (rev cur ++ chars a) :: split_aux sep [] b) as H.
  { induction a as [|c a IH]; intros cur; simpl.
    - rewrite Ascii.eqb_refl. now rewrite app_nil_r.
    - destruct (Ascii.eqb c sep) eqn:E.
      + apply Ascii.eqb_eq in E. exfalso. apply Ha. now left.
      + rewrite IH by (intros H; apply Ha; now right).
        simpl. now rewrite <- app_assoc. }
  rewrite H, split_aux_no_sep by exact Hb. simpl.
  now rewrite !of_chars_chars.
Qed.

Lemma contains_char (c : ascii) (s : string) :
  contains (String c "") s = false → ¬ In c (chars s).
Proof.
  induction s as [|a s IH]; simpl; [tauto|].
  destruct (ascii_dec c a) as [->|Hne].
  - destruct s; discriminate.
  - intros H [Heq|Hin]; [congruence|]. now apply IH.
Qed.

End NumeralFacts.

(** ** Identifiers: from extraction to the join of the filtering stage *)

Section Joining.
Import feature_extractor NumeralFacts.

Lemma loop_id_numeral (ast_parse : string → result ast)
    (hash : string → Z) (discovery : Discovery.t) (f : ExtractedFeatures)
    (type url : string) :
  extract_features ast_parse hash discovery = ok f →
  Discovery.source_type discovery = Some type →
  Discovery.source_url discovery = Some url →
  PyStr.contains "_" type = false →
  ∃ numeral,
    PyStr.split "_" (loop_id f) = [type; numeral]
    ∧ PyStr.int numeral = ok (hash url mod 1000000).
Proof.
  intros Hf Ht Hu Hno.
  destruct (extract_features_hash_only_in_loop_id ast_parse hash hash
              discovery f Hf) as (type' & url' & Ht' & Hu' & Hid & _).
  rewrite Ht in Ht'. rewrite Hu in Hu'. inversion Ht'; inversion Hu'; subst.
  assert (0 <= hash url' mod 1000000) as Hpos
    by (apply Z.mod_pos_bound; lia).
  exists (PyStr.of_int (hash url' mod 1000000)). rewrite Hid. split.
  - apply (split_two "_" type' (PyStr.of_int (hash url' mod 1000000))).
    + now apply contains_char.
    + destruct (of_int_nonneg _ Hpos) as (ds & -> & _ & Hall & _).
      rewrite PyStrFacts.chars_of_chars. intros Hin.
      rewrite List.Forall_forall in Hall. specialize (Hall _ Hin).
      discriminate.
  - now apply int_of_int.
Qed.

(** X1. The identifier [extract_features] writes is read back by the
    filtering stage: for a source type without underscore, splitting the
    identifier at '_' gives the source type and a numeral, and [int] of the
    numeral is the URL's hash modulo 1000000. *)
Theorem loop_id_parses_back (ast_parse : string → result ast)
    (hash : string → Z) (discovery : Discovery.t) (f : ExtractedFeatures)
    (type url : string) :
  extract_features ast_parse hash discovery = ok f →
  Discovery.source_type discovery = Some type →
  Discovery.source_url discovery = Some url →
  PyStr.contains "_" type = false →
  ∃ numeral,
    PyStr.split "_" (loop_id f) = [type; numeral]
    ∧ PyStr.int numeral = ok (hash url mod 1000000).
Proof. apply loop_id_numeral. Qed.

Lemma loop_id_parses_back_witness :
  ∃ numeral,
    PyStr.split "_" "github_502531" = ["github"; numeral]
    ∧ PyStr.int numeral = ok 502531.
Proof.
  destruct (extract_features Samples.reject_all Samples.hash_seed1
              Samples.github_repo) as [e|f] eqn:E;
    [vm_compute in E; discriminate E|].
  destruct (loop_id_parses_back Samples.reject_all Samples.hash_seed1
              Samples.github_repo f "github" "https://github.com/a/b" E
              eq_refl eq_refl eq_refl) as (numeral & Hs & Hi).
  vm_compute in E. inversion E; subst; clear E.
  exists numeral. split; [exact Hs|exact Hi].
Defined.

Lemma find_discovery_first (hash : string → Z) (loop_id type numeral : string)
    (more : list string) (number : Z)
    (before after : list Discovery.t) (d : Discovery.t) (url : string) :
  PyStr.split "_" loop_id = type :: numeral :: more →
  PyStr.int numeral = ok number →
  Forall (fun x => ∃ u, Discovery.source_url x = Some u
                        ∧ hash u mod 1000000 ≠ number) before →
  Discovery.source_url d = Some url →
  hash url mod 1000000 = number →
  main.find_discovery hash loop_id (before ++ d :: after) = ok (Some d).
Proof.
  intros Hs Hi Hb Hu Hh.
  induction Hb as [|x l (u & Hxu & Hne) _ IH]; simpl.
  - rewrite Hu, Hs. simpl. rewrite Hi. simpl.
    apply Z.eqb_eq in Hh. now rewrite Hh.
  - rewrite Hxu, Hs. simpl. rewrite Hi. simpl.
    apply Z.eqb_neq in Hne. now rewrite Hne.
Qed.

(** Cutting a list at its first element with a decidable property. *)
Lemma first_with {A} (p : A → bool) (l : list A) (x : A) :
  In x l → p x = true →
  ∃ before y after,
    l = before ++ y :: after ∧ p y = true ∧ Forall (fun z => p z = false) before.
Proof.
  induction l as [|a l IH]; intros Hin Hp; [destruct Hin|].
  destruct (p a) eqn:Ea.
  - exists [], a, l. repeat split; [exact Ea|constructor].
  - destruct Hin as [->|Hin]; [congruence|].
    destruct (IH Hin Hp) as (b & y & r & -> & Hy & Hb).
    exists (a :: b), y, r. repeat split; [exact Hy|now constructor].
Qed.

(** The join on the identifier of a feature record whose discovery is in
    the list. *)
Lemma join_finds_first
    (ast_parse : string → result ast) (hash : string → Z)
    (discovery : Discovery.t) (f : ExtractedFeatures) (type url : string)
    (discoveries : list Discovery.t) :
  extract_features ast_parse hash discovery = ok f →
  Discovery.source_type discovery = Some type →
  Discovery.source_url discovery = Some url →
  PyStr.contains "_" type = false →
  In discovery discoveries →
  Forall (fun x => ∃ u, Discovery.source_url x = Some u) discoveries →
  ∃ before found after found_url,
    discoveries = before ++ found :: after
    ∧ main.find_discovery hash (loop_id f) discoveries = ok (Some found)
    ∧ Discovery.source_url found = Some found_url
    ∧ hash found_url mod 1000000 = hash url mod 1000000
    ∧ Forall (fun x => ∃ u, Discovery.source_url x = Some u
                          ∧ hash u mod 1000000 ≠ hash url mod 1000000)
        before.
Proof.
  intros Hf Ht Hu Hno Hin Hall.
  destruct (loop_id_numeral ast_parse hash discovery f type url
              Hf Ht Hu Hno) as (numeral & Hs & Hi).
  set (same := fun x : Discovery.t =>
         match Discovery.source_url x with
         | Some u => hash u mod 1000000 =? hash url mod 1000000
         | None => false
         end).
  destruct (first_with same discoveries discovery Hin) as
    (before & found & after & Hsplit & Hfound & Hbefore).
  { unfold same. rewrite Hu. apply Z.eqb_refl. }
  unfold same in Hfound.
  destruct (Discovery.source_url found) as [found_url|] eqn:Hfu;
    [|discriminate].
  apply Z.eqb_eq in Hfound.
  assert (Forall (fun x => ∃ u, Discovery.source_url x = Some u
                            ∧ hash u mod 1000000 ≠ hash url mod 1000000)
            before) as Hb.
  { rewrite Hsplit in Hall. apply Forall_app in Hall as [Hall _].
    rewrite List.Forall_forall in Hall, Hbefore |- *.
    intros x Hx. destruct (Hall x Hx) as [u Hxu]. exists u. split; [exact Hxu|].
    specialize (Hbefore x Hx). unfold same in Hbefore. rewrite Hxu in Hbefore.
    now apply Z.eqb_neq. }
  exists before, found, after, found_url. rewrite Hsplit at 2.
  repeat split; try assumption.
  now apply (find_discovery_first hash (loop_id f) type numeral []
               (hash url mod 1000000) before after found found_url).
Qed.

(** X2. Within one process, the join of the filtering stage never comes back
    empty for a feature record whose discovery record is in the list, when
    every record of the list has a URL and the source type has no
    underscore: it returns the first record of the list whose URL has the
    same hash modulo 1000000, whether or not that is the record the feature
    came from. *)
Theorem join_returns_first_record_with_same_hash
    (ast_parse : string → result ast) (hash : string → Z)
    (discovery : Discovery.t) (f : ExtractedFeatures) (type url : string)
    (discoveries : list Discovery.t) :
  extract_features ast_parse hash discovery = ok f →
  Discovery.source_type discovery = Some type →
  Discovery.source_url discovery = Some url →
  PyStr.contains "_" type = false →
  In discovery discoveries →
  Forall (fun x => ∃ u, Discovery.source_url x = Some u) discoveries →
  ∃ before found after found_url,
    discoveries = before ++ found :: after
    ∧ main.find_discovery hash (loop_id f) discoveries = ok (Some found)
    ∧ Discovery.source_url found = Some found_url
    ∧ hash found_url mod 1000000 = hash url mod 1000000
    ∧ Forall (fun x => ∃ u, Discovery.source_url x = Some u
                          ∧ hash u mod 1000000 ≠ hash url mod 1000000)
        before.
Proof. apply join_finds_first. Qed.

Lemma join_returns_first_record_with_same_hash_witness :
  ∃ f found,
    extract_features Samples.reject_all Samples.hash_seed1
      MoreSamples.repo_r1250 = ok f
    ∧ main.find_discovery Samples.hash_seed1 (loop_id f)
        [MoreSamples.repo_r16; MoreSamples.repo_r1250] = ok (Some found)
    ∧ Discovery.source_url found = Some "https://github.com/u/r16".
Proof.
  destruct (extract_features Samples.reject_all Samples.hash_seed1
              MoreSamples.repo_r1250) as [e|f] eqn:E;
    [vm_compute in E; discriminate E|].
  destruct (join_returns_first_record_with_same_hash
              Samples.reject_all Samples.hash_seed1 MoreSamples.repo_r1250 f
              "github" "https://github.com/u/r1250"
              [MoreSamples.repo_r16; MoreSamples.repo_r1250] E
              eq_refl eq_refl eq_refl)
    as (before & found & after & found_url & Hsplit & Hfind & Hurl & Hh & Hb).
  - right. now left.
  - repeat constructor; eexists; reflexivity.
  - exists f, found. split; [reflexivity|]. split; [exact Hfind|].
    destruct before as [|x before].
    + inversion Hsplit; subst. reflexivity.
    + inversion Hsplit; subst. inversion Hb as [|? ? (u & Hu & Hne) _]; subst.
      inversion Hu; subst. exfalso. apply Hne. vm_compute. reflexivity.
Defined.

End Joining.

(** ** Lines *)

Section Lines.
Import feature_extractor PyStr PyStrFacts NumeralFacts.

Lemma split_aux_app (sep : ascii) (cur : list ascii) (a b : string) :
  split_aux sep cur (a +:+ String sep b)
  = split_aux sep cur a ++ split_aux sep [] b.
Proof.
  revert cur. induction a as [|c a IH]; intros cur.
  - simpl. now rewrite Ascii.eqb_refl.
  - change (String c a +:+ String sep b) with (String c (a +:+ String sep b)).
    simpl. destruct (Ascii.eqb c sep); rewrite IH; reflexivity.
Qed.

Lemma split_aux_chars (sep : ascii) (cur : list ascii) (s piece : string)
    (c : ascii) :
  In piece (split_aux sep cur s) → In c (chars piece) →
  In c cur ∨ In c (chars s).
Proof.
  revert cur. induction s as [|a s IH]; intros cur; simpl.
  - intros [<-|[]]. rewrite chars_of_chars, <- in_rev. auto.
  - destruct (Ascii.eqb a sep).
    + intros [<-|Hin] Hc.
      * rewrite chars_of_chars, <- in_rev in Hc. auto.
      * destruct (IH [] Hin Hc) as [[]|H]. auto.
    + intros Hin Hc. destruct (IH (a :: cur) Hin Hc) as [[->|H]|H]; auto.
Qed.

Lemma lstrip_blank (s : string) :
  (∀ c, In c (chars s) → is_space c = true) → lstrip s = "".
Proof.
  induction s as [|a s IH]; intros H; simpl; [reflexivity|].
  rewrite (H a) by now left. apply IH. intros c Hc. apply H. now right.
Qed.

Lemma strip_blank (s : string) :
  (∀ c, In c (chars s) → is_space c = true) → strip s = "".
Proof.
  intros H. unfold strip, rstrip. now rewrite (lstrip_blank s H).
Qed.

(** X3. [count_lines] adds up over lines: the count of two texts joined by a
    newline is the sum of their counts, and a text of white space only
    counts zero lines. *)
Theorem count_lines_adds_up :
  (∀ a b : string,
     count_lines (a +:+ String newline b) = (count_lines a + count_lines b)%nat)
  ∧ (∀ s : string,
       (∀ c, In c (chars s) → is_space c = true) → count_lines s = 0%nat).
Proof.
  split.
  - intros a b. unfold count_lines, non_empty_lines, split.
    now rewrite split_aux_app, List.filter_app, length_app.
  - intros s Hs. unfold count_lines, non_empty_lines, split.
    assert (∀ l, (∀ piece, In piece l → strip piece = "") →
                 List.filter (fun l => truthy (strip l)) l = []) as Hnone.
    { induction l as [|x l IH]; intros Hl; simpl; [reflexivity|].
      rewrite (Hl x) by now left. simpl. apply IH.
      intros piece Hp. apply Hl. now right. }
    rewrite Hnone; [reflexivity|].
    intros piece Hp. apply strip_blank. intros c Hc.
    destruct (split_aux_chars newline [] s piece c Hp Hc) as [[]|H].
    now apply Hs.
Qed.

Lemma count_lines_adds_up_witness :
  count_lines (String " " (String newline "  ")) = 0%nat.
Proof.
  apply (proj2 count_lines_adds_up).
  intros c [<-|[<-|[<-|[<-|[]]]]]; reflexivity.
Defined.

End Lines.

(** ** Keywords *)

Lemma In_firstn {A} (n : nat) (l : list A) (x : A) :
  In x (firstn n l) → In x l.
Proof.
  revert n. induction l as [|a l IH]; intros [|n]; simpl; try tauto.
  intros [H|H]; [now left|right; eauto].
Qed.

Section Keywords.
Import feature_extractor PyStr PyStrFacts.

Lemma keep_word_shaped (run : list ascii) (w : string) :
  In w (keep_word run) → keyword_shaped w.
Proof.
  unfold keep_word, keyword_shaped.
  destruct (3 <=? length run)%nat eqn:El; simpl; [|tauto].
  destruct (forallb is_lower_az run) eqn:Ea; simpl; [|tauto].
  intros [<-|[]]. rewrite chars_of_chars, length_rev. split.
  - now apply Nat.leb_le.
  - rewrite forallb_forall in Ea. intros c Hc. apply Ea. now apply in_rev.
Qed.

Lemma findall_words_shaped (cur : list ascii) (s w : string) :
  In w (findall_words cur s) → keyword_shaped w.
Proof.
  revert cur. induction s as [|c s IH]; intros cur; simpl.
  - apply keep_word_shaped.
  - destruct (is_word_char c); [apply IH|].
    intros H. apply in_app_or in H as [H|H];
      [now apply (keep_word_shaped cur)|eauto].
Qed.

(** The count recorded for a word. *)
Lemma count_in_add (w k : string) (counts : list (string * nat)) :
  count_in (counter_add w counts) k
  = if String.eqb w k then S (count_in counts k) else count_in counts k.
Proof.
  unfold count_in. induction counts as [|[w' n] r IH]; simpl.
  - rewrite (String.eqb_sym k w). now destruct (String.eqb w k).
  - destruct (String.eqb w w') eqn:E; simpl.
    + apply String.eqb_eq in E. subst w'. rewrite (String.eqb_sym k w).
      now destruct (String.eqb w k).
    + destruct (String.eqb k w') eqn:Ek; simpl.
      * apply String.eqb_eq in Ek. subst w'. now rewrite E.
      * exact IH.
Qed.

Lemma counter_add_keys (w : string) (counts : list (string * nat)) :
  List.NoDup (map fst counts) →
  List.NoDup (map fst (counter_add w counts))
  ∧ (∀ k, In k (map fst (counter_add w counts))
          ↔ k = w ∨ In k (map fst counts)).
Proof.
  induction counts as [|[w' n] r IH]; simpl; intros Hnd.
  - split.
    + apply List.NoDup_cons; [simpl; tauto|apply List.NoDup_nil].
    + intros k. split; intros [H|[]]; left; congruence.
  - inversion Hnd as [|? ? Hnot Hr]; subst.
    destruct (String.eqb w w') eqn:E.
    + apply String.eqb_eq in E. subst. split; [exact Hnd|].
      intros k. simpl. split; [|intros [->|H]]; auto.
    + apply String.eqb_neq in E. destruct (IH Hr) as [IH1 IH2]. split.
      * simpl. apply List.NoDup_cons; [|exact IH1].
        rewrite IH2. intros [H|H]; congruence.
      * intros k. simpl. rewrite IH2. tauto.
Qed.

Lemma Counter_spec (words : list string) :
  List.NoDup (map fst (Counter words))
  ∧ (∀ k, In k (map fst (Counter words)) ↔ In k words)
  ∧ (∀ k, count_in (Counter words) k = occurrences words k).
Proof.
  unfold Counter.
  assert (∀ acc,
            List.NoDup (map fst acc) →
            List.NoDup (map fst (fold_left (fun c w => counter_add w c) words acc))
            ∧ (∀ k, In k (map fst (fold_left (fun c w => counter_add w c)
                                      words acc))
                    ↔ In k (map fst acc) ∨ In k words)
            ∧ (∀ k, count_in (fold_left (fun c w => counter_add w c) words acc) k
                    = (count_in acc k + occurrences words k)%nat)) as H.
  { unfold occurrences. induction words as [|w words IH]; intros acc Hacc; simpl.
    - repeat split; auto; try tauto.
    - destruct (counter_add_keys w acc Hacc) as [Hnd Hkeys].
      destruct (IH _ Hnd) as (IH1 & IH2 & IH3). split; [exact IH1|]. split.
      + intros k. rewrite IH2, Hkeys. intuition.
      + intros k. rewrite IH3, count_in_add.
        destruct (string_dec w k) as [->|Hne].
        * rewrite String.eqb_refl. lia.
        * apply String.eqb_neq in Hne. rewrite Hne. lia. }
  destruct (H [] (List.NoDup_nil _)) as (H1 & H2 & H3).
  split; [exact H1|]. split.
  - intros k. rewrite H2. simpl. tauto.
  - intros k. now rewrite H3.
Qed.

Lemma count_in_entry (counts : list (string * nat)) (k : string) (n : nat) :
  List.NoDup (map fst counts) → In (k, n) counts → count_in counts k = n.
Proof.
  unfold count_in. induction counts as [|[w m] r IH]; simpl; intros Hnd;
    [tauto|].
  inversion Hnd as [|? ? Hnot Hr]; subst. intros [H|H].
  - inversion H; subst. now rewrite String.eqb_refl.
  - destruct (String.eqb k w) eqn:E; [|now apply IH].
    apply String.eqb_eq in E. subst w. exfalso. apply Hnot.
    now apply (in_map fst _ (k, n)).
Qed.

Lemma descending_firstn {A} (key : A → nat) (n : nat) (l : list A) :
  descending key l → descending key (firstn n l).
Proof.
  unfold descending. intros H. revert n.
  induction H as [|x l Hl IH Hx]; intros [|n]; simpl; try constructor.
  - apply IH.
  - rewrite List.Forall_forall in Hx |- *. intros y Hy. apply Hx.
    eapply In_firstn; eauto.
Qed.

Lemma descending_map {A B} (f : A → B) (key : A → nat) (key' : B → nat)
    (l : list A) :
  (∀ x, In x l → key' (f x) = key x) →
  descending key l → descending key' (map f l).
Proof.
  unfold descending. intros Hk H.
  induction H as [|x l Hl IH Hx]; simpl; constructor.
  - apply IH. intros y Hy. apply Hk. now right.
  - rewrite List.Forall_forall in Hx. apply List.Forall_forall.
    intros y Hy. apply in_map_iff in Hy as (z & <- & Hz).
    rewrite (Hk x) by now left. rewrite (Hk z) by now right. now apply Hx.
Qed.

(** X4. [extract_keywords] returns at most [max_keywords] words, without
    repetition; each has at least three characters, all in a-z, and is not a
    stop word; and they stand in descending order of their number of
    occurrences among the words of the text. *)
Theorem extract_keywords_invariants (text : string) (max_keywords : nat) :
  let words :=
    List.filter (fun w => negb (str_in w stop_words))
      (findall_words [] (lower text)) in
  let keywords := extract_keywords_upto text max_keywords in
  (length keywords <= max_keywords)%nat
  ∧ List.NoDup keywords
  ∧ (∀ k, In k keywords →
          keyword_shaped k ∧ ¬ In k stop_words ∧ In k words)
  ∧ descending (occurrences words) keywords.
Proof.
  intros words keywords.
  destruct (Counter_spec words) as (Hnd & Hkeys & Hcount).
  unfold keywords, extract_keywords_upto, most_common. fold words.
  pose proof (sorted_desc_perm snd (Counter words)) as Hperm.
  pose proof (sorted_desc_descending snd (Counter words)) as Hdesc.
  set (ranked := sorted_desc snd (Counter words)) in *.
  assert (List.NoDup (map fst ranked)) as Hndr.
  { eapply Permutation.Permutation_NoDup; [|exact Hnd].
    apply Permutation_map. now symmetry. }
  assert (∀ e, In e ranked → In e (Counter words)) as Hin
    by (intros e He; eapply Permutation_in; eauto).
  split; [|split; [|split]].
  - rewrite length_map, length_firstn. lia.
  - rewrite <- (firstn_skipn max_keywords ranked), map_app in Hndr.
    now apply List.NoDup_app_remove_r in Hndr.
  - intros k Hk. apply in_map_iff in Hk as ([k' c] & <- & He). simpl.
    apply (In_firstn max_keywords) in He. apply Hin in He.
    assert (In k' words) as Hw.
    { apply Hkeys. now apply (in_map fst _ (k', c)). }
    split; [|split; [|exact Hw]].
    + apply filter_In in Hw as [Hw _]. eapply findall_words_shaped; eauto.
    + apply filter_In in Hw as [_ Hw]. apply negb_true_iff in Hw.
      intros Hs. unfold str_in in Hw.
      assert (existsb (String.eqb k') stop_words = true) as Ht.
      { apply existsb_exists. exists k'. split; [exact Hs|].
        apply String.eqb_refl. }
      congruence.
  - apply (descending_map fst snd); [|now apply descending_firstn].
    intros [k c] He. simpl. apply (In_firstn max_keywords) in He.
    apply Hin in He. rewrite <- Hcount. now apply count_in_entry.
Qed.

Lemma extract_keywords_length (text : string) :
  (length (extract_keywords text) <= 10)%nat.
Proof.
  unfold extract_keywords, extract_keywords_upto, most_common.
  rewrite length_map, length_firstn. lia.
Qed.

Lemma extract_keywords_invariants_witness :
  keyword_shaped "test"
  ∧ ¬ In "test" stop_words
  ∧ In "test"
      (List.filter (fun w => negb (str_in w stop_words))
         (findall_words [] (lower "This is a test, the Test of tests"))).
Proof.
  apply (proj1 (proj2 (proj2 (extract_keywords_invariants
                  "This is a test, the Test of tests" 10)))).
  vm_compute. now left.
Defined.

End Keywords.

(** ** Categories and feature records *)

Section Records.
Import feature_extractor ExtractorSpec PyStrFacts.

Lemma NoDup_map_filter {A B} (f : A → B) (p : A → bool) (l : list A) :
  List.NoDup (map f l) → List.NoDup (map f (List.filter p l)).
Proof.
  induction l as [|a l IH]; simpl; intros H; [constructor|].
  inversion H as [|? ? Hnot Hl]; subst.
  destruct (p a); simpl; [|now apply IH].
  apply List.NoDup_cons; [|now apply IH].
  intros Hin. apply Hnot. apply in_map_iff in Hin as (x & Hx & Hxin).
  apply in_map_iff. exists x. split; [exact Hx|].
  now apply filter_In in Hxin as [Hxin _].
Qed.

Lemma taxonomy_distinct : List.NoDup taxonomy ∧ ¬ In "general" taxonomy.
Proof.
  split.
  - unfold taxonomy. simpl.
    repeat (apply List.NoDup_cons;
            [simpl; intros H;
             repeat (destruct H as [H|H]; [discriminate H|]); exact H|]).
    apply List.NoDup_nil.
  - unfold taxonomy. simpl. intros H.
    repeat (destruct H as [H|H]; [discriminate H|]). exact H.
Qed.

Lemma category_scores_names (text_lower : string) :
  List.NoDup (map fst (category_scores text_lower))
  ∧ ∀ c, In c (map fst (category_scores text_lower)) → In c taxonomy.
Proof.
  unfold category_scores.
  set (scored := map _ CATEGORIES).
  assert (map fst scored = taxonomy) as Hnames.
  { unfold scored, taxonomy. rewrite map_map. reflexivity. }
  split.
  - apply NoDup_map_filter. rewrite Hnames. apply taxonomy_distinct.
  - intros c Hc. rewrite <- Hnames.
    apply in_map_iff in Hc as (x & Hx & Hin).
    apply filter_In in Hin as [Hin _].
    apply in_map_iff. eauto.
Qed.

Lemma categorize_facts (text : string) :
  let primary := fst (categorize text) in
  let secondary := snd (categorize text) in
  (primary = "general" ∧ secondary = [] ∨ In primary taxonomy)
  ∧ (∀ s, In s secondary → In s taxonomy ∧ s ≠ primary)
  ∧ List.NoDup secondary
  ∧ (length secondary <= 3)%nat
  ∧ (primary = "general"
     ↔ ∀ category keywords,
         In (category, keywords) CATEGORIES →
         keyword_hits text keywords = 0%nat).
Proof.
  intros primary secondary. unfold primary, secondary, categorize.
  pose proof (category_scores_names (PyStr.lower text)) as [Hnd Hnames].
  pose proof (sorted_desc_perm snd (category_scores (PyStr.lower text)))
    as Hperm.
  assert (category_scores (PyStr.lower text) = []
          ↔ ∀ category keywords,
              In (category, keywords) CATEGORIES →
              keyword_hits text keywords = 0%nat) as Hempty.
  { unfold category_scores. fold (keyword_hits text).
    change (fun ck : string * list string =>
              (fst ck,
               length (List.filter
                         (fun keyword => PyStr.contains keyword (PyStr.lower text))
                         (snd ck))))
      with (fun ck : string * list string =>
              (fst ck, keyword_hits text (snd ck))).
    induction CATEGORIES as [|[c k] l IH]; simpl.
    - split; [intros _ ? ? []|reflexivity].
    - destruct (keyword_hits text k) as [|n] eqn:Ek; simpl.
      + rewrite IH. split.
        * intros H c' k' [Heq|Hin]; [now inversion Heq; subst|eauto].
        * intros H c' k' Hin. apply (H c' k'). now right.
      + split; [discriminate|]. intros H.
        specialize (H c k (or_introl eq_refl)). congruence. }
  destruct (category_scores (PyStr.lower text)) as [|s0 scores] eqn:Es.
  - simpl. repeat split; auto; try tauto; try apply List.NoDup_nil; try lia;
      try (intros _; now apply Hempty).
  - destruct (sorted_desc snd (s0 :: scores)) as [|top others] eqn:Er.
    { apply Permutation_nil in Hperm. discriminate. }
    simpl fst. simpl snd.
    assert (List.NoDup (map fst (top :: others))) as Hndr.
    { eapply Permutation.Permutation_NoDup; [|exact Hnd].
      apply Permutation_map. now symmetry. }
    assert (∀ c, In c (map fst (top :: others)) → In c taxonomy) as Hin.
    { intros c Hc. apply Hnames.
      eapply Permutation_in; [|exact Hc]. now apply Permutation_map. }
    simpl in Hndr. inversion Hndr as [|? ? Hnot Hndo]; subst.
    assert (∀ s, In s (map fst (firstn 3 others)) → In s (map fst others))
      as Hsub.
    { intros s Hs. apply in_map_iff in Hs as (x & <- & Hx).
      apply in_map. eapply In_firstn; eauto. }
    split; [right; apply Hin; now left|]. split; [|split; [|split]].
    + intros s Hs. apply Hsub in Hs. split.
      * apply Hin. now right.
      * intros ->. contradiction.
    + rewrite <- (firstn_skipn 3 others), map_app in Hndo.
      now apply List.NoDup_app_remove_r in Hndo.
    + rewrite length_map, length_firstn. lia.
    + split.
      * intros Hg. exfalso. apply (proj2 taxonomy_distinct).
        rewrite <- Hg. apply Hin. now left.
      * intros H. apply Hempty in H. discriminate.
Qed.

(** X5. [categorize] returns ('general', []) or a primary category of the
    taxonomy; the secondary categories are at most three names of the
    taxonomy, pairwise different and different from the primary one; and
    the primary category is 'general' exactly when no keyword of the
    taxonomy occurs in the lower-cased text. *)
Theorem categorize_invariants (text : string) :
  let primary := fst (categorize text) in
  let secondary := snd (categorize text) in
  (primary = "general" ∧ secondary = [] ∨ In primary taxonomy)
  ∧ (∀ s, In s secondary → In s taxonomy ∧ s ≠ primary)
  ∧ List.NoDup secondary
  ∧ (length secondary <= 3)%nat
  ∧ (primary = "general"
     ↔ ∀ category keywords,
         In (category, keywords) CATEGORIES →
         keyword_hits text keywords = 0%nat).
Proof. apply categorize_facts. Qed.

Lemma categorize_invariants_witness :
  In "data_processing" taxonomy
  ∧ "data_processing"
    ≠ fst (categorize "BeautifulSoup scraper for extracting data").
Proof.
  apply (proj1 (proj2 (categorize_invariants
                         "BeautifulSoup scraper for extracting data"))).
  vm_compute. now left.
Defined.

End Records.

Section FeatureRecords.
Import feature_extractor ExtractorSpec PyStrFacts.
Local Open Scope Q_scope.

Lemma detect_language_tags (code : string) :
  In (detect_language code) ["python"; "javascript"; "java"; "c++"; "unknown"].
Proof.
  unfold detect_language.
  repeat match goal with
         | |- context [if ?b then _ else _] => destruct b
         end; simpl; auto 10.
Qed.

Lemma detect_language_truthy (code : string) :
  PyStr.truthy (detect_language code) = true.
Proof.
  pose proof (detect_language_tags code) as H. simpl in H.
  repeat (destruct H as [<-|H]; [reflexivity|]). destruct H.
Qed.

Lemma subscript_ok {A} (field : option A) (key : string) (v : A) :
  subscript field key = ok v → field = Some v.
Proof. destruct field; intros H; inversion H; reflexivity. Qed.

(** What [extract_features] puts in each field. *)
Lemma extract_features_fields (ast_parse : string → result ast)
    (hash : string → Z) (discovery : Discovery.t) (f : ExtractedFeatures) :
  extract_features ast_parse hash discovery = ok f →
  ∃ type url metadata timestamp,
    Discovery.source_type discovery = Some type
    ∧ Discovery.source_url discovery = Some url
    ∧ Discovery.metadata discovery = Some metadata
    ∧ Discovery.discovery_timestamp discovery = Some timestamp
    ∧ let description := default "" (Discovery.raw_content discovery) in
      let text := full_text_of metadata discovery in
      source_url f = url
      ∧ source_type f = type
      ∧ has_code f = looks_like_code description
      ∧ code_language f
        = (if looks_like_code description
           then Some (detect_language description) else None)
      ∧ (if looks_like_code description
         then calculate_complexity ast_parse description
                (detect_language description) = ok (code_complexity f)
         else code_complexity f = 0)
      ∧ code_lines f
        = (if looks_like_code description then count_lines description
           else 0%nat)
      ∧ title_length f = PyStr.len (default "" (metadata !! "title"))
      ∧ description_length f = PyStr.len description
      ∧ has_tutorial f = has_tutorial_indicators text
      ∧ has_documentation f = has_documentation_indicators text
      ∧ keywords f = extract_keywords text
      ∧ primary_category f = fst (categorize text)
      ∧ secondary_categories f = snd (categorize text)
      ∧ complexity_level f = detect_complexity_level text
      ∧ calculate_popularity_score metadata type = ok (popularity_score f)
      ∧ author_reputation f = calculate_author_reputation metadata type
      ∧ recency_score f = 1
      ∧ automation_type f
        = (if str_in (fst (categorize text)) taxonomy
           then fst (categorize text) else "general")
      ∧ estimated_value f
        = estimate_value
            {| vf_popularity_score := Some (popularity_score f);
               vf_code_complexity := Some (code_complexity f);
               vf_author_reputation := Some (author_reputation f);
               vf_has_code := Some (has_code f) |}.
Proof.
  unfold extract_features. intros H.
  apply rbind_ok in H as (type & Ht & H). apply subscript_ok in Ht.
  apply rbind_ok in H as (url & Hu & H). apply subscript_ok in Hu.
  apply rbind_ok in H as (url' & Hu' & H). apply subscript_ok in Hu'.
  apply rbind_ok in H as (type' & Ht' & H). apply subscript_ok in Ht'.
  apply rbind_ok in H as (metadata & Hm & H). apply subscript_ok in Hm.
  apply rbind_ok in H as (complexity & Hc & H).
  unfold full_text_of, looks_like_code.
  destruct (categorize _) as [primary secondary] eqn:Ecat.
  apply rbind_ok in H as (pop & Hp & H).
  apply rbind_ok in H as (timestamp & Hts & H). apply subscript_ok in Hts.
  inversion H; subst; clear H.
  rewrite Hu in Hu'. rewrite Ht in Ht'. inversion Hu'; inversion Ht'; subst.
  exists type', url', metadata, timestamp. cbv zeta.
  cbn [source_url source_type has_code code_language code_complexity
       code_lines title_length description_length has_tutorial
       has_documentation keywords primary_category secondary_categories
       complexity_level popularity_score author_reputation recency_score
       automation_type estimated_value].
  rewrite Ecat.
  repeat split; try reflexivity; try assumption.
  match type of Hc with
  | (if ?b then _ else _) = _ => destruct b
  end.
  - cbv beta iota in Hc. now rewrite detect_language_truthy in Hc.
  - now inversion Hc.
Qed.

(** X6. Every feature record [extract_features] returns echoes the source URL
    and type, has [automation_type] equal to [primary_category] (a taxonomy
    name or 'general'), at most three secondary categories and ten keywords,
    a recency score of 1 and an author reputation of 0.3 or 0.6; without
    code its language is absent and its complexity and line count are zero;
    with code its raw content is longer than 100 characters and its
    language is one of the five tags. *)
Theorem extracted_record_invariants (ast_parse : string → result ast)
    (hash : string → Z) (discovery : Discovery.t) (f : ExtractedFeatures) :
  extract_features ast_parse hash discovery = ok f →
  Discovery.source_url discovery = Some (source_url f)
  ∧ Discovery.source_type discovery = Some (source_type f)
  ∧ automation_type f = primary_category f
  ∧ (primary_category f = "general" ∨ In (primary_category f) taxonomy)
  ∧ (length (secondary_categories f) <= 3)%nat
  ∧ (length (keywords f) <= 10)%nat
  ∧ recency_score f = 1
  ∧ (author_reputation f = 0.3 ∨ author_reputation f = 0.6)
  ∧ In (complexity_level f) ["beginner"; "intermediate"; "advanced"]
  ∧ (has_code f = false →
     code_language f = None ∧ code_complexity f = 0 ∧ code_lines f = 0%nat)
  ∧ (has_code f = true →
     (100 < description_length f)%nat
     ∧ ∃ language,
         code_language f = Some language
         ∧ In language ["python"; "javascript"; "java"; "c++"; "unknown"]).
Proof.
  intros H.
  apply extract_features_fields in H
    as (type & url & metadata & timestamp & Ht & Hu & _ & _ & H).
  cbv zeta in H.
  destruct H as (Hurl & Htype & Hhc & Hlang & Hcc & Hlines & _ & Hdl & _ & _
                 & Hkw & Hprim & Hsec & Hlevel & _ & Hauth & Hrec & Hauto & _).
  set (text := full_text_of metadata discovery) in *.
  destruct (categorize_facts text) as (Hp & _ & _ & Hlen & _).
  cbv zeta in Hp, Hlen.
  split; [now rewrite Hurl|]. split; [now rewrite Htype|].
  assert (primary_category f = "general" ∨ In (primary_category f) taxonomy)
    as Hprimary by (rewrite Hprim; tauto).
  split.
  { rewrite Hauto, Hprim. destruct Hp as [[Hg _]|Hin].
    - rewrite Hg. reflexivity.
    - assert (str_in (fst (categorize text)) taxonomy = true) as ->;
        [|reflexivity].
      apply existsb_exists. exists (fst (categorize text)).
      split; [exact Hin|apply String.eqb_refl]. }
  split; [exact Hprimary|]. split; [now rewrite Hsec|]. split.
  { rewrite Hkw. apply extract_keywords_length. }
  split; [exact Hrec|]. split.
  { rewrite Hauth. unfold calculate_author_reputation. cbv zeta.
    match goal with |- context [if ?b then _ else _] => destruct b end;
      [left|right]; reflexivity. }
  split.
  { rewrite Hlevel. unfold detect_complexity_level.
    destruct (List.find _ COMPLEXITY_KEYWORDS) as [[level kws]|] eqn:Ef.
    - apply find_some in Ef as [Hin _]. simpl in Hin.
      repeat (destruct Hin as [Hin|Hin];
              [inversion Hin; subst; simpl; auto|]).
      destruct Hin.
    - simpl. auto. }
  split.
  - intros Hfalse. rewrite Hhc in Hfalse. rewrite Hfalse in *. auto.
  - intros Htrue. rewrite Hhc in Htrue. rewrite Htrue in *. split.
    + rewrite Hdl. unfold looks_like_code in Htrue.
      apply andb_true_iff in Htrue as [Hl _]. now apply Nat.ltb_lt in Hl.
    + eexists. split; [exact Hlang|apply detect_language_tags].
Qed.

Lemma extracted_record_invariants_witness :
  ∃ f, extract_features Samples.reject_all Samples.hash_seed1
         Samples.reddit_post = ok f
       ∧ automation_type f = primary_category f.
Proof.
  eexists; split; [vm_compute; reflexivity|].
  refine (proj1 (proj2 (proj2 (extracted_record_invariants
            Samples.reject_all Samples.hash_seed1 Samples.reddit_post _ _)))).
  vm_compute; reflexivity.
Defined.

(** X7. In every feature record [extract_features] returns, the cap of the
    estimated value at 1.0 never acts: the value is the plain blend
    0.3*popularity + 0.2*complexity + 0.2*reputation + 0.3*(1.0 with code,
    0.3 without), and lies between 0.15 and 0.92. *)
Theorem estimated_value_is_uncapped (ast_parse : string → result ast)
    (hash : string → Z) (discovery : Discovery.t) (f : ExtractedFeatures) :
  extract_features ast_parse hash discovery = ok f →
  estimated_value f
  == popularity_score f * 0.3 + code_complexity f * 0.2
     + author_reputation f * 0.2 + (if has_code f then 1 else 0.3) * 0.3
  ∧ 0.15 <= estimated_value f ∧ estimated_value f <= 0.92.
Proof.
  intros H.
  pose proof (ExtractorFacts.extract_features_range _ _ _ _ H)
    as ([? ?] & _ & _ & [? ?] & _).
  apply extract_features_fields in H
    as (type & url & metadata & timestamp & _ & _ & _ & _ & H).
  cbv zeta in H.
  destruct H as (_ & _ & _ & _ & _ & _ & _ & _ & _ & _ & _ & _ & _ & _ & _
                 & Hauth & _ & _ & Hev).
  assert (author_reputation f = 0.3 ∨ author_reputation f = 0.6) as Ha.
  { rewrite Hauth. unfold calculate_author_reputation. cbv zeta.
    match goal with |- context [if ?b then _ else _] => destruct b end;
      [left|right]; reflexivity. }
  rewrite Hev. unfold estimate_value. simpl.
  match goal with |- context [fmin ?v 1] =>
    destruct (fmin_cases v 1) as [[Hle ->]|[Hlt ->]]
  end.
  - split; [reflexivity|].
    destruct Ha as [-> | ->]; destruct (has_code f); split; lra.
  - exfalso. destruct Ha as [Ha|Ha]; rewrite Ha in Hlt;
      destruct (has_code f); lra.
Qed.

Lemma estimated_value_is_uncapped_witness :
  ∃ f, extract_features Samples.reject_all Samples.hash_seed1
         Samples.github_repo = ok f
       ∧ 0.15 <= estimated_value f ∧ estimated_value f <= 0.92.
Proof.
  eexists; split; [vm_compute; reflexivity|].
  refine (proj2 (estimated_value_is_uncapped
            Samples.reject_all Samples.hash_seed1 Samples.github_repo _ _)).
  vm_compute; reflexivity.
Defined.

End FeatureRecords.

(** ** Popularity: when it returns and when it raises *)

Section Popularity.
Import feature_extractor PyStr PyStrFacts NumeralFacts.
Local Open Scope Q_scope.








End Popularity.

(** ** Extraction: keys and batches *)

Section ExtractionEdges.
Import feature_extractor PyStrFacts.

(** X10. [extract_features] raises [KeyError] for the first key missing among
    source_type, source_url and metadata, in this order, whatever else the
    record holds; a missing raw_content behaves as an empty one and
    content_type is never read; the value of discovery_timestamp never
    reaches the result, and its absence raises [KeyError] only when nothing
    before it raised. *)
Theorem extract_features_keys (ast_parse : string → result ast)
    (hash : string → Z)
    (url timestamp type content raw : option string)
    (metadata : option (gmap string string)) :
  let extract u ts t c r m :=
    extract_features ast_parse hash (Discovery.Build u ts t c r m) in
  extract url timestamp None content raw metadata
  = raise (KeyError "source_type")
  ∧ (∀ t, extract None timestamp (Some t) content raw metadata
          = raise (KeyError "source_url"))
  ∧ (∀ t u, extract (Some u) timestamp (Some t) content raw None
            = raise (KeyError "metadata"))
  ∧ (∀ c, extract url timestamp type c (Some (default "" raw)) metadata
          = extract url timestamp type content raw metadata)
  ∧ (∀ ts ts', extract url (Some ts) type content raw metadata
               = extract url (Some ts') type content raw metadata)
  ∧ (∀ ts,
       match extract url (Some ts) type content raw metadata with
       | inr _ =>
           extract url None type content raw metadata
           = raise (KeyError "discovery_timestamp")
       | inl e => extract url None type content raw metadata = raise e
       end).
Proof.
  intros extract. unfold extract, extract_features. simpl Discovery.source_type.
  simpl Discovery.source_url. simpl Discovery.metadata.
  simpl Discovery.raw_content. simpl Discovery.discovery_timestamp.
  split; [reflexivity|]. split; [reflexivity|]. split; [reflexivity|].
  split; [|split].
  - intros c. destruct raw; reflexivity.
  - intros ts ts'. reflexivity.
  - intros ts.
    destruct type as [t|]; [|reflexivity].
    destruct url as [u|]; [|reflexivity].
    destruct metadata as [m|]; [|reflexivity].
    cbn [subscript rbind ok raise].
    match goal with
    | |- context [rbind ?c _] => destruct c as [e|complexity]
    end; [reflexivity|].
    cbn [rbind].
    destruct (categorize _) as [primary secondary].
    match goal with
    | |- context [rbind ?c _] => destruct c as [e|pop]
    end; reflexivity.
Qed.

Lemma process_loop_accounts (ast_parse : string → result ast)
    (hash : string → Z) (total i : nat) (ds : list Discovery.t) :
  fst (process_loop ast_parse hash total i ds)
  = flat_map (fun d => match extract_features ast_parse hash d with
                       | inr f => [to_dict f]
                       | inl _ => []
                       end) ds
  ∧ errors (snd (process_loop ast_parse hash total i ds))
    = flat_map (fun id : nat * Discovery.t =>
                  match extract_features ast_parse hash (snd id) with
                  | inr _ => []
                  | inl e => [Error "Error processing discovery" (fst id) e]
                  end) (combine (seq i (length ds)) ds).
Proof.
  revert i. induction ds as [|d ds IH]; intros i; simpl; [auto|].
  destruct (IH (S i)) as [IH1 IH2].
  destruct (process_loop ast_parse hash total (S i) ds) as [out logged].
  simpl in IH1, IH2.
  destruct (extract_features ast_parse hash d) as [e|f]; simpl.
  - split; [exact IH1|]. now rewrite IH2.
  - split; [now rewrite IH1|].
    rewrite BatchFacts.errors_app, BatchFacts.errors_progress; auto.
Qed.

(** X11. [process_discoveries] accounts for every record of any batch: it
    returns the dictionaries of exactly the records on which
    [extract_features] succeeds, in input order; it logs one error per
    other record, with that record's index and exception; so the records
    returned and the errors logged add up to the size of the batch, which
    the last log line reports. *)
Theorem process_discoveries_accounts_for_every_record
    (ast_parse : string → result ast) (hash : string → Z)
    (batch : list Discovery.t) :
  let returned := fst (process_discoveries ast_parse hash batch) in
  let logged := snd (process_discoveries ast_parse hash batch) in
  returned
  = flat_map (fun d => match extract_features ast_parse hash d with
                       | inr f => [to_dict f]
                       | inl _ => []
                       end) batch
  ∧ errors logged
    = flat_map (fun id : nat * Discovery.t =>
                  match extract_features ast_parse hash (snd id) with
                  | inr _ => []
                  | inl e => [Error "Error processing discovery" (fst id) e]
                  end) (combine (seq 0 (length batch)) batch)
  ∧ (length returned + length (errors logged) = length batch)%nat
  ∧ List.last logged (Info "" [])
    = Info "Feature extraction complete" [length returned; length batch].
Proof.
  intros returned logged. unfold returned, logged, process_discoveries.
  destruct (process_loop_accounts ast_parse hash (length batch) 0 batch)
    as [H1 H2].
  destruct (process_loop ast_parse hash (length batch) 0 batch) as [out lg].
  simpl in H1, H2. cbn [fst snd].
  assert (errors
            ([Info "Loading discoveries" []; Info "Processing" [length batch]]
             ++ lg ++ [Info "Saving extracted features" [];
                       Info "Feature extraction complete"
                         [length out; length batch]]) = errors lg) as He.
  { rewrite !BatchFacts.errors_app. simpl. now rewrite app_nil_r. }
  rewrite He. split; [exact H1|]. split; [exact H2|]. split.
  - rewrite H1, H2. clear. generalize 0%nat as i.
    induction batch as [|d ds IH]; intros i; simpl; [reflexivity|].
    rewrite !length_app. specialize (IH (S i)).
    destruct (extract_features ast_parse hash d); simpl; lia.
  - change [Info "Saving extracted features" [];
            Info "Feature extraction complete" [length out; length batch]]
      with ([Info "Saving extracted features" []]
            ++ [Info "Feature extraction complete" [length out; length batch]]).
    rewrite !app_assoc. apply List.last_last.
Qed.

End ExtractionEdges.

(** ** The score as a formula and the counters *)

Module FormulaFacts.
Import quality_scorer ScorerSpec ScoreFormula.

Ltac finish_cases :=
  repeat match goal with
         | |- context [if ?c then _ else _] =>
             lazymatch c with
             | String.eqb _ "approved" => fail
             | String.eqb _ "rejected" => fail
             | _ => destruct c
             end
         end; reflexivity.

(** [score_loop] is the formula, with one counter moved. *)
Lemma score_loop_factors (cls : scorer_class) (features : FeatureDict.t)
    (self : scorer) :
  score_loop cls features self
  = (pure_score cls features, count_result (pure_score cls features) self).
Proof.
  unfold score_loop, pure_score, count_result, count_decision, decision_of,
    confidence_of, weighted_sum, content_quality_score, length_tier,
    categorization_score, code_quality_score, popularity_notes, length_notes,
    category_notes.
  cbv [mbind lift mret update rbind subscript ok raise fst snd].
  destruct (FeatureDict.loop_id features); [|reflexivity].
  destruct (FeatureDict.popularity_score features); [|reflexivity].
  destruct (FeatureDict.has_code features) as [[|]|]; [| |reflexivity].
  - destruct (FeatureDict.code_complexity features); [|reflexivity].
    destruct (FeatureDict.code_lines features); [|reflexivity].
    destruct (FeatureDict.description_length features); [|reflexivity].
    destruct (FeatureDict.has_tutorial features) as [[|]|];
      [| |finish_cases];
      (destruct (FeatureDict.has_documentation features) as [[|]|];
       [| |finish_cases]);
      (destruct (FeatureDict.primary_category features); [|finish_cases]);
      (destruct (FeatureDict.recency_score features); [|finish_cases]);
      (destruct (FeatureDict.author_reputation features); [|finish_cases]);
      finish_cases.
  - destruct (FeatureDict.description_length features); [|reflexivity].
    destruct (FeatureDict.has_tutorial features) as [[|]|];
      [| |finish_cases];
      (destruct (FeatureDict.has_documentation features) as [[|]|];
       [| |finish_cases]);
      (destruct (FeatureDict.primary_category features); [|finish_cases]);
      (destruct (FeatureDict.recency_score features); [|finish_cases]);
      (destruct (FeatureDict.author_reputation features); [|finish_cases]);
      finish_cases.
Qed.

(** The fields behind a score the formula returns. *)
Lemma pure_score_inv (cls : scorer_class) (features : FeatureDict.t)
    (qs : QualityScore) :
  pure_score cls features = ok qs →
  ∃ id p hc cc cl dl tut doc pc rec auth,
    FeatureDict.loop_id features = Some id
    ∧ FeatureDict.popularity_score features = Some p
    ∧ FeatureDict.has_code features = Some hc
    ∧ (hc = true →
       FeatureDict.code_complexity features = Some cc
       ∧ FeatureDict.code_lines features = Some cl)
    ∧ FeatureDict.description_length features = Some dl
    ∧ FeatureDict.has_tutorial features = Some tut
    ∧ FeatureDict.has_documentation features = Some doc
    ∧ FeatureDict.primary_category features = Some pc
    ∧ FeatureDict.recency_score features = Some rec
    ∧ FeatureDict.author_reputation features = Some auth
    ∧ let overall :=
        weighted_sum (WEIGHTS cls) p (code_quality_score hc cc cl)
          (content_quality_score dl tut doc) (categorization_score pc)
          rec auth in
      qs = {| loop_id := id;
              overall_score := overall;
              approval_decision := decision_of cls overall;
              confidence := confidence_of cls overall;
              reasoning :=
                popularity_notes p
                ++ [if hc then Contains_code cc else No_code_detected]
                ++ length_notes dl
                ++ (if tut then [Has_tutorial_content] else [])
                ++ (if doc then [Has_documentation] else [])
                ++ category_notes pc
                ++ [Overall_score overall (decision_of cls overall)] |}.
Proof.
  unfold pure_score. intros H.
  apply PyStrFacts.rbind_ok in H as (id & Hid & H). apply subscript_ok in Hid.
  apply PyStrFacts.rbind_ok in H as (p & Hp & H). apply subscript_ok in Hp.
  apply PyStrFacts.rbind_ok in H as (hc & Hhc & H). apply subscript_ok in Hhc.
  apply PyStrFacts.rbind_ok in H as ([cq note] & Hcode & H).
  apply PyStrFacts.rbind_ok in H as (dl & Hdl & H). apply subscript_ok in Hdl.
  apply PyStrFacts.rbind_ok in H as (tut & Ht & H). apply subscript_ok in Ht.
  apply PyStrFacts.rbind_ok in H as (doc & Hd & H). apply subscript_ok in Hd.
  apply PyStrFacts.rbind_ok in H as (pc & Hpc & H). apply subscript_ok in Hpc.
  apply PyStrFacts.rbind_ok in H as (rec & Hr & H). apply subscript_ok in Hr.
  apply PyStrFacts.rbind_ok in H as (auth & Ha & H). apply subscript_ok in Ha.
  inversion H; subst; clear H. cbn [fst snd].
  destruct hc.
  - apply PyStrFacts.rbind_ok in Hcode as (cc & Hcc & Hcode).
    apply subscript_ok in Hcc.
    apply PyStrFacts.rbind_ok in Hcode as (cl & Hcl & Hcode).
    apply subscript_ok in Hcl. inversion Hcode; subst.
    exists id, p, true, cc, cl, dl, tut, doc, pc, rec, auth.
    repeat split; auto.
  - inversion Hcode; subst.
    exists id, p, false, 0%Q, 0%nat, dl, tut, doc, pc, rec, auth.
    repeat split; auto; discriminate.
Qed.

End FormulaFacts.

(** ** Consequences of the formula *)

Module FormulaCases.
Import quality_scorer ScorerSpec ScoreFormula FormulaFacts.
Local Open Scope Q_scope.

Lemma decision_of_cases (cls : scorer_class) (o : Q) :
  (ge o (APPROVAL_THRESHOLD cls) = true ∧ decision_of cls o = "approved")
  ∨ (ge o (APPROVAL_THRESHOLD cls) = false
     ∧ lt o (REJECTION_THRESHOLD cls) = true
     ∧ decision_of cls o = "rejected")
  ∨ (ge o (APPROVAL_THRESHOLD cls) = false
     ∧ lt o (REJECTION_THRESHOLD cls) = false
     ∧ decision_of cls o = "needs_review").
Proof.
  unfold decision_of.
  destruct (ge o (APPROVAL_THRESHOLD cls)); [now left|].
  destruct (lt o (REJECTION_THRESHOLD cls)); [right; left | right; right];
    repeat split.
Qed.

Lemma pure_score_decision (cls : scorer_class) (features : FeatureDict.t)
    (qs : QualityScore) :
  pure_score cls features = ok qs →
  approval_decision qs = decision_of cls (overall_score qs).
Proof.
  intros H. apply pure_score_inv in H.
  destruct H as (id & p & hc & cc & cl & dl & tut & doc & pc & rec & auth & H).
  destruct H as (_ & _ & _ & _ & _ & _ & _ & _ & _ & _ & ->). reflexivity.
Qed.

Lemma pure_score_keys (cls : scorer_class) (features : FeatureDict.t) :
  has_scoring_keys features ↔ ∃ qs, pure_score cls features = ok qs.
Proof.
  split.
  - intros ([id Hid] & [p Hp] & [hc Hhc] & Hcode & [dl Hdl] & [t Ht] & [d Hd]
            & [pc Hpc] & [r Hr] & [a Ha]).
    unfold pure_score. rewrite Hid, Hp, Hhc, Hdl, Ht, Hd, Hpc, Hr, Ha.
    destruct hc.
    + destruct (Hcode Hhc) as [[cc Hcc] [cl Hcl]]. rewrite Hcc, Hcl.
      eexists. reflexivity.
    + eexists. reflexivity.
  - intros [qs H]. apply pure_score_inv in H.
    destruct H as (id & p & hc & cc & cl & dl & tut & doc & pc & rec & auth & H).
    destruct H as (Hid & Hp & Hhc & Hcode & Hdl & Ht & Hd & Hpc & Hr & Ha & _).
    unfold has_scoring_keys.
    rewrite Hid, Hp, Hhc, Hdl, Ht, Hd, Hpc, Hr, Ha.
    split; [eauto|]. split; [eauto|]. split; [eauto|]. split.
    { intros E. injection E as ->. destruct (Hcode eq_refl) as [-> ->].
      split; eauto. }
    repeat split; eauto.
Qed.

Lemma pure_score_raises (cls : scorer_class) (features : FeatureDict.t)
    (e : exn) :
  pure_score cls features = raise e →
  ∃ key, e = KeyError key ∧ In key scoring_keys.
Proof.
  unfold pure_score, scoring_keys.
  cbv [rbind subscript ok raise].
  destruct (FeatureDict.loop_id features);
    [|intros [= <-]; eexists; split; [reflexivity | simpl; tauto]].
  destruct (FeatureDict.popularity_score features);
    [|intros [= <-]; eexists; split; [reflexivity | simpl; tauto]].
  destruct (FeatureDict.has_code features) as [[|]|];
    [| |intros [= <-]; eexists; split; [reflexivity | simpl; tauto]].
  - destruct (FeatureDict.code_complexity features);
      [|intros [= <-]; eexists; split; [reflexivity | simpl; tauto]].
    destruct (FeatureDict.code_lines features);
      [|intros [= <-]; eexists; split; [reflexivity | simpl; tauto]].
    destruct (FeatureDict.description_length features);
      [|intros [= <-]; eexists; split; [reflexivity | simpl; tauto]].
    destruct (FeatureDict.has_tutorial features);
      [|intros [= <-]; eexists; split; [reflexivity | simpl; tauto]].
    destruct (FeatureDict.has_documentation features);
      [|intros [= <-]; eexists; split; [reflexivity | simpl; tauto]].
    destruct (FeatureDict.primary_category features);
      [|intros [= <-]; eexists; split; [reflexivity | simpl; tauto]].
    destruct (FeatureDict.recency_score features);
      [|intros [= <-]; eexists; split; [reflexivity | simpl; tauto]].
    destruct (FeatureDict.author_reputation features);
      [|intros [= <-]; eexists; split; [reflexivity | simpl; tauto]].
    discriminate.
  - destruct (FeatureDict.description_length features);
      [|intros [= <-]; eexists; split; [reflexivity | simpl; tauto]].
    destruct (FeatureDict.has_tutorial features);
      [|intros [= <-]; eexists; split; [reflexivity | simpl; tauto]].
    destruct (FeatureDict.has_documentation features);
      [|intros [= <-]; eexists; split; [reflexivity | simpl; tauto]].
    destruct (FeatureDict.primary_category features);
      [|intros [= <-]; eexists; split; [reflexivity | simpl; tauto]].
    destruct (FeatureDict.recency_score features);
      [|intros [= <-]; eexists; split; [reflexivity | simpl; tauto]].
    destruct (FeatureDict.author_reputation features);
      [|intros [= <-]; eexists; split; [reflexivity | simpl; tauto]].
    discriminate.
Qed.

Lemma decided_as_cons (d : string) (qs : QualityScore)
    (scores : list QualityScore) :
  decided_as d (qs :: scores)
  = ((if String.eqb (approval_decision qs) d then 1 else 0)
     + decided_as d scores)%nat.
Proof.
  unfold decided_as. simpl.
  destruct (String.eqb (approval_decision qs) d); reflexivity.
Qed.

Lemma score_loop_all_accounts (cls : scorer_class) (total i : nat)
    (batch : list FeatureDict.t) (self : scorer) :
  let '(scores, logged, self') := score_loop_all cls total i batch self in
  (length scores + length (errors logged) = length batch)%nat
  ∧ approved_count self'
    = (approved_count self + decided_as "approved" scores)%nat
  ∧ rejected_count self'
    = (rejected_count self + decided_as "rejected" scores)%nat
  ∧ review_count self'
    = (review_count self + decided_as "needs_review" scores)%nat
  ∧ (decided_as "approved" scores + decided_as "rejected" scores
     + decided_as "needs_review" scores = length scores)%nat.
Proof.
  revert i self. induction batch as [|f batch IH]; intros i self.
  - unfold decided_as. simpl. repeat split; lia.
  - simpl. rewrite score_loop_factors.
    destruct (pure_score cls f) as [e|qs] eqn:E; cbn [count_result].
    + specialize (IH (S i) self).
      destruct (score_loop_all cls total (S i) batch self) as [[o g] s].
      destruct IH as (H1 & H2 & H3 & H4 & H5).
      cbn [errors List.filter is_error length]. fold (errors g).
      repeat split; try assumption. lia.
    + pose proof (pure_score_decision cls f qs E) as Hd.
      specialize (IH (S i) (count_decision (approval_decision qs) self)).
      destruct (score_loop_all cls total (S i) batch
                  (count_decision (approval_decision qs) self)) as [[o g] s].
      destruct IH as (H1 & H2 & H3 & H4 & H5).
      rewrite BatchFacts.errors_app, BatchFacts.errors_progress
        by reflexivity.
      rewrite !decided_as_cons. cbn [length app].
      rewrite H2, H3, H4.
      destruct (decision_of_cases cls (overall_score qs))
        as [[_ D]|[(_ & _ & D)|(_ & _ & D)]];
        rewrite D in Hd; rewrite Hd; unfold count_decision; simpl;
        repeat split; lia.
Qed.

Lemma fmin_mono (a b : Q) : a <= b → fmin a 1 <= fmin b 1.
Proof.
  intros H.
  destruct (fmin_cases a 1) as [[? ->]|[? ->]];
    destruct (fmin_cases b 1) as [[? ->]|[? ->]]; lra.
Qed.

Lemma content_quality_score_mono (dl : nat) (t t' d d' : bool) :
  implb t t' = true → implb d d' = true →
  content_quality_score dl t d <= content_quality_score dl t' d'.
Proof.
  intros Ht Hd. unfold content_quality_score. apply fmin_mono.
  destruct t, t', d, d'; try discriminate; lra.
Qed.

Lemma content_quality_score_range (dl : nat) (t d : bool) :
  0.1 <= content_quality_score dl t d ∧ content_quality_score dl t d <= 1.
Proof.
  unfold content_quality_score, length_tier.
  match goal with |- context [fmin ?a 1] =>
    destruct (fmin_cases a 1) as [[H ->]|[H ->]] end;
    revert H; destruct (200 <=? dl)%nat, (dl <? 50)%nat, t, d; lra.
Qed.

Lemma categorization_score_range (pc : string) :
  0.3 <= categorization_score pc ∧ categorization_score pc <= 0.8.
Proof.
  unfold categorization_score.
  destruct (feature_extractor.str_in pc high_value_categories);
    [lra|destruct (String.eqb pc "general"); lra].
Qed.

Lemma code_quality_score_range (hc : bool) (cc : Q) (cl : nat) :
  (hc = true → in_unit cc) →
  0 <= code_quality_score hc cc cl ∧ code_quality_score hc cc cl <= 1.
Proof.
  intros H. unfold code_quality_score. destruct hc; [|lra].
  destruct (H eq_refl) as [? ?].
  apply fmin_unit.
  destruct (fmin_unit (float_of_nat cl / 100)) as [? ?].
  { apply Qle_shift_div_l; [reflexivity|].
    pose proof (float_of_nat_nonneg cl). lra. }
  lra.
Qed.

End FormulaCases.
Section Formula.
Import quality_scorer ScorerSpec ScoreFormula FormulaFacts FormulaCases.
Local Open Scope Q_scope.

(** X12. [score_loop] is a formula of the feature record and the class
    constants, with one counter moved: its result is [pure_score] (the
    weighted sum of the six sub-scores, the decision by the two thresholds,
    the confidence and the reasoning trail), whatever the counters are; when
    it returns, the counter of the decision returned goes up by one and the
    other two stay; when it raises, no counter changes. *)
Theorem score_loop_is_formula_and_one_counter (cls : scorer_class)
    (features : FeatureDict.t) (self : scorer) :
  score_loop cls features self
  = (pure_score cls features, count_result (pure_score cls features) self).
Proof. apply score_loop_factors. Qed.

(** X13. [score_all_loops] accounts for every record of the batch and
    [get_summary] for every score returned: scores returned and error lines
    add up to the batch; each counter grows by the number of returned scores
    with its decision; the total of the summary grows by the number of
    scores returned; and the list written is the list returned. *)
Theorem score_all_loops_accounts_for_every_record (cls : scorer_class)
    (batch : list FeatureDict.t) (self : scorer) :
  let '(returned, written, logged, self') := score_all_loops cls batch self in
  (length returned + length (errors logged) = length batch)%nat
  ∧ written = map to_dict returned
  ∧ approved (get_summary self')
    = (approved (get_summary self) + decided_as "approved" returned)%nat
  ∧ rejected (get_summary self')
    = (rejected (get_summary self) + decided_as "rejected" returned)%nat
  ∧ needs_review (get_summary self')
    = (needs_review (get_summary self)
       + decided_as "needs_review" returned)%nat
  ∧ total (get_summary self')
    = (total (get_summary self) + length returned)%nat.
Proof.
  unfold score_all_loops.
  pose proof (score_loop_all_accounts cls (length batch) 0 batch self) as H.
  destruct (score_loop_all cls (length batch) 0 batch self) as [[o g] s].
  destruct H as (H1 & H2 & H3 & H4 & H5).
  assert (errors
            ([Info "Loading features" []; Info "Scoring" [length batch]]
             ++ g ++ [Info "Saving scores" [];
                      Info "Quality scoring complete" []]) = errors g) as He.
  { rewrite !BatchFacts.errors_app. simpl. now rewrite app_nil_r. }
  rewrite He. cbn [get_summary total approved rejected needs_review].
  repeat split; try assumption. lia.
Qed.

(** X14. A higher popularity score, a tutorial flag or a documentation flag
    never lowers the overall score when the popularity and content weights
    are not negative; an approved record stays approved, and a record
    rejected with the higher signals is rejected with the lower ones. *)
Theorem score_grows_with_popularity_and_content (cls : scorer_class)
    (features : FeatureDict.t) (p p' : Q) (t t' d d' : bool)
    (self self' : scorer) (qs qs' : QualityScore) :
  0 <= popularity (WEIGHTS cls) → 0 <= content_quality (WEIGHTS cls) →
  p <= p' → implb t t' = true → implb d d' = true →
  fst (score_loop cls (with_signals features p t d) self) = ok qs →
  fst (score_loop cls (with_signals features p' t' d') self') = ok qs' →
  overall_score qs <= overall_score qs'
  ∧ (approval_decision qs = "approved" → approval_decision qs' = "approved")
  ∧ (approval_decision qs' = "rejected" → approval_decision qs = "rejected").
Proof.
  intros Hwp Hwc Hp Ht Hd H H'.
  rewrite score_loop_factors in H, H'. cbn [fst] in H, H'.
  apply pure_score_inv in H, H'.
  destruct H as (id & p0 & hc & cc & cl & dl & tut & doc & pc & rec & auth & H).
  destruct H as (_ & Hp0 & Hhc & Hcode & Hdl & Htut & Hdoc & Hpc & Hr & Ha & ->).
  destruct H'
    as (id' & p1 & hc' & cc' & cl' & dl' & tut' & doc' & pc' & rec' & auth'
        & H').
  destruct H'
    as (_ & Hp1 & Hhc' & Hcode' & Hdl' & Htut' & Hdoc' & Hpc' & Hr' & Ha' & ->).
  cbn [with_signals FeatureDict.popularity_score FeatureDict.has_code
         FeatureDict.code_complexity FeatureDict.code_lines
         FeatureDict.description_length FeatureDict.has_tutorial
         FeatureDict.has_documentation FeatureDict.primary_category
         FeatureDict.recency_score FeatureDict.author_reputation] in *.
  injection Hp0 as <-. injection Hp1 as <-.
  injection Htut as <-. injection Htut' as <-.
  injection Hdoc as <-. injection Hdoc' as <-.
  rewrite Hhc in Hhc'. injection Hhc' as <-.
  rewrite Hdl in Hdl'. injection Hdl' as <-.
  rewrite Hpc in Hpc'. injection Hpc' as <-.
  rewrite Hr in Hr'. injection Hr' as <-.
  rewrite Ha in Ha'. injection Ha' as <-.
  assert (code_quality_score hc cc cl = code_quality_score hc cc' cl') as Ecq.
  { destruct hc; [|reflexivity].
    destruct (Hcode eq_refl) as [E1 E2]. destruct (Hcode' eq_refl) as [E3 E4].
    rewrite E1 in E3. rewrite E2 in E4.
    injection E3 as <-. injection E4 as <-. reflexivity. }
  rewrite <- Ecq. cbn [overall_score approval_decision].
  set (cq := code_quality_score hc cc cl).
  set (cat := categorization_score pc).
  pose proof (content_quality_score_mono dl t t' d d' Ht Hd) as Hc.
  set (c := content_quality_score dl t d) in *.
  set (c' := content_quality_score dl t' d') in *.
  assert (weighted_sum (WEIGHTS cls) p cq c cat rec auth
          <= weighted_sum (WEIGHTS cls) p' cq c' cat rec auth) as Ho.
  { unfold weighted_sum.
    assert (popularity (WEIGHTS cls) * p <= popularity (WEIGHTS cls) * p').
    { rewrite !(Qmult_comm (popularity (WEIGHTS cls))).
      now apply Qmult_le_compat_r. }
    assert (content_quality (WEIGHTS cls) * c
            <= content_quality (WEIGHTS cls) * c').
    { rewrite !(Qmult_comm (content_quality (WEIGHTS cls))).
      now apply Qmult_le_compat_r. }
    lra. }
  split; [exact Ho|].
  set (o := weighted_sum (WEIGHTS cls) p cq c cat rec auth) in *.
  set (o' := weighted_sum (WEIGHTS cls) p' cq c' cat rec auth) in *.
  destruct (decision_of_cases cls o) as [[G D]|[(G & L & D)|(G & L & D)]];
    destruct (decision_of_cases cls o')
      as [[G' D']|[(G' & L' & D')|(G' & L' & D')]];
    rewrite D, D'; split; intros E; try reflexivity; try discriminate E.
  - apply ge_true in G. apply ge_false in G'. lra.
  - apply ge_true in G. apply ge_false in G'. lra.
  - apply ge_true in G. apply ge_false in G'. lra.
  - apply lt_false in L. apply lt_true in L'. lra.
Qed.

Lemma score_grows_with_popularity_and_content_witness :
  ∃ qs qs',
    fst (score_loop HeuristicQualityScorer
           (with_signals ScoredSamples.github_features 0.3 false false)
           ScoredSamples.fresh_scorer) = ok qs
    ∧ fst (score_loop HeuristicQualityScorer
             (with_signals ScoredSamples.github_features 1 true false)
             ScoredSamples.fresh_scorer) = ok qs'
    ∧ overall_score qs <= overall_score qs'.
Proof.
  eexists; eexists; split; [vm_compute; reflexivity|].
  split; [vm_compute; reflexivity|].
  refine (proj1 (score_grows_with_popularity_and_content
                   HeuristicQualityScorer ScoredSamples.github_features
                   0.3 1 false true false false
                   ScoredSamples.fresh_scorer ScoredSamples.fresh_scorer
                   _ _ _ _ _ _ _ _ _));
    try (vm_compute; reflexivity); vm_compute; discriminate.
Defined.

End Formula.
Section Trail.
Import quality_scorer ScorerSpec ScoreFormula FormulaFacts FormulaCases.
Local Open Scope Q_scope.

(** X15. The reasoning list of a score [score_loop] returns has two to seven
    lines and ends with the line of the overall score and the decision; it
    has the tutorial line exactly when the record has the tutorial flag, the
    documentation line exactly when it has the documentation flag, the
    no-code line exactly when it has no code, and of the two length lines
    the one the description length calls for (none from 50 to 199). *)
Theorem reasoning_follows_the_record (cls : scorer_class)
    (features : FeatureDict.t) (self : scorer) (qs : QualityScore) :
  fst (score_loop cls features self) = ok qs →
  List.last (reasoning qs) No_code_detected
  = Overall_score (overall_score qs) (approval_decision qs)
  ∧ (2 <= length (reasoning qs) <= 7)%nat
  ∧ (In Has_tutorial_content (reasoning qs)
     ↔ FeatureDict.has_tutorial features = Some true)
  ∧ (In Has_documentation (reasoning qs)
     ↔ FeatureDict.has_documentation features = Some true)
  ∧ (In No_code_detected (reasoning qs)
     ↔ FeatureDict.has_code features = Some false)
  ∧ (In Detailed_description (reasoning qs)
     ↔ ∃ n, FeatureDict.description_length features = Some n
            ∧ (200 <= n)%nat)
  ∧ (In Very_short_description (reasoning qs)
     ↔ ∃ n, FeatureDict.description_length features = Some n
            ∧ (n < 50)%nat).
Proof.
  intros H. rewrite score_loop_factors in H. cbn [fst] in H.
  apply pure_score_inv in H.
  destruct H as (id & p & hc & cc & cl & dl & tut & doc & pc & rec & auth & H).
  destruct H as (_ & _ & Hhc & _ & Hdl & Htut & Hdoc & _ & _ & _ & ->).
  cbn [reasoning overall_score approval_decision].
  rewrite Hhc, Hdl, Htut, Hdoc.
  split; [rewrite !app_assoc; apply List.last_last|].
  assert (∀ P : nat → Prop, (∃ n, Some dl = Some n ∧ P n) ↔ P dl) as Hdl'.
  { intros P. split; [now intros (n & [= <-] & Hn) | intros Hn; eauto]. }
  rewrite !Hdl'. clear Hdl'.
  assert (∀ r, In r (popularity_notes p) →
               r = High_popularity p ∨ r = Low_popularity p) as NP.
  { intros r. unfold popularity_notes.
    destruct (ge p 0.7), (Qle_bool p 0.2); simpl; intuition. }
  assert (∀ r, In r (category_notes pc) →
               r = High_value_category pc ∨ r = General_category) as NC.
  { intros r. unfold category_notes.
    destruct (feature_extractor.str_in pc high_value_categories),
      (String.eqb pc "general"); simpl; intuition. }
  assert (length (popularity_notes p) <= 1)%nat as LP.
  { unfold popularity_notes.
    destruct (ge p 0.7), (Qle_bool p 0.2); simpl; lia. }
  assert (length (category_notes pc) <= 1)%nat as LC.
  { unfold category_notes.
    destruct (feature_extractor.str_in pc high_value_categories),
      (String.eqb pc "general"); simpl; lia. }
  unfold length_notes.
  destruct (Nat.leb_spec 200 dl) as [L1|L1];
    destruct (Nat.ltb_spec dl 50) as [L2|L2]; try lia;
    (split; [rewrite !length_app; destruct tut, doc; simpl; lia|]);
    rewrite !in_app_iff; destruct hc, tut, doc; simpl;
    repeat split; intros Hx; try reflexivity; try lia; try tauto;
    repeat match type of Hx with
           | _ ∨ _ => destruct Hx as [Hx|Hx]
           end;
    try discriminate Hx; try contradiction;
    try (apply NP in Hx as [Hx|Hx]; discriminate Hx);
    try (apply NC in Hx as [Hx|Hx]; discriminate Hx).
Qed.

Lemma reasoning_follows_the_record_witness :
  ∃ qs,
    fst (score_loop HeuristicQualityScorer ScoredSamples.github_features
           ScoredSamples.fresh_scorer) = ok qs
    ∧ List.last (reasoning qs) No_code_detected
      = Overall_score (overall_score qs) (approval_decision qs).
Proof.
  eexists; split; [vm_compute; reflexivity|].
  refine (proj1 (reasoning_follows_the_record HeuristicQualityScorer
                   ScoredSamples.github_features ScoredSamples.fresh_scorer
                   _ _)).
  vm_compute; reflexivity.
Defined.

(** X16. With the class constants of [HeuristicQualityScorer] and signals in
    [0, 1], the overall score lies between 0.065 and 0.97 and the
    confidence between 0 and 0.925: the two caps [min(..., 1.0)] of the
    confidence never take effect, and no score reaches 1. *)
Theorem default_scores_stay_below_the_caps (features : FeatureDict.t)
    (self : scorer) (qs : QualityScore) :
  fst (score_loop HeuristicQualityScorer features self) = ok qs →
  signals_normalized features →
  0.065 <= overall_score qs ∧ overall_score qs <= 0.97
  ∧ 0 <= confidence qs ∧ confidence qs <= 0.925
  ∧ (approval_decision qs = "approved" →
     confidence qs == (overall_score qs - 0.60) / 0.40)
  ∧ (approval_decision qs = "rejected" →
     confidence qs == (0.35 - overall_score qs) / 0.35).
Proof.
  intros H Hn. rewrite score_loop_factors in H. cbn [fst] in H.
  apply pure_score_inv in H.
  destruct H as (id & p & hc & cc & cl & dl & tut & doc & pc & rec & auth & H).
  destruct H as (_ & Hp & Hhc & Hcode & _ & _ & _ & _ & Hr & Ha & ->).
  cbn [overall_score approval_decision confidence].
  assert (in_unit p) as [? ?] by (apply Hn; auto).
  assert (in_unit rec) as [? ?] by (apply Hn; auto).
  assert (in_unit auth) as [? ?] by (apply Hn; auto).
  destruct (code_quality_score_range hc cc cl) as [? ?].
  { intros ->. destruct (Hcode eq_refl) as [E _]. apply Hn. auto. }
  destruct (content_quality_score_range dl tut doc) as [? ?].
  destruct (categorization_score_range pc) as [? ?].
  set (cq := code_quality_score hc cc cl) in *.
  set (c := content_quality_score dl tut doc) in *.
  set (cat := categorization_score pc) in *.
  unfold weighted_sum.
  cbn [WEIGHTS HeuristicQualityScorer popularity code_quality content_quality
         categorization recency author].
  set (o := 0.25 * p + 0.20 * cq + 0.20 * c + 0.15 * cat + 0.10 * rec
            + 0.10 * auth).
  assert (0.065 <= o ∧ o <= 0.97) as [Hlo Hhi] by (unfold o; split; lra).
  split; [exact Hlo|]. split; [exact Hhi|].
  unfold confidence_of, decision_of.
  cbn [APPROVAL_THRESHOLD REJECTION_THRESHOLD HeuristicQualityScorer].
  destruct (ge o 0.60) eqn:G.
  - apply ge_true in G.
    assert (0 <= (o - 0.60) / (1 - 0.60)) as Hc0
      by (apply Qle_shift_div_l; [reflexivity | lra]).
    assert ((o - 0.60) / (1 - 0.60) <= 0.925) as Hc1
      by (apply Qle_shift_div_r; [reflexivity | lra]).
    destruct (fmin_cases ((o - 0.60) / (1 - 0.60)) 1) as [[_ ->]|[? _]];
      [|lra].
    repeat split; try assumption; try discriminate.
  - apply ge_false in G. destruct (lt o 0.35) eqn:L.
    + apply lt_true in L.
      assert (0 <= (0.35 - o) / 0.35) as Hc0
        by (apply Qle_shift_div_l; [reflexivity | lra]).
      assert ((0.35 - o) / 0.35 <= 0.925) as Hc1
        by (apply Qle_shift_div_r; [reflexivity | lra]).
      destruct (fmin_cases ((0.35 - o) / 0.35) 1) as [[_ ->]|[? _]]; [|lra].
      repeat split; try assumption; try discriminate.
    + repeat split; try discriminate; lra.
Qed.

Lemma default_scores_stay_below_the_caps_witness :
  ∃ qs,
    fst (score_loop HeuristicQualityScorer ScoredSamples.github_features
           ScoredSamples.fresh_scorer) = ok qs
    ∧ 0.065 <= overall_score qs.
Proof.
  eexists; split; [vm_compute; reflexivity|].
  refine (proj1 (default_scores_stay_below_the_caps
                   ScoredSamples.github_features ScoredSamples.fresh_scorer
                   _ _ _)).
  - vm_compute; reflexivity.
  - intros q [H|[H|[H|[H|H]]]]; inversion H; subst; split; discriminate.
Defined.

(** X17. [get_summary] never divides by zero and its rates are fractions:
    the total is the sum of the three counters; both rates are in [0, 1] and
    add up to at most 1, to exactly 1 when something was scored and nothing
    needs review; both are 0 when nothing was scored. *)
Theorem get_summary_rates (self : scorer) :
  let s := get_summary self in
  total s = (approved s + rejected s + needs_review s)%nat
  ∧ in_unit (approval_rate s) ∧ in_unit (rejection_rate s)
  ∧ approval_rate s + rejection_rate s <= 1
  ∧ (total s = 0%nat → approval_rate s = 0 ∧ rejection_rate s = 0)
  ∧ ((0 < total s)%nat → needs_review s = 0%nat →
     approval_rate s + rejection_rate s == 1)
  ∧ ((0 < total s)%nat →
     approval_rate s * float_of_nat (total s) == float_of_nat (approved s)
     ∧ rejection_rate s * float_of_nat (total s)
       == float_of_nat (rejected s)).
Proof.
  destruct self as [a r v].
  cbn [get_summary total approved rejected needs_review approval_rate
         rejection_rate approved_count rejected_count review_count].
  split; [reflexivity|].
  destruct (Nat.ltb_spec 0 (a + r + v)) as [Hpos|Hzero].
  - pose proof (float_of_nat_nonneg a) as Ha.
    pose proof (float_of_nat_nonneg r) as Hr.
    pose proof (float_of_nat_nonneg v) as Hv.
    assert (float_of_nat (a + r + v)
            == float_of_nat a + float_of_nat r + float_of_nat v) as Hsum.
    { unfold float_of_nat. rewrite !Nat2Z.inj_add, !inject_Z_plus.
      reflexivity. }
    assert (0 < float_of_nat (a + r + v)) as Ht.
    { unfold float_of_nat. change 0 with (inject_Z 0). rewrite <- Zlt_Qlt.
      lia. }
    set (T := float_of_nat (a + r + v)) in *.
    set (A := float_of_nat a) in *. set (R := float_of_nat r) in *.
    set (V := float_of_nat v) in *.
    assert (A / T * T == A) as EA by (field; lra).
    assert (R / T * T == R) as ER by (field; lra).
    assert (0 <= A / T) as HA0 by (apply Qle_shift_div_l; lra).
    assert (0 <= R / T) as HR0 by (apply Qle_shift_div_l; lra).
    assert (A / T + R / T == (A + R) / T) as Esum by (field; lra).
    assert ((A + R) / T <= 1) as Hle by (apply Qle_shift_div_r; lra).
    assert (A / T <= 1) by (apply Qle_shift_div_r; lra).
    assert (R / T <= 1) by (apply Qle_shift_div_r; lra).
    unfold in_unit. repeat split; try assumption; try lra; try lia.
    + intros _ Ev. subst v.
      assert (V == 0) as EV by reflexivity.
      assert (T == A + R) as ET by lra.
      rewrite Esum, ET. field. lra.
  - assert ((a + r + v)%nat = 0%nat) as E by lia.
    unfold in_unit. repeat split; try lra; try lia; try reflexivity.
Qed.

(** X18. [score_loop] returns exactly for the records that have the nine
    keys it always reads and, when [has_code] is true, [code_complexity] and
    [code_lines] too; on any other record it raises [KeyError] for one of
    its eleven keys and leaves the counters as they were. *)
Theorem score_loop_needs_its_keys (cls : scorer_class)
    (features : FeatureDict.t) (self : scorer) :
  (has_scoring_keys features
   ↔ ∃ qs, fst (score_loop cls features self) = ok qs)
  ∧ (∀ e, fst (score_loop cls features self) = raise e →
          (∃ key, e = KeyError key ∧ In key scoring_keys)
          ∧ snd (score_loop cls features self) = self).
Proof.
  rewrite score_loop_factors. cbn [fst snd]. split.
  - apply pure_score_keys.
  - intros e H. split; [now apply (pure_score_raises cls features)|].
    now rewrite H.
Qed.

Lemma score_loop_needs_its_keys_witness :
  (∃ key,
     KeyError "popularity_score" = KeyError key ∧ In key scoring_keys)
  ∧ snd (score_loop HeuristicQualityScorer ScoredSamples.truncated_features
           ScoredSamples.fresh_scorer) = ScoredSamples.fresh_scorer.
Proof.
  refine (proj2 (score_loop_needs_its_keys HeuristicQualityScorer
                   ScoredSamples.truncated_features
                   ScoredSamples.fresh_scorer) _ _).
  vm_compute; reflexivity.
Defined.

End Trail.

(** ** The filtering stage: what a run writes *)

Module JoinFacts.
Import main FilterFacts FilterSpec.

Section WithHash.
Variable hash : string → Z.

Lemma find_discovery_some (loop_id : string) (discoveries : list Discovery.t)
    (d : Discovery.t) :
  find_discovery hash loop_id discoveries = ok (Some d) →
  In d discoveries
  ∧ ∃ url part,
      Discovery.source_url d = Some url
      ∧ join_token loop_id = Some part
      ∧ PyStr.int part = ok (hash url mod 1000000).
Proof.
  induction discoveries as [|x l IH]; simpl; [discriminate|].
  intros H. apply PyStrFacts.rbind_ok in H as (url & Hu & H).
  apply subscript_ok in Hu.
  apply PyStrFacts.rbind_ok in H as (part & Hp & H).
  apply PyStrFacts.rbind_ok in H as (number & Hn & H).
  destruct (hash url mod 1000000 =? number) eqn:E.
  - inversion H; subst. split; [now left|].
    apply Z.eqb_eq in E. subst number. exists url, part.
    split; [exact Hu|]. split; [|exact Hn].
    unfold join_token.
    destruct (PyStr.split "_" loop_id) as [|a [|b more]];
      try discriminate. now inversion Hp.
  - destruct (IH H) as [Hin Hrest]. split; [now right|exact Hrest].
Qed.

Lemma index_features_last (features : list FeatureDict.t)
    (acc m : gmap string FeatureDict.t) (id : string) (f : FeatureDict.t) :
  index_features features acc = ok m →
  m !! id = Some f →
  (acc !! id = Some f ∧ Forall (fun g => carries id g = false) features)
  ∨ ∃ l1 l2,
      features = l1 ++ f :: l2
      ∧ FeatureDict.loop_id f = Some id
      ∧ Forall (fun g => carries id g = false) l2.
Proof.
  revert acc. induction features as [|g features IH]; intros acc; simpl.
  - intros H Hm. inversion H; subst. left. split; [exact Hm|constructor].
  - destruct (FeatureDict.loop_id g) as [gid|] eqn:Eg; [|discriminate].
    simpl. intros H Hm.
    destruct (IH _ H Hm) as [[Hacc Hno]|(l1 & l2 & -> & Hid & Hno)].
    + destruct (decide (gid = id)) as [->|Hne].
      * rewrite lookup_insert_eq in Hacc. inversion Hacc; subst.
        right. exists [], features. repeat split; assumption.
      * rewrite lookup_insert_ne in Hacc by exact Hne.
        left. split; [exact Hacc|]. constructor; [|exact Hno].
        unfold carries. rewrite Eg. now apply String.eqb_neq.
    + right. exists (g :: l1), l2. repeat split; assumption.
Qed.

Lemma index_features_carried (features : list FeatureDict.t)
    (m : gmap string FeatureDict.t) (id : string) :
  index_features features ∅ = ok m →
  existsb (carries id) features = bool_decide (is_Some (m !! id)).
Proof.
  intros H.
  destruct (index_features_lookup features ∅ m id H) as (Hnone & Hin & Hex).
  destruct (existsb (carries id) features) eqn:E.
  - symmetry. apply bool_decide_eq_true. apply Hex. right.
    apply existsb_exists in E as (f & Hf & Hc). exists f. split; [exact Hf|].
    unfold carries in Hc. destruct (FeatureDict.loop_id f); [|discriminate].
    apply String.eqb_eq in Hc. now subst.
  - symmetry. apply bool_decide_eq_false. intros [f Hf].
    destruct (Hin f Hf) as [Hempty|[Hfin Hid]].
    + rewrite lookup_empty in Hempty. discriminate.
    + assert (existsb (carries id) features = true) as E'.
      { apply existsb_exists. exists f. split; [exact Hfin|].
        unfold carries. rewrite Hid. apply String.eqb_refl. }
      congruence.
Qed.

Lemma filter_loop_sound (features : list FeatureDict.t)
    (m : gmap string FeatureDict.t) (discoveries : list Discovery.t)
    (scores : list (ScoreDict.t quality_scorer.reason))
    (bundles : list approved_loop) :
  index_features features ∅ = ok m →
  filter_loop hash m discoveries scores = ok bundles →
  map score bundles = List.filter (joined features) scores
  ∧ Forall (fun b =>
              ScoreDict.loop_id (score b) = Some (loop_id b)
              ∧ m !! loop_id b = Some (main.features b)
              ∧ find_discovery hash (loop_id b) discoveries
                = ok (discovery b)) bundles.
Proof.
  intros Hm. revert bundles.
  induction scores as [|s scores IH]; intros bundles; simpl.
  - intros H; inversion H; subst. split; [reflexivity|constructor].
  - intros H. apply PyStrFacts.rbind_ok in H as (decision & Hd & H).
    apply subscript_ok in Hd.
    apply PyStrFacts.rbind_ok in H as (appended & Ha & H).
    apply PyStrFacts.rbind_ok in H as (others & Ho & H).
    inversion H; subst; clear H.
    destruct (IH _ Ho) as [IH1 IH2].
    unfold joined at 1. rewrite Hd.
    destruct (String.eqb decision "approved") eqn:Ed.
    + apply PyStrFacts.rbind_ok in Ha as (id & Hid & Ha).
      apply subscript_ok in Hid. rewrite Hid.
      rewrite (index_features_carried features m id Hm).
      destruct (m !! id) as [f|] eqn:Ef.
      * apply PyStrFacts.rbind_ok in Ha as (found & Hf & Ha).
        inversion Ha; subst; clear Ha.
        rewrite bool_decide_eq_true_2 by eauto. simpl.
        split; [now rewrite IH1|].
        constructor; [|exact IH2]. simpl. repeat split; assumption.
      * inversion Ha; subst; clear Ha.
        rewrite bool_decide_eq_false_2 by (intros [? ?]; discriminate).
        simpl. split; assumption.
    + inversion Ha; subst; clear Ha. simpl.
      destruct (ScoreDict.loop_id s); split; assumption.
Qed.

Lemma joined_approved (features : list FeatureDict.t)
    (scores : list (ScoreDict.t quality_scorer.reason)) :
  (length (List.filter (joined features) scores)
   <= approved_decisions scores)%nat.
Proof.
  unfold approved_decisions.
  induction scores as [|s scores IH]; simpl; [lia|].
  unfold joined at 1.
  destruct (ScoreDict.approval_decision s) as [d|]; [|exact IH].
  destruct (String.eqb d "approved"); simpl.
  - destruct (ScoreDict.loop_id s) as [id|]; [|lia].
    destruct (existsb (carries id) features); simpl; lia.
  - destruct (ScoreDict.loop_id s); exact IH.
Qed.

End WithHash.

End JoinFacts.

Section FilterOutput.
Import main FilterFacts FilterSpec JoinFacts.

(** X19. When [filter_approved_loops] returns, the scores of the bundles it
    wrote are, in their order, exactly the approved score records whose
    identifier some feature record carries; the count returned is their
    number, at most the number of approved decisions. *)
Theorem filter_writes_the_joined_scores (hash : string → Z)
    (scores : list (ScoreDict.t quality_scorer.reason))
    (features : list FeatureDict.t) (discoveries : list Discovery.t)
    (bundles : list approved_loop) (count : nat) :
  snd (filter_approved_loops hash scores features discoveries)
  = ok (bundles, count) →
  map score bundles = List.filter (joined features) scores
  ∧ count = length bundles
  ∧ (count <= approved_decisions scores)%nat.
Proof.
  unfold filter_approved_loops.
  destruct (index_features features ∅) as [e|m] eqn:Ei; [discriminate|].
  simpl.
  destruct (filter_loop hash m discoveries scores) as [e|found] eqn:Ef;
    [discriminate|].
  simpl. intros H; inversion H; subst.
  destruct (filter_loop_sound hash features m discoveries scores bundles Ei Ef)
    as [H1 _].
  split; [exact H1|]. split; [reflexivity|].
  rewrite <- (length_map score), H1. apply joined_approved.
Qed.

Lemma filter_writes_the_joined_scores_witness :
  ∃ bundles count,
    snd (filter_approved_loops Samples.hash_seed1
           [quality_scorer.to_dict ScoredSamples.github_score;
            quality_scorer.to_dict ScoredSamples.orphan_score]
           [ScoredSamples.github_features] [Samples.reddit_post])
    = ok (bundles, count)
    ∧ map score bundles
      = [quality_scorer.to_dict ScoredSamples.github_score].
Proof.
  eexists; eexists; split; [vm_compute; reflexivity|].
  refine (eq_trans
            (proj1 (filter_writes_the_joined_scores Samples.hash_seed1
                      [quality_scorer.to_dict ScoredSamples.github_score;
                       quality_scorer.to_dict ScoredSamples.orphan_score]
                      [ScoredSamples.github_features] [Samples.reddit_post]
                      _ _ _)) _).
  - vm_compute; reflexivity.
  - vm_compute; reflexivity.
Defined.

(** X20. Every bundle [filter_approved_loops] writes carries the identifier
    of its score record and the last feature record of the feature file
    with that identifier (a later record with the same identifier replaces
    an earlier one); its discovery, when not null, is a record of the
    discovery file whose URL hashes, modulo 1000000, to the number read
    from the second '_'-separated token of the identifier. *)
Theorem bundle_carries_last_feature_record (hash : string → Z)
    (scores : list (ScoreDict.t quality_scorer.reason))
    (features : list FeatureDict.t) (discoveries : list Discovery.t)
    (bundles : list approved_loop) (count : nat) (b : approved_loop) :
  snd (filter_approved_loops hash scores features discoveries)
  = ok (bundles, count) →
  In b bundles →
  ScoreDict.approval_decision (score b) = Some "approved"
  ∧ ScoreDict.loop_id (score b) = Some (loop_id b)
  ∧ FeatureDict.loop_id (main.features b) = Some (loop_id b)
  ∧ (∃ l1 l2,
       features = l1 ++ main.features b :: l2
       ∧ Forall (fun g => carries (loop_id b) g = false) l2)
  ∧ (∀ d, discovery b = Some d →
          In d discoveries
          ∧ ∃ url part,
              Discovery.source_url d = Some url
              ∧ join_token (loop_id b) = Some part
              ∧ PyStr.int part = ok (hash url mod 1000000)).
Proof.
  unfold filter_approved_loops.
  destruct (index_features features ∅) as [e|m] eqn:Ei; [discriminate|].
  simpl.
  destruct (filter_loop hash m discoveries scores) as [e|found] eqn:Ef;
    [discriminate|].
  simpl. intros H Hb; inversion H; subst.
  destruct (filter_loop_sound hash features m discoveries scores bundles Ei Ef)
    as [H1 H2].
  rewrite List.Forall_forall in H2. destruct (H2 b Hb) as (Hid & Hf & Hd).
  assert (In (score b) (List.filter (joined features) scores)) as Hin.
  { rewrite <- H1. now apply in_map. }
  apply filter_In in Hin as [_ Hj]. unfold joined in Hj.
  destruct (ScoreDict.approval_decision (score b)) as [dec|]; [|discriminate].
  rewrite Hid in Hj. apply andb_true_iff in Hj as [Hdec _].
  apply String.eqb_eq in Hdec. subst dec.
  split; [reflexivity|]. split; [exact Hid|].
  destruct (index_features_last features ∅ m (loop_id b) (main.features b)
              Ei Hf) as [[Hempty _]|(l1 & l2 & Hl & Hfid & Hno)].
  { rewrite lookup_empty in Hempty. discriminate. }
  split; [exact Hfid|]. split; [now exists l1, l2|].
  intros d Hsome. rewrite Hsome in Hd.
  now apply (find_discovery_some hash).
Qed.

Lemma bundle_carries_last_feature_record_witness :
  ∃ b,
    snd (filter_approved_loops Samples.hash_seed1
           [quality_scorer.to_dict ScoredSamples.github_score]
           [ScoredSamples.truncated_features; ScoredSamples.github_features]
           [Samples.github_repo])
    = ok ([b], 1%nat)
    ∧ FeatureDict.loop_id (main.features b) = Some (loop_id b).
Proof.
  eexists; split; [vm_compute; reflexivity|].
  refine (proj1 (proj2 (proj2
            (bundle_carries_last_feature_record Samples.hash_seed1
               [quality_scorer.to_dict ScoredSamples.github_score]
               [ScoredSamples.truncated_features;
                ScoredSamples.github_features]
               [Samples.github_repo] _ _ _ _ _)))).
  - vm_compute; reflexivity.
  - now left.
Defined.

End FilterOutput.

(** ** Source types with an underscore *)

Section Underscore.
Import feature_extractor NumeralFacts FilterSpec.

Lemma append_String_assoc (a b r : string) (c : ascii) :
  (a +:+ String c b) +:+ r = a +:+ String c (b +:+ r).
Proof.
  induction a as [|x a IH]; [reflexivity|].
  change ((String x a +:+ String c b) +:+ r)
    with (String x ((a +:+ String c b) +:+ r)).
  change (String x a +:+ String c (b +:+ r))
    with (String x (a +:+ String c (b +:+ r))).
  now rewrite IH.
Qed.

Lemma join_token_second (a b rest piece : string) (more : list string) :
  ¬ In "_"%char (PyStr.chars a) →
  PyStr.split "_" b = piece :: more →
  join_token ((a +:+ String "_" b) +:+ String "_" rest) = Some piece.
Proof.
  intros Ha Hb. unfold join_token, PyStr.split in *.
  rewrite append_String_assoc, split_aux_app, split_aux_app, Hb.
  rewrite (split_aux_no_sep "_" [] a Ha). reflexivity.
Qed.

(** X21. For a source type with an underscore, the token the filtering
    stage reads from the identifier [extract_features] wrote is not the
    hash: it is the piece of the source type after its first underscore.
    With any discovery list that starts with a record with a URL, the join
    raises what [int] raises on that piece; when the piece is a numeral,
    the join takes the first record whose URL hashes to that number. *)
Theorem underscore_in_source_type_misleads_the_join
    (ast_parse : string → result ast) (hash : string → Z)
    (discovery : Discovery.t) (f : ExtractedFeatures) (a b piece : string)
    (more : list string) :
  extract_features ast_parse hash discovery = ok f →
  Discovery.source_type discovery = Some (a +:+ String "_" b) →
  PyStr.contains "_" a = false →
  PyStr.split "_" b = piece :: more →
  join_token (loop_id f) = Some piece
  ∧ (∀ x rest url e,
       Discovery.source_url x = Some url →
       PyStr.int piece = raise e →
       main.find_discovery hash (loop_id f) (x :: rest) = raise e)
  ∧ (∀ x rest url,
       Discovery.source_url x = Some url →
       PyStr.int piece = ok (hash url mod 1000000) →
       main.find_discovery hash (loop_id f) (x :: rest) = ok (Some x)).
Proof.
  intros Hf Ht Ha Hb.
  destruct (extract_features_hash_only_in_loop_id ast_parse hash hash
              discovery f Hf) as (type & url & Ht' & _ & Hid & _).
  rewrite Ht in Ht'. injection Ht' as <-.
  assert (join_token (loop_id f) = Some piece) as Htok.
  { rewrite Hid.
    apply (join_token_second a b _ piece more); [|exact Hb].
    now apply contains_char. }
  split; [exact Htok|].
  unfold join_token in Htok.
  split.
  - intros x rest u e Hu He. simpl. rewrite Hu. simpl.
    destruct (PyStr.split "_" (loop_id f)) as [|t [|p l]]; try discriminate.
    injection Htok as ->. simpl. rewrite He. reflexivity.
  - intros x rest u Hu Hn. simpl. rewrite Hu. simpl.
    destruct (PyStr.split "_" (loop_id f)) as [|t [|p l]]; try discriminate.
    injection Htok as ->. simpl. rewrite Hn. simpl.
    now rewrite Z.eqb_refl.
Qed.

Lemma underscore_in_source_type_misleads_the_join_witness :
  ∃ f,
    extract_features Samples.reject_all Samples.hash_seed1
      MoreSamples.stack_overflow_answer = ok f
    ∧ join_token (loop_id f) = Some "overflow"
    ∧ main.find_discovery Samples.hash_seed1 (loop_id f)
        [MoreSamples.stack_overflow_answer] = raise (ValueError "overflow").
Proof.
  destruct (extract_features Samples.reject_all Samples.hash_seed1
              MoreSamples.stack_overflow_answer) as [e|f] eqn:E;
    [vm_compute in E; discriminate E|].
  exists f. split; [reflexivity|].
  destruct (underscore_in_source_type_misleads_the_join
              Samples.reject_all Samples.hash_seed1
              MoreSamples.stack_overflow_answer f "stack" "overflow"
              "overflow" [] E eq_refl eq_refl eq_refl) as (H1 & H2 & _).
  split; [exact H1|].
  apply (H2 MoreSamples.stack_overflow_answer []
           "https://stackoverflow.com/a/11" (ValueError "overflow"));
    reflexivity.
Defined.

End Underscore.

(** ** A whole run *)

Module PipelineFacts.
Import ScoreFormula FormulaFacts FormulaCases FilterSpec FilterFacts JoinFacts.

Lemma to_dict_has_scoring_keys (f : feature_extractor.ExtractedFeatures) :
  has_scoring_keys (feature_extractor.to_dict f).
Proof. unfold has_scoring_keys. simpl. repeat split; eauto. Qed.

Lemma pure_score_loop_id (cls : quality_scorer.scorer_class)
    (features : FeatureDict.t) (qs : quality_scorer.QualityScore) :
  pure_score cls features = ok qs →
  FeatureDict.loop_id features = Some (quality_scorer.loop_id qs).
Proof.
  intros H. apply pure_score_inv in H.
  destruct H as (id & p & hc & cc & cl & dl & tut & doc & pc & rec & auth & H).
  destruct H as (Hid & _ & _ & _ & _ & _ & _ & _ & _ & _ & ->). exact Hid.
Qed.

Section Run.
Variable ast_parse : string → result feature_extractor.ast.
Variable hash : string → Z.
Variable cls : quality_scorer.scorer_class.

Lemma extracted_provenance (batch : list Discovery.t) (fd : FeatureDict.t) :
  In fd (fst (feature_extractor.process_discoveries ast_parse hash batch)) →
  ∃ d f, In d batch
         ∧ feature_extractor.extract_features ast_parse hash d = ok f
         ∧ fd = feature_extractor.to_dict f.
Proof.
  unfold feature_extractor.process_discoveries.
  pose proof (process_loop_accounts ast_parse hash (length batch) 0 batch)
    as [H _].
  destruct (feature_extractor.process_loop ast_parse hash (length batch) 0
              batch) as [out lg].
  simpl in H. cbn [fst]. rewrite H. intros Hin.
  apply in_flat_map in Hin as (d & Hd & Hin).
  destruct (feature_extractor.extract_features ast_parse hash d) as [e|f]
    eqn:E; [destruct Hin|].
  destruct Hin as [<-|[]]. now exists d, f.
Qed.

Lemma extracted_at_most (batch : list Discovery.t) :
  (length (fst (feature_extractor.process_discoveries ast_parse hash batch))
   <= length batch)%nat.
Proof.
  unfold feature_extractor.process_discoveries.
  pose proof (process_loop_accounts ast_parse hash (length batch) 0 batch)
    as [H _].
  destruct (feature_extractor.process_loop ast_parse hash (length batch) 0
              batch) as [out lg].
  simpl in H. cbn [fst]. rewrite H. clear.
  induction batch as [|d batch IH]; simpl; [lia|].
  rewrite length_app.
  destruct (feature_extractor.extract_features ast_parse hash d); simpl; lia.
Qed.

Lemma score_loop_all_scores (total i : nat) (features : list FeatureDict.t)
    (self : quality_scorer.scorer) :
  Forall has_scoring_keys features →
  Forall2 (fun fd qs => pure_score cls fd = ok qs) features
    (fst (fst (quality_scorer.score_loop_all cls total i features self))).
Proof.
  intros H. revert i self. induction H as [|fd l Hk _ IH]; intros i self.
  - constructor.
  - simpl. rewrite score_loop_factors.
    apply (pure_score_keys cls) in Hk as [qs Hqs]. rewrite Hqs.
    cbv [ok]. cbn [count_result]. specialize (IH (S i)
      (count_decision (quality_scorer.approval_decision qs) self)).
    destruct (quality_scorer.score_loop_all cls total (S i) l
                (count_decision (quality_scorer.approval_decision qs) self))
      as [[o g] s].
    simpl in *. now constructor.
Qed.

Lemma index_features_total (features : list FeatureDict.t)
    (acc : gmap string FeatureDict.t) :
  Forall (fun fd => is_Some (FeatureDict.loop_id fd)) features →
  ∃ m, main.index_features features acc = ok m.
Proof.
  intros H. revert acc. induction H as [|fd l [id Hid] _ IH]; intros acc.
  - now exists acc.
  - simpl. rewrite Hid. simpl. apply IH.
Qed.

Lemma filter_loop_total (m : gmap string FeatureDict.t)
    (discoveries : list Discovery.t)
    (scores : list quality_scorer.QualityScore) :
  Forall (fun qs =>
            quality_scorer.approval_decision qs = "approved" →
            is_Some (m !! quality_scorer.loop_id qs)
            ∧ ∃ found,
                main.find_discovery hash (quality_scorer.loop_id qs)
                  discoveries = ok (Some found)) scores →
  ∃ bundles,
    main.filter_loop hash m discoveries (map quality_scorer.to_dict scores)
    = ok bundles
    ∧ length bundles = decided_as "approved" scores
    ∧ Forall (fun b => ∃ d, main.discovery b = Some d) bundles.
Proof.
  intros H. induction H as [|qs l Hqs _ (bundles & Hb & Hlen & Hall)].
  - exists []. repeat split. constructor.
  - simpl. rewrite Hb. rewrite decided_as_cons.
    destruct (String.eqb (quality_scorer.approval_decision qs) "approved")
      eqn:E.
    + apply String.eqb_eq in E.
      destruct (Hqs E) as [[fd Hfd] [found Hfound]].
      rewrite Hfd, Hfound. simpl. eexists. split; [reflexivity|].
      split; [simpl; now rewrite Hlen|].
      constructor; [|exact Hall]. now exists found.
    + simpl. exists bundles. repeat split; assumption.
Qed.

Lemma run_full_pipeline_accounts (found : list web_scraper.LoopDiscovery)
    (scorer : quality_scorer.scorer) :
  Forall (fun d => PyStr.contains "_" (web_scraper.source_type d) = false)
    found →
  ∃ stats bundles,
    main.run_full_pipeline ast_parse hash cls found scorer
    = ok (stats, bundles)
    ∧ PipelineStats.discoveries stats = length found
    ∧ (PipelineStats.features_extracted stats <= length found)%nat
    ∧ quality_scorer.total (PipelineStats.scoring_summary stats)
      = (quality_scorer.total (quality_scorer.get_summary scorer)
         + PipelineStats.features_extracted stats)%nat
    ∧ quality_scorer.approved (PipelineStats.scoring_summary stats)
      = (quality_scorer.approved (quality_scorer.get_summary scorer)
         + PipelineStats.approved_loops stats)%nat
    ∧ PipelineStats.approved_loops stats = length bundles
    ∧ Forall (fun b => ∃ d, main.discovery b = Some d
                            ∧ In d (web_scraper.save_discoveries found))
        bundles.
Proof.
  intros Hfound.
  unfold main.run_full_pipeline, main.run_feature_extraction,
    main.run_quality_scoring, quality_scorer.score_all_loops.
  set (file := web_scraper.save_discoveries found).
  pose proof (extracted_provenance file) as Hprov.
  pose proof (extracted_at_most file) as Hmost.
  destruct (feature_extractor.process_discoveries ast_parse hash file)
    as [features lg] eqn:Ep.
  cbn [fst] in Hprov, Hmost.
  assert (Forall has_scoring_keys features) as Hkeys.
  { apply List.Forall_forall. intros fd Hfd.
    destruct (Hprov fd Hfd) as (d & f & _ & _ & ->).
    apply to_dict_has_scoring_keys. }
  pose proof (score_loop_all_scores (length features) 0 features scorer Hkeys)
    as Hscores.
  pose proof (score_loop_all_accounts cls (length features) 0 features scorer)
    as Hacc.
  destruct (quality_scorer.score_loop_all cls (length features) 0 features
              scorer) as [[scores logged] scorer'].
  cbn [fst] in Hscores. destruct Hacc as (_ & Ha & Hr & Hv & Hsum).
  pose proof (Forall2_length _ _ _ Hscores) as Hlen.
  assert (Forall (fun x => ∃ u, Discovery.source_url x = Some u) file)
    as Hurls.
  { unfold file, web_scraper.save_discoveries. apply List.Forall_forall.
    intros x Hx. apply in_map_iff in Hx as (ld & <- & _). simpl. eauto. }
  destruct (index_features_total features ∅) as [m Hm].
  { apply List.Forall_forall. intros fd Hfd.
    destruct (Hprov fd Hfd) as (d & f & _ & _ & ->). simpl. eauto. }
  destruct (filter_loop_total m file scores) as (bundles & Hb & Hbl & Hball).
  { apply List.Forall_forall. intros qs Hqs _.
    assert (∃ fd, In fd features ∧ pure_score cls fd = ok qs)
      as (fd & Hfd & Hpure).
    { clear - Hscores Hqs. induction Hscores as [|a b l l' Hab _ IH].
      - destruct Hqs.
      - destruct Hqs as [<-|Hqs].
        + exists a. split; [now left|exact Hab].
        + destruct (IH Hqs) as (fd & Hin & Hp). exists fd.
          split; [now right|exact Hp]. }
    pose proof (pure_score_loop_id cls fd qs Hpure) as Hid.
    destruct (Hprov fd Hfd) as (d & f & Hd & Hf & ->).
    simpl in Hid. injection Hid as Hid.
    split.
    - destruct (index_features_lookup features ∅ m
                  (quality_scorer.loop_id qs) Hm) as (_ & _ & Hex).
      apply Hex. right. exists (feature_extractor.to_dict f).
      split; [exact Hfd|]. simpl. now rewrite Hid.
    - unfold file, web_scraper.save_discoveries in Hd.
      apply in_map_iff in Hd as (ld & <- & Hld).
      rewrite List.Forall_forall in Hfound.
      destruct (join_finds_first ast_parse hash (web_scraper.to_dict ld) f
                  (web_scraper.source_type ld) (web_scraper.source_url ld)
                  file Hf eq_refl eq_refl (Hfound ld Hld))
        as (before & x & after & u & _ & Hfind & _).
      + unfold file, web_scraper.save_discoveries. now apply in_map.
      + exact Hurls.
      + exists x. now rewrite <- Hid. }
  unfold main.filter_approved_loops. rewrite Hm. simpl. rewrite Hb.
  cbn [snd]. eexists; eexists. split; [reflexivity|].
  cbn [PipelineStats.discoveries PipelineStats.features_extracted
         PipelineStats.scoring_summary PipelineStats.approved_loops
         quality_scorer.get_summary quality_scorer.total
         quality_scorer.approved].
  split; [reflexivity|]. split.
  { unfold file, web_scraper.save_discoveries in Hmost.
    now rewrite length_map in Hmost. }
  split; [lia|]. split; [lia|]. split; [reflexivity|].
  rewrite List.Forall_forall in Hball |- *. intros b Hbin.
  destruct (Hball b Hbin) as [d Hd]. exists d. split; [exact Hd|].
  destruct (filter_loop_sound hash features m file
              (map quality_scorer.to_dict scores) bundles Hm Hb) as [_ Hs].
  rewrite List.Forall_forall in Hs. destruct (Hs b Hbin) as (_ & _ & Hfd).
  rewrite Hd in Hfd. now apply (find_discovery_some hash) in Hfd as [Hin _].
Qed.

End Run.

End PipelineFacts.

Section WholeRun.
Import PipelineFacts.

(** X22. A run of [run_full_pipeline] on what the scrapers found, with
    source types without underscore, ends with status success whatever the
    records are: the extractor returns at most one feature record per
    discovery, the scorer scores every one of them (the summary's total
    grows by the number of feature records), and the filtering stage
    bundles every loop the scorer approved in this run, each with a
    discovery record of the discovery file.  The summary, and with it the
    approval rate of the statistics, also counts what the same scorer
    object scored before the run. *)
Theorem run_bundles_every_approved_loop
    (ast_parse : string → result feature_extractor.ast) (hash : string → Z)
    (cls : quality_scorer.scorer_class)
    (found : list web_scraper.LoopDiscovery)
    (scorer : quality_scorer.scorer) :
  Forall (fun d => PyStr.contains "_" (web_scraper.source_type d) = false)
    found →
  ∃ stats bundles,
    main.run_full_pipeline ast_parse hash cls found scorer
    = ok (stats, bundles)
    ∧ PipelineStats.discoveries stats = length found
    ∧ (PipelineStats.features_extracted stats <= length found)%nat
    ∧ quality_scorer.total (PipelineStats.scoring_summary stats)
      = (quality_scorer.total (quality_scorer.get_summary scorer)
         + PipelineStats.features_extracted stats)%nat
    ∧ quality_scorer.approved (PipelineStats.scoring_summary stats)
      = (quality_scorer.approved (quality_scorer.get_summary scorer)
         + PipelineStats.approved_loops stats)%nat
    ∧ PipelineStats.approved_loops stats = length bundles
    ∧ Forall (fun b => ∃ d, main.discovery b = Some d
                            ∧ In d (web_scraper.save_discoveries found))
        bundles.
Proof. apply run_full_pipeline_accounts. Qed.

Lemma run_bundles_every_approved_loop_witness :
  ∃ stats bundles,
    main.run_full_pipeline Samples.reject_all Samples.hash_seed1
      quality_scorer.HeuristicQualityScorer MoreSamples.found_two
      ScoredSamples.fresh_scorer = ok (stats, bundles)
    ∧ PipelineStats.discoveries stats = 2%nat.
Proof.
  destruct (run_bundles_every_approved_loop Samples.reject_all
              Samples.hash_seed1 quality_scorer.HeuristicQualityScorer
              MoreSamples.found_two ScoredSamples.fresh_scorer)
    as (stats & bundles & H & Hd & _).
  - repeat constructor.
  - exists stats, bundles. split; [exact H|exact Hd].
Defined.

End WholeRun.

(** ** The keyword test of the scrapers *)

Module KeywordFacts.
Import PyStr.





Lemma prefix_spec (sub s : string) :
  String.prefix sub s = true ↔ ∃ b, s = sub +:+ b.
Proof.
  revert s. induction sub as [|c sub IH]; intros s.
  - split; [intros _; now exists s | intros _; destruct s; reflexivity].
  - destruct s as [|d s]; simpl.
    + split; [discriminate | intros [b Hb]; discriminate Hb].
    + destruct (ascii_dec c d) as [->|Hne].
      * rewrite IH. split; intros [b Hb]; exists b.
        -- now rewrite Hb.
        -- change (String d sub +:+ b) with (String d (sub +:+ b)) in Hb.
           now injection Hb.
      * split; [discriminate|]. intros [b Hb].
        change (String c sub +:+ b) with (String c (sub +:+ b)) in Hb.
        injection Hb as Hd _. congruence.
Qed.

Lemma contains_nil (sub : string) :
  contains sub "" = String.prefix sub "".
Proof. destruct sub; reflexivity. Qed.

Lemma contains_cons (sub : string) (c : ascii) (r : string) :
  contains sub (String c r)
  = if String.prefix sub (String c r) then true else contains sub r.
Proof. reflexivity. Qed.

Lemma contains_spec (sub s : string) :
  contains sub s = true ↔ ∃ a b, s = a +:+ sub +:+ b.
Proof.
  split.
  - induction s as [|c s IH].
    + rewrite contains_nil. intros E.
      apply prefix_spec in E as [b Hb]. now exists "", b.
    + rewrite contains_cons.
      destruct (String.prefix sub (String c s)) eqn:E.
      * intros _. apply prefix_spec in E as [b Hb]. now exists "", b.
      * intros H. destruct (IH H) as (a & b & ->).
        now exists (String c a), b.
  - intros (a & b & ->). induction a as [|c a IH].
    + assert (String.prefix sub (sub +:+ b) = true) as E
        by (apply prefix_spec; now exists b).
      change ("" +:+ sub +:+ b) with (sub +:+ b).
      destruct (sub +:+ b) as [|d r].
      * now rewrite contains_nil.
      * now rewrite contains_cons, E.
    + change (String c a +:+ sub +:+ b) with (String c (a +:+ sub +:+ b)).
      rewrite contains_cons.
      destruct (String.prefix sub (String c (a +:+ sub +:+ b)));
        [reflexivity|exact IH].
Qed.


End KeywordFacts.

Section KeywordTest.
Import KeywordFacts.


End KeywordTest.

(** ** Text levels and line-based code quality *)

Section TextLevels.
Import feature_extractor ExtractorSpec KeywordFacts.

Lemma any_in_substring (keywords : list string) (text k a b : string) :
  In k keywords → text = a +:+ k +:+ b → any_in keywords text = true.
Proof.
  intros Hk ->. unfold any_in. apply existsb_exists. exists k.
  split; [exact Hk|]. apply contains_spec. now exists a, b.
Qed.

(** X24. [detect_complexity_level] takes the first level, in the order
    beginner, intermediate, advanced, one of whose keywords occurs in the
    lower-cased text: a beginner keyword wins over any other, and
    'advanced' needs an advanced keyword and no keyword of the other two
    levels.  A text with 'tutorial' or 'learn' in it is both a tutorial for
    [has_tutorial_indicators] and of level 'beginner'. *)
Theorem complexity_level_takes_first_level (text : string) :
  let lowered := PyStr.lower text in
  let beginner :=
    any_in ["simple"; "basic"; "beginner"; "tutorial"; "learn"; "intro"]
      lowered in
  let intermediate :=
    any_in ["intermediate"; "moderate"; "practical"; "real-world"] lowered in
  let advanced :=
    any_in ["advanced"; "complex"; "production"; "scalable"; "enterprise"]
      lowered in
  (detect_complexity_level text = "beginner" ↔ beginner = true)
  ∧ (detect_complexity_level text = "advanced"
     ↔ beginner = false ∧ intermediate = false ∧ advanced = true)
  ∧ (detect_complexity_level text = "intermediate"
     ↔ beginner = false ∧ (intermediate = true ∨ advanced = false))
  ∧ (∀ a b,
       lowered = a +:+ "tutorial" +:+ b ∨ lowered = a +:+ "learn" +:+ b →
       has_tutorial_indicators text = true
       ∧ detect_complexity_level text = "beginner").
Proof.
  intros lowered beginner intermediate advanced.
  assert (detect_complexity_level text
          = if beginner then "beginner"
            else if intermediate then "intermediate"
            else if advanced then "advanced" else "intermediate") as E.
  { unfold detect_complexity_level, COMPLEXITY_KEYWORDS.
    cbn [List.find snd]. fold lowered. fold beginner intermediate advanced.
    destruct beginner, intermediate, advanced; reflexivity. }
  split; [|split; [|split]].
  - rewrite E. destruct beginner, intermediate, advanced;
      split; intros H; try reflexivity; discriminate H.
  - rewrite E. destruct beginner, intermediate, advanced;
      split; intros H; try (repeat split; reflexivity);
      try discriminate H; destruct H as (H1 & H2 & H3); discriminate.
  - rewrite E. destruct beginner, intermediate, advanced;
      split; intros H; try reflexivity; try discriminate H;
      try (split; [reflexivity | tauto]);
      destruct H as (H1 & [H2|H2]); discriminate.
  - intros a b H.
    assert (beginner = true) as Hb.
    { destruct H as [H|H].
      - apply (any_in_substring _ lowered "tutorial" a b); [|exact H].
        simpl; tauto.
      - apply (any_in_substring _ lowered "learn" a b); [|exact H].
        simpl; tauto. }
    split; [|rewrite E, Hb; reflexivity].
    unfold has_tutorial_indicators. fold lowered.
    destruct H as [H|H].
    + apply (any_in_substring _ lowered "tutorial" a b); [|exact H].
      simpl; tauto.
    + apply (any_in_substring _ lowered "learn" a b); [|exact H].
      simpl; tauto.
Qed.

End TextLevels.

Section LineBased.
Import feature_extractor ExtractorSpec ScoreFormula.
Local Open Scope Q_scope.




End LineBased.
